(** * bupt-auth: the login state machine of [src/index.ts]

    A shallow embedding of [login], [refresh], [getUserRoles] and the
    private [getCookieAndExecution], together with the properties of the
    login protocol that the specification states.

    Conventions.
    - A JavaScript string is a Rocq [string] holding its UTF-8 bytes; the
      literals of the source are copied as they are.  A string with a lone
      surrogate has no UTF-8 form and is outside of the model.  A number is
      an integer: [maxRetries] is read as a count.
    - [fetch] and [Math.random] are calls to the environment: a world state
      is threaded through the program.  The [onCaptcha] callback is a
      function of the options.  Every request and every call of the callback
      is appended to a trace, in order.
    - A rejected promise or a [throw] is the [Rejected] outcome of the monad.
    - Response payloads read through [res.json()] have the type the source
      casts them to ([UserInfo], [RoleInfo[]], [{ text?, detail? }]). *)

From Stdlib Require Import String Ascii List ZArith Lia Bool Arith.
From Stdlib Require Import DecimalString.
Import ListNotations.

Local Open Scope string_scope.
Local Open Scope Z_scope.

(* ===================================================================== *)
(** ** Strings *)
(* ===================================================================== *)

Module Str.

Definition chr (n : nat) : string := String (ascii_of_nat n) EmptyString.

(** The characters that cannot be written inside a literal here. *)
Definition dquote : string := chr 34.
Definition LF : string := chr 10.
Definition CR : string := chr 13.
(** U+2028 and U+2029 in UTF-8. *)
Definition LS : string := chr 226 ++ chr 128 ++ chr 168.
Definition PS : string := chr 226 ++ chr 128 ++ chr 169.

(** JavaScript truthiness of a string: non-empty. *)
Definition truthy (s : string) : bool :=
  match s with EmptyString => false | String _ _ => true end.

(** [strip_prefix p s] is the rest of [s] after the literal [p], when [s]
    starts with [p]. *)
Fixpoint strip_prefix (p s : string) : option string :=
  match p with
  | EmptyString => Some s
  | String a p' =>
      match s with
      | EmptyString => None
      | String b s' => if Ascii.eqb a b then strip_prefix p' s' else None
      end
  end.

(** Leftmost occurrence of the literal [pat] in [s]: the text before it and
    the text after it. *)
Fixpoint find_after (pat s : string) : option (string * string) :=
  match strip_prefix pat s with
  | Some rest => Some (EmptyString, rest)
  | None =>
      match s with
      | EmptyString => None
      | String c s' =>
          match find_after pat s' with
          | Some (b, r) => Some (String c b, r)
          | None => None
          end
      end
  end.

Definition contains (pat s : string) : bool :=
  match find_after pat s with Some _ => true | None => false end.

(** A regular expression's [.] (without the [s] flag) matches no line
    terminator: LF, CR, U+2028, U+2029. *)
Definition has_line_terminator (s : string) : bool :=
  contains LF s || contains CR s || contains LS s || contains PS s.

(** [s.split(sep)[0]] for a one-character separator. *)
Definition split_first (sep s : string) : string :=
  match find_after sep s with
  | Some (b, _) => b
  | None => s
  end.

(** [s.slice(from, to)] for [0 <= from <= to]. *)
Definition slice (from to : nat) (s : string) : string :=
  substring from (to - from) s.

Fixpoint concat_with (sep : string) (l : list string) : string :=
  match l with
  | [] => EmptyString
  | [x] => x
  | x :: l' => x ++ sep ++ concat_with sep l'
  end.

(** Number to string, for integers (an HTTP status). *)
Definition of_Z (z : Z) : string := NilZero.string_of_int (Z.to_int z).

Definition lower_ascii (c : ascii) : ascii :=
  let n := nat_of_ascii c in
  if ((65 <=? n)%nat && (n <=? 90)%nat)%bool then ascii_of_nat (n + 32) else c.

Fixpoint to_lower (s : string) : string :=
  match s with
  | EmptyString => EmptyString
  | String c s' => String (lower_ascii c) (to_lower s')
  end.

Definition is_digit (c : ascii) : bool :=
  let n := nat_of_ascii c in ((48 <=? n)%nat && (n <=? 57)%nat)%bool.

Fixpoint all_digits (s : string) : bool :=
  match s with
  | EmptyString => true
  | String c s' => (is_digit c && all_digits s')%bool
  end.

Definition is_alnum (c : ascii) : bool :=
  let n := nat_of_ascii c in
  (((48 <=? n)%nat && (n <=? 57)%nat)
   || ((65 <=? n)%nat && (n <=? 90)%nat)
   || ((97 <=? n)%nat && (n <=? 122)%nat))%bool.

Definition hex_digit (n : nat) : ascii :=
  if (n <? 10)%nat then ascii_of_nat (48 + n) else ascii_of_nat (55 + n).

Definition percent (c : ascii) : string :=
  let n := nat_of_ascii c in
  String "%" (String (hex_digit (n / 16)) (String (hex_digit (n mod 16)) EmptyString)).

Definition mem_ascii (c : ascii) (set : string) : bool :=
  contains (String c EmptyString) set.

(** [encodeURIComponent] on a well-formed string: letters, digits and
    [-_.!~*'()] stay, every other byte of the UTF-8 encoding is
    percent-encoded.  (The [URIError] of the function is for a lone
    surrogate, which no string of the model holds.) *)
Fixpoint encodeURIComponent (s : string) : string :=
  match s with
  | EmptyString => EmptyString
  | String c s' =>
      (if (is_alnum c || mem_ascii c "-_.!~*'()")%bool
       then String c EmptyString else percent c)
      ++ encodeURIComponent s'
  end.

(** The [application/x-www-form-urlencoded] serializer behind
    [URLSearchParams.toString]. *)
Fixpoint form_encode (s : string) : string :=
  match s with
  | EmptyString => EmptyString
  | String c s' =>
      (if (is_alnum c || mem_ascii c "*-._")%bool then String c EmptyString
       else if Ascii.eqb c " " then "+" else percent c)
      ++ form_encode s'
  end.

Definition URLSearchParams_toString (params : list (string * string)) : string :=
  concat_with "&" (map (fun kv => form_encode (fst kv) ++ "=" ++ form_encode (snd kv)) params).

(** U+FFFD, the replacement character, in UTF-8. *)
Definition REPLACEMENT : string := chr 239 ++ chr 191 ++ chr 189.

(** The platform's UTF-8 decoder without fatal errors, read on bytes: a
    well-formed sequence is kept, every maximal ill-formed part becomes
    U+FFFD.  [pending] holds the bytes of the sequence being read, [needed]
    the number of continuation bytes it still wants, [lo] and [hi] the
    bounds of the next one; a byte out of the bounds ends the sequence with
    U+FFFD and is read again as the first byte of the next one. *)
Fixpoint utf8_lossy_from (pending : string) (needed lo hi : nat) (s : string)
  : string :=
  match s with
  | EmptyString =>
      match needed with O => EmptyString | S _ => REPLACEMENT end
  | String b s' =>
      let n := nat_of_ascii b in
      let first :=
        if (n <? 128)%nat then String b (utf8_lossy_from EmptyString 0 128 191 s')
        else if ((194 <=? n) && (n <=? 223))%nat%bool then
          utf8_lossy_from (String b EmptyString) 1 128 191 s'
        else if ((224 <=? n) && (n <=? 239))%nat%bool then
          utf8_lossy_from (String b EmptyString) 2
            (if (n =? 224)%nat then 160 else 128)
            (if (n =? 237)%nat then 159 else 191) s'
        else if ((240 <=? n) && (n <=? 244))%nat%bool then
          utf8_lossy_from (String b EmptyString) 3
            (if (n =? 240)%nat then 144 else 128)
            (if (n =? 244)%nat then 143 else 191) s'
        else REPLACEMENT ++ utf8_lossy_from EmptyString 0 128 191 s' in
      match needed with
      | O => first
      | S rest =>
          if ((lo <=? n) && (n <=? hi))%nat%bool then
            match rest with
            | O =>
                pending ++ String b (utf8_lossy_from EmptyString 0 128 191 s')
            | S _ =>
                utf8_lossy_from (pending ++ String b EmptyString) rest 128 191 s'
            end
          else REPLACEMENT ++ first
      end
  end.

Definition utf8_lossy (s : string) : string :=
  utf8_lossy_from EmptyString 0 128 191 s.

End Str.

(* ===================================================================== *)
(** ** The three patterns the source scrapes the pages with *)
(* ===================================================================== *)

Module Scrape.
Import Str.

(** Capture of a lazy [(.*?)] closed by the literal [close]: the text up to
    the first [close], which must hold no line terminator. *)
Definition lazy_until (close s : string) : option string :=
  match find_after close s with
  | Some (v, _) => if has_line_terminator v then None else Some v
  | None => None
  end.

Definition execution_open : string :=
  "<input name=" ++ dquote ++ "execution" ++ dquote ++ " value=" ++ dquote.

(** [html.match(/<input name="execution" value="(.*?)"/)]: [None] is
    [null], [Some v] a match whose group 1 is [v]. *)
Fixpoint match_execution (html : string) : option string :=
  let next :=
    match html with
    | EmptyString => None
    | String _ h' => match_execution h'
    end in
  match strip_prefix execution_open html with
  | Some rest =>
      match lazy_until dquote rest with
      | Some v => Some v
      | None => next
      end
  | None => next
  end.

(** One [.]: a single UTF-16 code unit that is no line terminator, that is
    a one-, two- or three-byte UTF-8 character other than LF, CR, U+2028,
    U+2029. *)
Definition skip_dot (s : string) : option string :=
  match s with
  | EmptyString => None
  | String c s1 =>
      let n := nat_of_ascii c in
      if (n <? 128)%nat then
        if ((n =? 10)%nat || (n =? 13)%nat)%bool then None else Some s1
      else if ((194 <=? n)%nat && (n <=? 223)%nat)%bool then
        match s1 with String _ s2 => Some s2 | EmptyString => None end
      else if ((224 <=? n)%nat && (n <=? 239)%nat)%bool then
        match strip_prefix LS s, strip_prefix PS s with
        | None, None =>
            match s1 with
            | String _ (String _ s3) => Some s3
            | _ => None
            end
        | _, _ => None
        end
      else None
  end.

(** After the [{]: the greedy [[^}]*] stops at the last place before the
    first [}] where [id: '(.*?)'] matches. *)
Fixpoint last_id_match (s : string) : option string :=
  let here :=
    match strip_prefix "id: '" s with
    | Some rest => lazy_until "'" rest
    | None => None
    end in
  match s with
  | EmptyString => here
  | String c s' =>
      if Ascii.eqb c "}" then here
      else match last_id_match s' with
           | Some v => Some v
           | None => here
           end
  end.

(** [html.match(/config.captcha[^{]*{[^}]*id: '(.*?)'/)], group 1. *)
Fixpoint match_captcha (html : string) : option string :=
  let here :=
    match strip_prefix "config" html with
    | Some r1 =>
        match skip_dot r1 with
        | Some r2 =>
            match strip_prefix "captcha" r2 with
            | Some r3 =>
                match find_after "{" r3 with
                | Some (_, r4) => last_id_match r4
                | None => None
                end
            | None => None
            end
        | None => None
        end
    | None => None
    end in
  match here with
  | Some v => Some v
  | None =>
      match html with
      | EmptyString => None
      | String _ h' => match_captcha h'
      end
  end.

Definition errorDiv_open : string :=
  "<div class=" ++ dquote ++ "alert alert-danger" ++ dquote
    ++ " id=" ++ dquote ++ "errorDiv" ++ dquote ++ ">".

(** [/<div class="alert alert-danger" id="errorDiv">.*?<p>(.*?)<\/p>.*?<\/div>/gs.exec(html)],
    group 1.  With the [s] flag [.] matches every character, so each lazy
    part runs to the first occurrence of what follows it. *)
Definition match_errorDiv (html : string) : option string :=
  match find_after errorDiv_open html with
  | Some (_, r1) =>
      match find_after "<p>" r1 with
      | Some (_, r2) =>
          match find_after "</p>" r2 with
          | Some (msg, r3) =>
              match find_after "</div>" r3 with
              | Some _ => Some msg
              | None => None
              end
          | None => None
          end
      | None => None
      end
  | None => None
  end.

End Scrape.

(* ===================================================================== *)
(** ** Data model *)
(* ===================================================================== *)

(** [class LoginError extends Error], [class OCRError extends Error], and the
    errors of the platform ([TypeError], [SyntaxError], ...). *)
Inductive ErrorClass : Type :=
| LoginError
| OCRError
| PlatformError (name : string).

(** What a [throw] or a rejected promise carries: an [Error] object, or any
    other value, kept as its [String(...)] rendering ([throw null] is
    [NonError "null"]). *)
Inductive Thrown : Type :=
| Err (cls : ErrorClass) (message : string)
| NonError (rendered : string).

Inductive Outcome (A : Type) : Type :=
| Resolved (a : A)
| Rejected (e : Thrown).
Arguments Resolved {A} a.
Arguments Rejected {A} e.

(** How a promise of the platform ([fetch], [res.json()]) settles: with a
    value, or with an [Error] object of the platform (a [TypeError] for a
    network failure, a [SyntaxError] for a body that is not JSON). *)
Inductive Settled (A : Type) : Type :=
| Fulfilled (a : A)
| Failed (name message : string).
Arguments Fulfilled {A} a.
Arguments Failed {A} name message.

Definition platform_error (name message : string) : Thrown :=
  Err (PlatformError name) message.

Record UserInfo : Type := {
  access_token : string;
  token_type : string;
  refresh_token : string;
  expires_in : Z;
  scope : string;
  tenant_id : string;
  license : string;
  loginId : string;
  user_id : string;
  user_name : string;
  real_name : string;
  avatar : string;
  dept_id : string;
  client_id : string;
  account : string;
  jti : string
}.

Inductive Role : Type := Student | Teacher | Assistant.

(** The string value of each member of [enum Role]. *)
Definition Role_value (r : Role) : string :=
  match r with
  | Student => "学生"
  | Teacher => "教师"
  | Assistant => "助教"
  end.

(** [===] on two members of the enum. *)
Definition Role_eqb (a b : Role) : bool :=
  match a, b with
  | Student, Student | Teacher, Teacher | Assistant, Assistant => true
  | _, _ => false
  end.

Record RoleInfo : Type := {
  id : string;
  roleId : string;
  roleAliase : string;
  roleName : Role;
  domainId : string;
  domainName : string
}.

(** [ocr?: { token: string; maxRetries?: number }], the number an integer. *)
Record OcrOptions : Type := {
  token : string;
  maxRetries : option Z
}.

(** [onCaptcha?: (captchaUrl, cookie) => PromiseLike<string>]: the promise it
    returns resolves with a text or rejects. *)
Definition CaptchaCallback : Type := string -> string -> Outcome string.

Record LoginOptions : Type := {
  role : option Role;
  onCaptcha : option CaptchaCallback;
  ocr : option OcrOptions
}.

(** The object [getCookieAndExecution] resolves with. *)
Record SessionData : Type := {
  sd_id : string;
  sd_cookie : string;
  sd_execution : string;
  sd_captcha : option string
}.

(** [UserInfo & { roles: RoleInfo[] }] *)
Record LoginResult : Type := {
  info : UserInfo;
  roles : list RoleInfo
}.

(* ===================================================================== *)
(** ** The environment: HTTP, the callback, the random source *)
(* ===================================================================== *)

(** [{ text?: string, detail?: string }] *)
Record OcrData : Type := {
  od_text : option string;
  od_detail : option string
}.

(** The JSON envelope of the role listing: the source reads its [data]. *)
Record RoleEnvelope : Type := {
  data : list RoleInfo
}.

Definition LOGIN_URL : string :=
  "https://auth.bupt.edu.cn/authserver/login?service=https://ucloud.bupt.edu.cn".
Definition TOKEN_URL : string :=
  "https://apiucloud.bupt.edu.cn/ykt-basics/oauth/token".
Definition ROLES_URL : string :=
  "https://apiucloud.bupt.edu.cn/ykt-basics/userroledomaindept/listByUserId".
Definition OCR_URL : string := "https://ocr.byrdocs.org/ocr?".
Definition CAPTCHA_URL : string :=
  "https://auth.bupt.edu.cn/authserver/captcha?captchaId=".
Definition BASIC_AUTH : string := "Basic cG9ydGFsOnBvcnRhbF9zZWNyZXQ=".

(** The four URLs the source fetches, indexed by the type its [res.json()] is
    read at ([unit] where the source reads only [res.text()]). *)
Inductive Endpoint : Type -> Type :=
| AuthLogin : Endpoint unit
| OAuthToken : Endpoint UserInfo
| ListByUserId : Endpoint RoleEnvelope
| OcrService (query : string) : Endpoint OcrData.

Definition endpoint_url {J} (ep : Endpoint J) : string :=
  match ep with
  | AuthLogin => LOGIN_URL
  | OAuthToken => TOKEN_URL
  | ListByUserId => ROLES_URL
  | OcrService query => OCR_URL ++ query
  end.

Inductive Body : Type :=
| NoBody
| TextBody (s : string)
| FormBody (entries : list (string * string)).

(** The second argument of [fetch]. *)
Record RequestInit : Type := {
  method : string;
  req_headers : list (string * string);
  body : Body;
  redirect : string
}.

(** [fetch(url)] with no second argument. *)
Definition GET : RequestInit :=
  {| method := "GET"; req_headers := []; body := NoBody; redirect := "follow" |}.

Record Response (J : Type) : Type := {
  status : Z;
  statusText : string;
  headers : list (string * string);
  text : string;
  json : Settled J
}.
Arguments status {J} _.
Arguments statusText {J} _.
Arguments headers {J} _.
Arguments text {J} _.
Arguments json {J} _.

(** [res.ok] *)
Definition ok {J} (res : Response J) : bool :=
  (200 <=? status res) && (status res <=? 299).

(** [headers.get(name)]: names compare without case, several values are
    joined by a comma and a space, no value is [null]. *)
Definition headers_get (hs : list (string * string)) (name : string) : option string :=
  match filter (fun h => String.eqb (Str.to_lower (fst h)) (Str.to_lower name)) hs with
  | [] => None
  | l => Some (Str.concat_with ", " (map snd l))
  end.

(** What the program did to its environment, in order. *)
Inductive Event : Type :=
| Fetch {J : Type} (ep : Endpoint J) (init : RequestInit)
| CallOnCaptcha (captchaUrl cookie : string).

Definition is_submission (e : Event) : bool :=
  match e with
  | @Fetch _ AuthLogin init => String.eqb (method init) "POST"
  | _ => false
  end.

Definition is_ocr_request (e : Event) : bool :=
  match e with
  | @Fetch _ (OcrService _) _ => true
  | _ => false
  end.

Definition is_token_request (e : Event) : bool :=
  match e with
  | @Fetch _ OAuthToken _ => true
  | _ => false
  end.

Definition is_roles_request (e : Event) : bool :=
  match e with
  | @Fetch _ ListByUserId _ => true
  | _ => false
  end.

Definition is_callback (e : Event) : bool :=
  match e with
  | CallOnCaptcha _ _ => true
  | _ => false
  end.

(** [application/x-www-form-urlencoded] parsing behind
    [new URLSearchParams(search).get(name)]. *)
Module Query.
Import Str.

Definition hex_value (c : ascii) : option nat :=
  let n := nat_of_ascii c in
  if ((48 <=? n) && (n <=? 57))%nat%bool then Some (n - 48)%nat
  else if ((65 <=? n) && (n <=? 70))%nat%bool then Some (n - 55)%nat
  else if ((97 <=? n) && (n <=? 102))%nat%bool then Some (n - 87)%nat
  else None.

Fixpoint decode (s : string) : string :=
  match s with
  | EmptyString => EmptyString
  | String c s1 =>
      if Ascii.eqb c "+" then String " " (decode s1)
      else if Ascii.eqb c "%" then
        match s1 with
        | String h (String l s3) =>
            match hex_value h, hex_value l with
            | Some a, Some b => String (ascii_of_nat (16 * a + b)) (decode s3)
            | _, _ => String c (decode s1)
            end
        | _ => String c (decode s1)
        end
      else String c (decode s1)
  end.

(** Splitting on [&]; [fuel] bounds the number of pieces by the length. *)
Fixpoint pieces (fuel : nat) (s : string) : list string :=
  match fuel with
  | O => [s]
  | S f =>
      match find_after "&" s with
      | Some (p, rest) => p :: pieces f rest
      | None => [s]
      end
  end.

Definition pair_of (piece : string) : string * string :=
  match find_after "=" piece with
  | Some (n, v) => (decode n, decode v)
  | None => (decode piece, EmptyString)
  end.

Definition parse (search : string) : list (string * string) :=
  let q := match strip_prefix "?" search with Some r => r | None => search end in
  map pair_of (filter truthy (pieces (String.length q) q)).

Definition get (search name : string) : option string :=
  match List.find (fun kv => String.eqb (fst kv) name) (parse search) with
  | Some kv => Some (snd kv)
  | None => None
  end.

(** [new URLSearchParams(search).get(name)] as the string the program
    receives: the bytes of the value decoded as UTF-8, U+FFFD standing for
    what is ill-formed.  (A name that decodes to [name] is well-formed, so
    the lookup itself is the one of [get].) *)
Definition get_text (search name : string) : option string :=
  option_map utf8_lossy (get search name).

End Query.

(* ===================================================================== *)
(** ** The program *)
(* ===================================================================== *)

Section Program.

(** The state of everything outside the program. *)
Variable World : Type.

(** [fetch(url, init)]: the promise resolves with a response or rejects. *)
Variable net : forall J, Endpoint J -> RequestInit -> World -> Settled (Response J) * World.

(** [Math.random().toString()]: the decimal rendering of the number drawn. *)
Variable random : World -> string * World.

(** [new URL(href).search]; [None] when the constructor throws. *)
Variable URL_search : string -> option string.

Record Sys : Type := {
  world : World;
  trace : list Event
}.

(** State, trace and exceptions. *)
Definition M (A : Type) : Type := Sys -> Outcome A * Sys.

Definition ret {A} (a : A) : M A := fun s => (Resolved a, s).

Definition throw {A} (e : Thrown) : M A := fun s => (Rejected e, s).

Definition bind {A B} (m : M A) (k : A -> M B) : M B :=
  fun s =>
    match m s with
    | (Resolved a, s') => k a s'
    | (Rejected e, s') => (Rejected e, s')
    end.

(** [try { m } catch (error) { h error }] *)
Definition try_catch {A} (m : M A) (h : Thrown -> M A) : M A :=
  fun s =>
    match m s with
    | (Resolved a, s') => (Resolved a, s')
    | (Rejected e, s') => h e s'
    end.

Definition log (ev : Event) (s : Sys) : list Event := trace s ++ [ev].

Definition fetch {J} (ep : Endpoint J) (init : RequestInit) : M (Response J) :=
  fun s =>
    let (r, w) := net J ep init (world s) in
    (match r with
     | Fulfilled res => Resolved res
     | Failed name message => Rejected (platform_error name message)
     end,
     {| world := w; trace := log (Fetch ep init) s |}).

(** Awaiting the promise a callback returned. *)
Definition call (cb : CaptchaCallback) (captchaUrl cookie : string) : M string :=
  fun s =>
    (cb captchaUrl cookie,
     {| world := world s; trace := log (CallOnCaptcha captchaUrl cookie) s |}).

Definition Math_random_toString : M string :=
  fun s =>
    let (r, w) := random (world s) in
    (Resolved r, {| world := w; trace := trace s |}).

(** [await res.json()] *)
Definition await_json {J} (res : Response J) : M J :=
  match json res with
  | Fulfilled j => ret j
  | Failed name message => throw (platform_error name message)
  end.

Notation "x <- m ;; k" := (bind m (fun x => k))
  (at level 100, m at next level, right associativity).

Definition status_line {J} (res : Response J) : string :=
  Str.of_Z (status res) ++ " " ++ statusText res.

Definition roles_init (token : string) : RequestInit :=
  {| method := "GET";
     req_headers := [("authorization", BASIC_AUTH); ("Blade-Auth", token)];
     body := NoBody;
     redirect := "follow" |}.

(** [getUserRoles] *)
Definition getUserRoles (token : string) : M (list RoleInfo) :=
  res <- fetch ListByUserId (roles_init token) ;;
  if negb (ok res) then
    throw (Err LoginError ("获取用户角色失败: " ++ status_line res))
  else
    envelope <- await_json res ;;
    ret (data envelope).

Definition refresh_init (form : list (string * string)) : RequestInit :=
  {| method := "POST";
     req_headers := [("authorization", BASIC_AUTH)];
     body := FormBody form;
     redirect := "follow" |}.

(** [refresh] *)
Definition refresh (refresh_token : string) (role : option Role) : M UserInfo :=
  let body0 := [("grant_type", "refresh_token"); ("refresh_token", refresh_token)] in
  body1 <-
    match role with
    | Some r =>
        roles <- getUserRoles refresh_token ;;
        match find (fun ri => Role_eqb (roleName ri) r) roles with
        | None => throw (Err LoginError ("用户不存在角色 " ++ Role_value r))
        | Some roleInfo => ret (body0 ++ [("identity", id roleInfo)])%list
        end
    | None => ret body0
    end ;;
  res <- fetch OAuthToken (refresh_init body1) ;;
  if negb (ok res) then
    throw (Err LoginError ("刷新 token 失败: " ++ status_line res))
  else
    await_json res.

(** [options.ocr.maxRetries || 3] *)
Definition effective_maxRetries (o : OcrOptions) : Z :=
  match maxRetries o with
  | Some n => if n =? 0 then 3 else n
  | None => 3
  end.

Definition ocr_query (captchaUrl cookie : string) (o : OcrOptions) : string :=
  Str.URLSearchParams_toString
    [("url", captchaUrl); ("token", token o); ("cookie", cookie)].

(** The body of the [try]: one request to the OCR service and the reading of
    its answer. *)
Definition ocr_attempt (captchaUrl cookie : string) (o : OcrOptions) : M string :=
  res <- fetch (OcrService (ocr_query captchaUrl cookie o)) GET ;;
  d <- await_json res ;;
  match od_text d with
  | Some t =>
      if Str.truthy t then ret t
      else throw (Err OCRError ("OCR 识别失败: " ++
             match od_detail d with Some x => x | None => "Unknown error" end))
  | None =>
      throw (Err OCRError ("OCR 识别失败: " ++
             match od_detail d with Some x => x | None => "Unknown error" end))
  end.

(** [error instanceof Error ? error : new OCRError(String(error))] *)
Definition as_Error (e : Thrown) : Thrown :=
  match e with
  | Err _ _ => e
  | NonError rendered => Err OCRError rendered
  end.

(** [throw lastError!] *)
Definition throw_last {A} (lastError : option Thrown) : M A :=
  match lastError with
  | Some e => throw e
  | None => throw (NonError "null")
  end.

(** The [for] loop over [attempt], by the number of iterations that are
    left: [attempt < maxRetries] holds as long as [remaining] is not zero.
    Both arms of [if (attempt < maxRetries - 1) continue;] go on to the next
    iteration. *)
Fixpoint ocr_loop (remaining : nat) (lastError : option Thrown)
    (capthas_id captchaUrl cookie execution : string) (o : OcrOptions) : M SessionData :=
  match remaining with
  | O => throw_last lastError
  | S remaining' =>
      try_catch
        (captchaText <- ocr_attempt captchaUrl cookie o ;;
         ret {| sd_id := capthas_id; sd_cookie := cookie;
                sd_execution := execution; sd_captcha := Some captchaText |})
        (fun error =>
           ocr_loop remaining' (Some (as_Error error))
             capthas_id captchaUrl cookie execution o)
  end.

(** [getCookieAndExecution] *)
Definition getCookieAndExecution (options : option LoginOptions) : M SessionData :=
  res <- fetch AuthLogin GET ;;
  match option_map (Str.split_first ";") (headers_get (headers res) "set-cookie") with
  | None => throw (Err LoginError "登录失败(-1): 无法获取到 cookie")
  | Some cookie =>
      if negb (Str.truthy cookie) then
        throw (Err LoginError "登录失败(-1): 无法获取到 cookie")
      else
        let html := text res in
        match Scrape.match_execution html with
        | None => throw (Err LoginError "登录失败(-2): 无法获取到 execution")
        | Some execution =>
            match Scrape.match_captcha html with
            | Some capthas_id =>
                if Str.truthy capthas_id then
                  r <- Math_random_toString ;;
                  let captchaUrl :=
                    CAPTCHA_URL ++ capthas_id ++ "&r=" ++ Str.slice 2 7 r in
                  match options with
                  | Some {| onCaptcha := Some cb |} =>
                      captchaText <- call cb captchaUrl cookie ;;
                      ret {| sd_id := capthas_id; sd_cookie := cookie;
                             sd_execution := execution;
                             sd_captcha := Some captchaText |}
                  | Some {| onCaptcha := None; ocr := Some o |} =>
                      ocr_loop (Z.to_nat (effective_maxRetries o)) None
                        capthas_id captchaUrl cookie execution o
                  | _ =>
                      throw (Err LoginError
                               "登录失败(-3): 需要验证码，但未配置验证码处理方式")
                  end
                else
                  ret {| sd_id := EmptyString; sd_cookie := cookie;
                         sd_execution := execution; sd_captcha := None |}
            | None =>
                ret {| sd_id := EmptyString; sd_cookie := cookie;
                       sd_execution := execution; sd_captcha := None |}
            end
        end
  end.

Definition USER_AGENT : string :=
  "Mozilla/5.0 (Macintosh; Intel Mac OS X 10_15_7) AppleWebKit/537.36 (KHTML, like Gecko) Chrome/118.0.0.0 Safari/537.36 Edg/118.0.2088.61".

(** The form body of the credential submission. *)
Definition submit_body (username password : string) (sessionData : SessionData) : string :=
  let bodyp :=
    "username=" ++ Str.encodeURIComponent username
      ++ "&password=" ++ Str.encodeURIComponent password in
  bodyp
    ++ match sd_captcha sessionData with
       | Some c => if Str.truthy c then "&captcha=" ++ c else EmptyString
       | None => EmptyString
       end
    ++ "&submit=%E7%99%BB%E5%BD%95&type=username_password&execution="
    ++ sd_execution sessionData
    ++ "&_eventId=submit".

Definition submit_init (username password : string) (sessionData : SessionData) : RequestInit :=
  {| method := "POST";
     req_headers :=
       [("authority", "auth.bupt.edu.cn");
        ("content-type", "application/x-www-form-urlencoded");
        ("cookie", sd_cookie sessionData);
        ("referer", LOGIN_URL);
        ("user-agent", USER_AGENT)];
     body := TextBody (submit_body username password sessionData);
     redirect := "manual" |}.

(** The branch [if (response.status != 302)] of [login]: it always throws. *)
Definition submission_failure {A} (response : Response unit) : M A :=
  let html := text response in
  let error := Scrape.match_errorDiv html in
  let error_truthy := match error with Some e => Str.truthy e | None => false end in
  let error_text := match error with Some e => e | None => EmptyString end in
  if status response =? 401 then
    if error_truthy then
      throw (Err LoginError
               (if String.eqb error_text "Invalid credentials."
                then "登录失败(3): 用户名或者密码错误"
                else "登录失败(4): " ++ error_text))
    else throw (Err LoginError "登录失败(2): 未知错误")
  else
    throw (Err LoginError
             ("登录失败(1): " ++ status_line response
                ++ (if error_truthy then "(" ++ error_text ++ ")" else EmptyString))).

(** From the 302 response to the ticket. *)
Definition ticket_of (response : Response unit) : M string :=
  match headers_get (headers response) "Location" with
  | None => throw (Err LoginError "登录失败(5): 无法获取到重定向目标")
  | Some location =>
      if negb (Str.truthy location) then
        throw (Err LoginError "登录失败(5): 无法获取到重定向目标")
      else
        match URL_search location with
        | None => throw (platform_error "TypeError" "Invalid URL")
        | Some search =>
            match Query.get_text search "ticket" with
            | None => throw (Err LoginError "登录失败(6): 无法获取到ticket")
            | Some ticket =>
                if negb (Str.truthy ticket) then
                  throw (Err LoginError "登录失败(6): 无法获取到ticket")
                else ret ticket
            end
        end
  end.

Definition ticket_init (ticket : string) : RequestInit :=
  {| method := "POST";
     req_headers :=
       [("accept", "application/json, text/plain, */*");
        ("authorization", BASIC_AUTH);
        ("content-type", "application/x-www-form-urlencoded");
        ("tenant-id", "000000");
        ("Referer", "https://ucloud.bupt.edu.cn/");
        ("Referrer-Policy", "strict-origin-when-cross-origin")];
     body := TextBody ("ticket=" ++ ticket ++ "&grant_type=third");
     redirect := "follow" |}.

(** [login] *)
Definition login (username password : string) (options : option LoginOptions)
  : M LoginResult :=
  sessionData <- getCookieAndExecution options ;;
  response <- fetch AuthLogin (submit_init username password sessionData) ;;
  if negb (status response =? 302) then submission_failure response
  else
    ticket <- ticket_of response ;;
    response <- fetch OAuthToken (ticket_init ticket) ;;
    if negb (ok response) then
      throw (Err LoginError ("登录失败(7): " ++ status_line response))
    else
      userInfo <- await_json response ;;
      roles <- getUserRoles (refresh_token userInfo) ;;
      match roles with
      | [] => throw (Err LoginError "登录失败(8): 用户无任何角色")
      | first :: _ =>
          refreshed <-
            refresh (refresh_token userInfo)
              (Some match option_map role options with
                    | Some (Some r) => r
                    | _ => roleName first
                    end) ;;
          ret {| info := refreshed; roles := roles |}
      end.

(** *** What a run shows *)

(** Every run of [m] only appends to the trace, and only events that
    satisfy [P]. *)
Definition emits {A} (P : Event -> bool) (m : M A) : Prop :=
  forall s, exists evs,
    trace (snd (m s)) = (trace s ++ evs)%list /\ forallb P evs = true.

(** The outcomes of [k] successive OCR attempts from a state, whatever they
    are, and the state they leave. *)
Fixpoint attempts (k : nat) (captchaUrl cookie : string) (o : OcrOptions)
    (s : Sys) : list (Outcome string) * Sys :=
  match k with
  | O => ([], s)
  | S k' =>
      let (r, s1) := ocr_attempt captchaUrl cookie o s in
      let (rs, s2) := attempts k' captchaUrl cookie o s1 in
      (r :: rs, s2)
  end.

(** How [getUserRoles] ends on an answer of the role listing. *)
Definition roles_of_answer (a : Settled (Response RoleEnvelope))
  : Outcome (list RoleInfo) :=
  match a with
  | Failed name message => Rejected (platform_error name message)
  | Fulfilled res =>
      if ok res then
        match json res with
        | Fulfilled envelope => Resolved (data envelope)
        | Failed name message => Rejected (platform_error name message)
        end
      else Rejected (Err LoginError ("获取用户角色失败: " ++ status_line res))
  end.

(** The login page arrived, with a session cookie and an [execution]
    field: the state in which [getCookieAndExecution] looks for a captcha. *)
Definition bootstrapped (w : World) (res : Response unit) (w1 : World)
    (cookie execution : string) : Prop :=
  net unit AuthLogin GET w = (Fulfilled res, w1)
  /\ option_map (Str.split_first ";") (headers_get (headers res) "set-cookie")
     = Some cookie
  /\ Str.truthy cookie = true
  /\ Scrape.match_execution (text res) = Some execution.

(** The login page embeds a captcha challenge [cid]; [r] is the rendering
    of the random number drawn for its image URL. *)
Definition challenged (res : Response unit) (w1 : World)
    (cid r : string) (w2 : World) : Prop :=
  Scrape.match_captcha (text res) = Some cid
  /\ Str.truthy cid = true
  /\ random w1 = (r, w2).

(** The image URL built for the challenge [cid]. *)
Definition captcha_url (cid r : string) : string :=
  CAPTCHA_URL ++ cid ++ "&r=" ++ Str.slice 2 7 r.

(** The error the loop holds after the outcomes [outs], from [init]. *)
Definition last_error (outs : list (Outcome string)) (init : option Thrown)
  : option Thrown :=
  fold_left
    (fun acc r =>
       match r with
       | Rejected e => Some (as_Error e)
       | Resolved _ => acc
       end)
    outs init.

Definition is_rejected {A} (r : Outcome A) : bool :=
  match r with Rejected _ => true | Resolved _ => false end.

(** The requests [login] makes once the credentials are posted. *)
Definition is_exchange (e : Event) : bool :=
  is_token_request e || is_roles_request e.

(** A run from a world with an empty trace. *)
Definition run {A} (m : M A) (w : World) : Outcome A * Sys :=
  m {| world := w; trace := [] |}.

(** *** The stages of [login] *)

(** [options?.role ?? roles[0].roleName] *)
Definition chosen_role (options : option LoginOptions) (first : RoleInfo) : Role :=
  match option_map role options with
  | Some (Some r) => r
  | _ => roleName first
  end.

(** [getCookieAndExecution] resolved with [sd], and the submission of [sd]
    was answered by [response]. *)
Definition submitted (username password : string) (options : option LoginOptions)
    (w : World) (sd : SessionData) (s1 : Sys) (response : Response unit)
    (w2 : World) : Prop :=
  getCookieAndExecution options {| world := w; trace := [] |} = (Resolved sd, s1)
  /\ net unit AuthLogin (submit_init username password sd) (world s1)
     = (Fulfilled response, w2).

(** A 302 whose [Location] carries the non-empty [ticket]. *)
Definition redirected (response : Response unit) (ticket : string) : Prop :=
  status response = 302
  /\ exists location search,
      headers_get (headers response) "Location" = Some location
      /\ Str.truthy location = true
      /\ URL_search location = Some search
      /\ Query.get_text search "ticket" = Some ticket
      /\ Str.truthy ticket = true.

(** The number of iterations of the OCR loop that the options allow. *)
Definition ocr_budget (options : option LoginOptions) : nat :=
  match options with
  | Some {| onCaptcha := None; ocr := Some oc |} => Z.to_nat (effective_maxRetries oc)
  | _ => 0%nat
  end.

(** [data.detail ?? "Unknown error"] *)
Definition detail_or_unknown (d : OcrData) : string :=
  match od_detail d with Some x => x | None => "Unknown error" end.

(** The exchange of the ticket was answered in 2xx with [userInfo]. *)
Definition exchanged (ticket : string) (w2 : World) (response2 : Response UserInfo)
    (w3 : World) (userInfo : UserInfo) : Prop :=
  net UserInfo OAuthToken (ticket_init ticket) w2 = (Fulfilled response2, w3)
  /\ ok response2 = true
  /\ json response2 = Fulfilled userInfo.

(** [login] after the exchange of the ticket gave [userInfo]: the listing of
    the roles, the check that there is one, the refresh. *)
Definition finish_login (options : option LoginOptions) (userInfo : UserInfo)
    : M LoginResult :=
  bind (getUserRoles (refresh_token userInfo))
    (fun roles =>
       match roles with
       | [] => throw (Err LoginError "登录失败(8): 用户无任何角色")
       | first :: _ =>
           bind (refresh (refresh_token userInfo) (Some (chosen_role options first)))
             (fun refreshed => ret {| info := refreshed; roles := roles |})
       end).

(** The name-value pairs of a form-encoded string (what [Query.parse] gives
    for a string without a leading question mark). *)
Definition form_entries (q : string) : list (string * string) :=
  map Query.pair_of (filter Str.truthy (Query.pieces (String.length q) q)).

End Program.

Arguments world {World} _.
Arguments trace {World} _.
Arguments ret {World A} a.
Arguments throw {World A} e.
Arguments bind {World A B} m k.
Arguments try_catch {World A} m h.
Arguments call {World} cb captchaUrl cookie.
Arguments await_json {World J} res.
Arguments throw_last {World A} lastError.
Arguments submission_failure {World A} response.
Arguments emits {World A} P m.
Arguments run {World A} m w.

(* ===================================================================== *)
(** ** The error kinds of the specification *)
(* ===================================================================== *)

(** The source has two error classes and tells the failures of [LoginError]
    apart by the text of the message.  The specification names kinds; this
    is its taxonomy read on the messages of the source. *)
Module Kind.

Inductive ErrorKind : Type :=
| ProtocolError
| InvalidCredentialsError
| AuthServerError
| ConfigError
| OcrError
| RoleNotFoundError
| NoRoleError.

Definition starts_with (p s : string) : bool :=
  match Str.strip_prefix p s with Some _ => true | None => false end.

Definition any_prefix (ps : list string) (s : string) : bool :=
  existsb (fun p => starts_with p s) ps.

(** - [ProtocolError]: cookie, execution, location or ticket missing;
    - [InvalidCredentialsError]: bad username or password;
    - [AuthServerError]: a failure status of a backend;
    - [ConfigError]: captcha required but no resolver configured;
    - [OcrError]: the OCR service returned no usable text;
    - [RoleNotFoundError]: requested role absent from the role list;
    - [NoRoleError]: the user has no role. *)
Definition of_thrown (e : Thrown) : option ErrorKind :=
  match e with
  | Err LoginError m =>
      if any_prefix ["登录失败(-1)"; "登录失败(-2)"; "登录失败(5)"; "登录失败(6)"] m
      then Some ProtocolError
      else if starts_with "登录失败(3)" m then Some InvalidCredentialsError
      else if any_prefix ["登录失败(1)"; "登录失败(2)"; "登录失败(4)"; "登录失败(7)";
                          "刷新 token 失败"; "获取用户角色失败"] m
      then Some AuthServerError
      else if starts_with "登录失败(-3)" m then Some ConfigError
      else if starts_with "用户不存在角色" m then Some RoleNotFoundError
      else if starts_with "登录失败(8)" m then Some NoRoleError
      else None
  | Err OCRError _ => Some OcrError
  | _ => None
  end.

Definition of_outcome {A} (r : Outcome A) : option ErrorKind :=
  match r with
  | Rejected e => of_thrown e
  | Resolved _ => None
  end.

End Kind.

(* ===================================================================== *)
(** ** A scripted environment, to run the program on concrete inputs *)
(* ===================================================================== *)

Module Scripted.
Import Str.

(** The answers of each endpoint; the OCR service answers from a list, one
    answer per request. *)
Record Script : Type := {
  page : Settled (Response unit);
  submit : Settled (Response unit);
  oauth : Settled (Response UserInfo);
  listing : Settled (Response RoleEnvelope);
  ocr_answers : list (Settled (Response OcrData));
  rendering : string
}.

Definition net (J : Type) (ep : Endpoint J) (init : RequestInit) (w : Script)
  : Settled (Response J) * Script :=
  match ep in Endpoint J0 return Settled (Response J0) * Script with
  | AuthLogin =>
      (if String.eqb (method init) "POST" then submit w else page w, w)
  | OAuthToken => (oauth w, w)
  | ListByUserId => (listing w, w)
  | OcrService _ =>
      match ocr_answers w with
      | [] => (Failed "TypeError" "fetch failed", w)
      | a :: rest =>
          (a, {| page := page w; submit := submit w; oauth := oauth w;
                 listing := listing w; ocr_answers := rest;
                 rendering := rendering w |})
      end
  end.

Definition random (w : Script) : string * Script := (rendering w, w).

(** The search of an absolute [https:] URL without fragment, the only kind
    of absolute URL the scripts answer with; a reference that does not start
    with a scheme is refused, as [new URL] refuses it. *)
Definition URL_search (href : string) : option string :=
  match strip_prefix "https://" href with
  | Some _ =>
      match find_after "?" href with
      | Some (_, q) => Some (if truthy q then "?" ++ q else EmptyString)
      | None => Some EmptyString
      end
  | None => None
  end.

Definition login := login Script net random URL_search.
Definition refresh := refresh Script net.
Definition getUserRoles := getUserRoles Script net.
Definition getCookieAndExecution := getCookieAndExecution Script net random.

Definition html_response (st : Z) (stText : string)
    (hs : list (string * string)) (html : string) : Settled (Response unit) :=
  Fulfilled {| status := st; statusText := stText; headers := hs;
               text := html; json := Failed "SyntaxError" "Unexpected token <" |}.

Definition json_response {J} (st : Z) (stText : string) (j : J)
  : Settled (Response J) :=
  Fulfilled {| status := st; statusText := stText; headers := [];
               text := EmptyString; json := Fulfilled j |}.

Definition SET_COOKIE : list (string * string) :=
  [("Set-Cookie", "JSESSIONID=abc123; Path=/authserver; HttpOnly")].

Definition execution_input (value : string) : string :=
  "<form><input name=" ++ dquote ++ "execution" ++ dquote
    ++ " value=" ++ dquote ++ value ++ dquote ++ "/></form>".

Definition captcha_script (cid : string) : string :=
  "<script>config.captcha = { type: 'image', id: '" ++ cid ++ "' };</script>".

Definition plain_page : Settled (Response unit) :=
  html_response 200 "OK" SET_COOKIE (execution_input "e1s1").

Definition captcha_page : Settled (Response unit) :=
  html_response 200 "OK" SET_COOKIE
    (execution_input "e1s1" ++ captcha_script "4482662716").

Definition error_page (st : Z) (stText message : string) : Settled (Response unit) :=
  html_response st stText []
    (Scrape.errorDiv_open ++ "<span>!</span><p>" ++ message ++ "</p></div>").

Definition redirect_to (location : string) : Settled (Response unit) :=
  html_response 302 "Found" [("location", location)] EmptyString.

Definition alice : UserInfo :=
  {| access_token := "at-1"; token_type := "bearer"; refresh_token := "rt-1";
     expires_in := 3600; scope := "all"; tenant_id := "000000";
     license := "made by bupt"; loginId := "2021000001"; user_id := "1001";
     user_name := "2021000001"; real_name := "Alice"; avatar := EmptyString;
     dept_id := "7"; client_id := "portal"; account := "2021000001";
     jti := "j-1" |}.

Definition student_role : RoleInfo :=
  {| id := "r-stu"; roleId := "11"; roleAliase := "student";
     roleName := Student; domainId := "1"; domainName := "BUPT" |}.

Definition assistant_role : RoleInfo :=
  {| id := "r-ast"; roleId := "13"; roleAliase := "assistant";
     roleName := Assistant; domainId := "1"; domainName := "BUPT" |}.

Definition ocr_text (t : string) : Settled (Response OcrData) :=
  json_response 200 "OK" {| od_text := Some t; od_detail := None |}.

Definition ocr_detail (d : string) : Settled (Response OcrData) :=
  json_response 200 "OK" {| od_text := None; od_detail := Some d |}.

(** A backend on which a login without captcha succeeds. *)
Definition happy : Script :=
  {| page := plain_page;
     submit := redirect_to "https://ucloud.bupt.edu.cn/?ticket=ST-42";
     oauth := json_response 200 "OK" alice;
     listing := json_response 200 "OK" {| data := [student_role; assistant_role] |};
     ocr_answers := [];
     rendering := "0.7316340442902695" |}.

Definition with_page (p : Settled (Response unit)) (w : Script) : Script :=
  {| page := p; submit := submit w; oauth := oauth w; listing := listing w;
     ocr_answers := ocr_answers w; rendering := rendering w |}.

Definition with_submit (r : Settled (Response unit)) (w : Script) : Script :=
  {| page := page w; submit := r; oauth := oauth w; listing := listing w;
     ocr_answers := ocr_answers w; rendering := rendering w |}.

Definition with_ocr (l : list (Settled (Response OcrData))) (w : Script) : Script :=
  {| page := page w; submit := submit w; oauth := oauth w; listing := listing w;
     ocr_answers := l; rendering := rendering w |}.

Definition with_rendering (r : string) (w : Script) : Script :=
  {| page := page w; submit := submit w; oauth := oauth w; listing := listing w;
     ocr_answers := ocr_answers w; rendering := r |}.

Definition ocr_options (n : option Z) : option LoginOptions :=
  Some {| role := None; onCaptcha := None;
          ocr := Some {| token := "tok"; maxRetries := n |} |}.

Definition typed (t : string) : CaptchaCallback := fun _ _ => Resolved t.

Definition callback_options (cb : CaptchaCallback) (o : option OcrOptions)
  : option LoginOptions :=
  Some {| role := None; onCaptcha := Some cb; ocr := o |}.

(** Backends that differ from [happy] in one answer. *)
Definition wrong_password : Script :=
  with_submit (error_page 401 "Unauthorized" "Invalid credentials.") happy.

Definition locked_account : Script :=
  with_submit (error_page 401 "Unauthorized" "Account locked.") happy.

Definition server_down : Script :=
  with_submit (error_page 500 "Internal Server Error" "Oops") happy.

Definition no_ticket : Script :=
  with_submit (redirect_to "https://ucloud.bupt.edu.cn/?from=sso") happy.

(** A redirection to a path of the same host: [Location] is a relative
    reference, and holds no ticket. *)
Definition RELATIVE_LOCATION : string := "/authserver/index.do?from=sso".

Definition relative_location : Script :=
  with_submit (redirect_to RELATIVE_LOCATION) happy.

Definition no_cookie : Script :=
  with_page (html_response 200 "OK" [] (execution_input "e1s1")) happy.

Definition empty_cookie : Script :=
  with_page (html_response 200 "OK" [("Set-Cookie", "; Path=/authserver")]
               (execution_input "e1s1")) happy.

Definition empty_execution : Script :=
  with_page (html_response 200 "OK" SET_COOKIE (execution_input EmptyString)) happy.

Definition with_captcha : Script := with_page captcha_page happy.

(** [Math.random()] drew 0.5, which renders as [0.5]. *)
Definition drew_half : Script := with_rendering "0.5" with_captcha.

(** The OCR service fails twice, then reads the image. *)
Definition flaky_ocr : Script :=
  with_ocr [ocr_detail "busy"; Failed "TypeError" "fetch failed"; ocr_text "k7xq"]
    with_captcha.

(** The OCR service fails three times, each time differently. *)
Definition dead_ocr : Script :=
  with_ocr [ocr_detail "busy"; ocr_detail "overloaded"; Failed "TypeError" "fetch failed"]
    with_captcha.

Definition CAPTCHA_IMAGE : string :=
  "https://auth.bupt.edu.cn/authserver/captcha?captchaId=4482662716&r=73163".

Definition ocr_request : Event :=
  Fetch (OcrService
           "url=https%3A%2F%2Fauth.bupt.edu.cn%2Fauthserver%2Fcaptcha%3FcaptchaId%3D4482662716%26r%3D73163&token=tok&cookie=JSESSIONID%3Dabc123")
    GET.

(** The sessions [getCookieAndExecution] resolves with on these pages. *)
Definition plain_session : SessionData :=
  {| sd_id := EmptyString; sd_cookie := "JSESSIONID=abc123";
     sd_execution := "e1s1"; sd_captcha := None |}.

Definition tokenless_session : SessionData :=
  {| sd_id := EmptyString; sd_cookie := "JSESSIONID=abc123";
     sd_execution := EmptyString; sd_captcha := None |}.

Definition solved_session (t : string) : SessionData :=
  {| sd_id := "4482662716"; sd_cookie := "JSESSIONID=abc123";
     sd_execution := "e1s1"; sd_captcha := Some t |}.

(** More backends, each differing from [happy] in one answer. *)
Definition with_oauth (r : Settled (Response UserInfo)) (w : Script) : Script :=
  {| page := page w; submit := submit w; oauth := r; listing := listing w;
     ocr_answers := ocr_answers w; rendering := rendering w |}.

Definition with_listing (r : Settled (Response RoleEnvelope)) (w : Script) : Script :=
  {| page := page w; submit := submit w; oauth := oauth w; listing := r;
     ocr_answers := ocr_answers w; rendering := rendering w |}.

Definition listing_forbidden : Script :=
  with_listing (Fulfilled {| status := 403; statusText := "Forbidden"; headers := [];
                             text := EmptyString;
                             json := Failed "SyntaxError" "Unexpected end of JSON input" |})
    happy.

Definition oauth_down : Script :=
  with_oauth (Fulfilled {| status := 502; statusText := "Bad Gateway"; headers := [];
                           text := EmptyString;
                           json := Failed "SyntaxError" "Unexpected end of JSON input" |})
    happy.

Definition no_roles : Script :=
  with_listing (json_response 200 "OK" {| data := [] |}) happy.

Definition no_execution : Script :=
  with_page (html_response 200 "OK" SET_COOKIE "<form></form>") happy.

Definition no_location : Script :=
  with_submit (html_response 302 "Found" [] EmptyString) happy.

Definition empty_ticket : Script :=
  with_submit (redirect_to "https://ucloud.bupt.edu.cn/?ticket=") happy.

(** A second assistant entry: the first one named is the one used. *)
Definition second_assistant : RoleInfo :=
  {| id := "r-ast-2"; roleId := "13"; roleAliase := "assistant";
     roleName := Assistant; domainId := "2"; domainName := "BUPT-2" |}.

Definition two_assistants : Script :=
  with_listing (json_response 200 "OK"
                  {| data := [student_role; assistant_role; second_assistant] |})
    happy.

(** A callback that gives up, and one that answers with nothing. *)
Definition cancelled : Thrown := Err (PlatformError "Error") "cancelled by the user".
Definition refusing : CaptchaCallback := fun _ _ => Rejected cancelled.

(** The OCR service answers, without a text. *)
Definition blind_ocr : Script :=
  with_ocr [ocr_detail "unreadable image"] with_captcha.

Definition HAPPY_TICKET : RequestInit := ticket_init "ST-42".

(** A page without captcha, in front of an OCR service that would answer. *)
Definition flaky_ocr_plain : Script :=
  with_ocr [ocr_text "k7xq"] happy.

(** The network is down for the login page, or for the submission. *)
Definition offline : Script := with_page (Failed "TypeError" "fetch failed") happy.
Definition cut_off : Script := with_submit (Failed "TypeError" "fetch failed") happy.

(** A 401 whose page has no error block. *)
Definition bare_401 : Script :=
  with_submit (html_response 401 "Unauthorized" [] "<html></html>") happy.

(** The only role of the user is the student one. *)
Definition only_student : Script :=
  with_listing (json_response 200 "OK" {| data := [student_role] |}) happy.

Definition teacher_options : option LoginOptions :=
  Some {| role := Some Teacher; onCaptcha := None; ocr := None |}.

End Scripted.

(* ===================================================================== *)
(** ** The patterns and the program on concrete inputs *)
(* ===================================================================== *)

Module Examples.
Import Str Scrape Scripted.

(** The value of the [execution] field, up to its closing quote. *)
Example execution_found :
  match_execution (execution_input "e1s1") = Some "e1s1".
Proof. reflexivity. Qed.

(** An empty value is a match, with an empty group. *)
Example execution_empty_value :
  match_execution (execution_input EmptyString) = Some EmptyString.
Proof. reflexivity. Qed.

(** [.] stops at a line break: the first field does not match, the second
    does. *)
Example execution_skips_broken_field :
  match_execution (execution_open ++ "a" ++ LF ++ "b" ++ dquote
                     ++ execution_open ++ "c" ++ dquote) = Some "c".
Proof. reflexivity. Qed.

Example execution_absent :
  match_execution "<form><input name='execution' value='e1s1'/></form>" = None.
Proof. reflexivity. Qed.

Example captcha_found :
  match_captcha (captcha_script "4482662716") = Some "4482662716".
Proof. reflexivity. Qed.

(** The greedy [[^}]*] takes the last [id: '] before the first [}]. *)
Example captcha_last_id :
  match_captcha "config.captcha = { id: 'a', id: 'b' }; x = { id: 'c' }" = Some "b".
Proof. reflexivity. Qed.

Example captcha_needs_brace :
  match_captcha "config.captcha = [ id: 'a' ]" = None.
Proof. reflexivity. Qed.

Example errorDiv_found :
  match_errorDiv (errorDiv_open ++ "<span>!</span><p>Invalid credentials.</p></div>")
  = Some "Invalid credentials.".
Proof. reflexivity. Qed.

(** The block must be closed. *)
Example errorDiv_unclosed :
  match_errorDiv (errorDiv_open ++ "<p>Invalid credentials.</p>") = None.
Proof. reflexivity. Qed.

Example cookie_first_segment :
  option_map (split_first ";") (headers_get SET_COOKIE "set-cookie")
  = Some "JSESSIONID=abc123".
Proof. reflexivity. Qed.

Example encodeURIComponent_example :
  encodeURIComponent "p w&d=1" = "p%20w%26d%3D1".
Proof. reflexivity. Qed.

Example ticket_parameter :
  Query.get "?from=sso&ticket=ST-42" "ticket" = Some "ST-42".
Proof. reflexivity. Qed.

(** A [%] that two hexadecimal digits do not follow stands for itself, and
    what follows it is decoded. *)
Example ticket_malformed_escape :
  Query.get_text "?ticket=%%41+%4" "ticket" = Some "%A %4".
Proof. reflexivity. Qed.

(** A byte that is no UTF-8 becomes U+FFFD. *)
Example ticket_ill_formed :
  Query.get_text "?ticket=a%FFb%C3%A9" "ticket"
  = Some ("a" ++ REPLACEMENT ++ "b" ++ chr 195 ++ chr 169).
Proof. reflexivity. Qed.

(** A whole login without captcha: four requests after the login page. *)
Example login_happy :
  fst (run (Scripted.login "u" "p w" None) happy)
  = Resolved {| info := alice; roles := [student_role; assistant_role] |}
  /\ map is_exchange (trace (snd (run (Scripted.login "u" "p w" None) happy)))
     = [false; false; true; true; true; true].
Proof. split; reflexivity. Qed.

End Examples.

(* ===================================================================== *)
(** ** Properties *)
(* ===================================================================== *)

Section Properties.

Variable World : Type.
Variable net : forall J, Endpoint J -> RequestInit -> World -> Settled (Response J) * World.
Variable random : World -> string * World.
Variable URL_search : string -> option string.

Local Abbreviation login_ := (login World net random URL_search).
Local Abbreviation refresh_ := (refresh World net).
Local Abbreviation getUserRoles_ := (getUserRoles World net).
Local Abbreviation session_ := (getCookieAndExecution World net random).
Local Abbreviation ocr_loop_ := (ocr_loop World net).
Local Abbreviation ocr_attempt_ := (ocr_attempt World net).
Local Abbreviation attempts_ := (attempts World net).
Local Abbreviation bootstrapped_ := (bootstrapped World net).
Local Abbreviation challenged_ := (challenged World random).
Local Abbreviation fetch_ := (fetch World net).
Local Abbreviation start w := {| world := w; trace := [] |}.

(** *** Strings *)

Lemma truthy_true_iff (s : string) : Str.truthy s = true <-> s <> EmptyString.
Proof. destruct s; simpl; split; congruence. Qed.

Lemma truthy_false_iff (s : string) : Str.truthy s = false <-> s = EmptyString.
Proof. destruct s; simpl; split; congruence. Qed.

Lemma append_assoc (a b c : string) : (a ++ b) ++ c = a ++ b ++ c.
Proof. induction a as [|x a IH]; simpl; [reflexivity | now rewrite IH]. Qed.

Lemma Role_eqb_eq (a b : Role) : Role_eqb a b = true <-> a = b.
Proof. destruct a, b; simpl; split; congruence. Qed.

Lemma find_absent (r : Role) (l : list RoleInfo) :
  (forall ri, In ri l -> roleName ri <> r) ->
  find (fun ri => Role_eqb (roleName ri) r) l = None.
Proof.
  intros Habsent.
  destruct (find _ l) as [ri|] eqn:Hfind; [|reflexivity].
  apply find_some in Hfind. destruct Hfind as [Hin Heq].
  apply Role_eqb_eq in Heq. now apply Habsent in Hin.
Qed.

(** *** One call of [fetch] *)

Lemma fetch_fulfilled {J} (ep : Endpoint J) (init : RequestInit)
    (s : Sys World) (res : Response J) (w1 : World) :
  net J ep init (world s) = (Fulfilled res, w1) ->
  fetch_ ep init s
  = (Resolved res, {| world := w1; trace := trace s ++ [Fetch ep init] |}).
Proof. intros H. unfold fetch, log. now rewrite H. Qed.

Lemma fetch_failed {J} (ep : Endpoint J) (init : RequestInit)
    (s : Sys World) (name message : string) (w1 : World) :
  net J ep init (world s) = (Failed name message, w1) ->
  fetch_ ep init s
  = (Rejected (platform_error name message),
     {| world := w1; trace := trace s ++ [Fetch ep init] |}).
Proof. intros H. unfold fetch, log. now rewrite H. Qed.

(** *** [getUserRoles] is a function of the answer of the listing *)

Lemma getUserRoles_run (token : string) (s : Sys World) :
  getUserRoles_ token s
  = (roles_of_answer (fst (net _ ListByUserId (roles_init token) (world s))),
     {| world := snd (net _ ListByUserId (roles_init token) (world s));
        trace := trace s ++ [Fetch ListByUserId (roles_init token)] |}).
Proof.
  unfold getUserRoles, bind, fetch, log.
  destruct (net _ ListByUserId (roles_init token) (world s)) as [[res|name message] w1];
    simpl; [|reflexivity].
  destruct (ok res); simpl; [|reflexivity].
  unfold await_json. destruct (json res); reflexivity.
Qed.

(** C3. [refresh(token, role)], when the role list returned for the token
    has no entry named [role]: the call fails with the role-not-found
    error, and the only request made is the role listing; the OAuth token
    endpoint is never contacted. *)
Theorem refresh_role_not_found
    (token : string) (r : Role) (w w1 : World)
    (res : Response RoleEnvelope) (envelope : RoleEnvelope) :
  net _ ListByUserId (roles_init token) w = (Fulfilled res, w1) ->
  ok res = true ->
  json res = Fulfilled envelope ->
  (forall ri, In ri (data envelope) -> roleName ri <> r) ->
  let result := run (refresh_ token (Some r)) w in
  fst result = Rejected (Err LoginError ("用户不存在角色 " ++ Role_value r))
  /\ Kind.of_outcome (fst result) = Some Kind.RoleNotFoundError
  /\ trace (snd result) = [Fetch ListByUserId (roles_init token)]
  /\ existsb is_token_request (trace (snd result)) = false.
Proof.
  intros Hnet Hok Hjson Habsent result.
  assert (Hrun : result
                 = (Rejected (Err LoginError ("用户不存在角色 " ++ Role_value r)),
                    {| world := w1;
                       trace := [Fetch ListByUserId (roles_init token)] |})).
  { unfold result, run, refresh, bind.
    rewrite getUserRoles_run. simpl. rewrite Hnet. simpl.
    rewrite Hok, Hjson. rewrite (find_absent r _ Habsent). reflexivity. }
  rewrite Hrun. simpl. repeat split.
Qed.

(** C7. Two successive calls of [getUserRoles(token)], the role listing
    answering the second as it answered the first: both calls end the same
    way, and for a valid token (a 2xx answer with a JSON envelope) both
    resolve with the envelope's [data], the same list in the same order. *)
Theorem getUserRoles_twice
    (token : string) (w : World)
    (res : Response RoleEnvelope) (envelope : RoleEnvelope) :
  let first := run (getUserRoles_ token) w in
  let second := getUserRoles_ token (snd first) in
  fst (net _ ListByUserId (roles_init token) w) = Fulfilled res ->
  ok res = true ->
  json res = Fulfilled envelope ->
  fst (net _ ListByUserId (roles_init token) (world (snd first)))
  = fst (net _ ListByUserId (roles_init token) w) ->
  fst first = Resolved (data envelope)
  /\ fst second = Resolved (data envelope).
Proof.
  intros first second Hnet Hok Hjson Hstable.
  unfold second, first, run in *.
  rewrite !getUserRoles_run in *. simpl in *.
  rewrite Hstable, Hnet. simpl. now rewrite Hok, Hjson.
Qed.

(** *** What a computation adds to the trace *)

Lemma emits_ret {A} P (a : A) : emits (World := World) P (ret a).
Proof. intros s. exists []. simpl. now rewrite app_nil_r. Qed.

Lemma emits_throw {A} P (e : Thrown) : emits (World := World) (A := A) P (throw e).
Proof. intros s. exists []. simpl. now rewrite app_nil_r. Qed.

Lemma emits_bind {A B} P (m : M World A) (k : A -> M World B) :
  emits P m -> (forall a, emits P (k a)) -> emits P (bind m k).
Proof.
  intros Hm Hk s. unfold bind.
  destruct (Hm s) as [e1 [H1 F1]].
  destruct (m s) as [[a|e] s1]; simpl in *.
  - destruct (Hk a s1) as [e2 [H2 F2]].
    exists (e1 ++ e2)%list. rewrite H2, H1, app_assoc, forallb_app, F1, F2.
    now split.
  - now exists e1.
Qed.

Lemma emits_try_catch {A} P (m : M World A) (h : Thrown -> M World A) :
  emits P m -> (forall e, emits P (h e)) -> emits P (try_catch m h).
Proof.
  intros Hm Hh s. unfold try_catch.
  destruct (Hm s) as [e1 [H1 F1]].
  destruct (m s) as [[a|e] s1]; simpl in *.
  - now exists e1.
  - destruct (Hh e s1) as [e2 [H2 F2]].
    exists (e1 ++ e2)%list. rewrite H2, H1, app_assoc, forallb_app, F1, F2.
    now split.
Qed.

Lemma emits_fetch {J} (P : Event -> bool) (ep : Endpoint J) (init : RequestInit) :
  P (Fetch ep init) = true -> emits P (fetch_ ep init).
Proof.
  intros HP s. exists [Fetch ep init]. unfold fetch, log.
  destruct (net J ep init (world s)) as [r w1]. simpl. now rewrite HP.
Qed.

Lemma emits_call (P : Event -> bool) (cb : CaptchaCallback) (url cookie : string) :
  P (CallOnCaptcha url cookie) = true -> emits (World := World) P (call cb url cookie).
Proof. intros HP s. exists [CallOnCaptcha url cookie]. simpl. now rewrite HP. Qed.

Lemma emits_random P : emits P (Math_random_toString World random).
Proof.
  intros s. exists []. unfold Math_random_toString.
  destruct (random (world s)). simpl. now rewrite app_nil_r.
Qed.

Lemma emits_await_json {J} P (res : Response J) :
  emits (World := World) P (await_json res).
Proof.
  unfold await_json. destruct (json res); [apply emits_ret | apply emits_throw].
Qed.

Lemma emits_throw_last {A} P (lastError : option Thrown) :
  emits (World := World) (A := A) P (throw_last lastError).
Proof. destruct lastError; apply emits_throw. Qed.

Ltac emits_step :=
  match goal with
  | |- emits _ (bind _ _) => apply emits_bind; [|intro]
  | |- emits _ (try_catch _ _) => apply emits_try_catch; [|intro]
  | |- emits _ (ret _) => apply emits_ret
  | |- emits _ (throw _) => apply emits_throw
  | |- emits _ (throw_last _) => apply emits_throw_last
  | |- emits _ (await_json _) => apply emits_await_json
  | |- emits _ (Math_random_toString _ _) => apply emits_random
  | |- emits _ (fetch _ _ _ _) => apply emits_fetch
  | |- emits _ (call _ _ _) => apply emits_call
  | |- emits _ (if ?b then _ else _) => destruct b
  | |- emits _ (match ?x with _ => _ end) => destruct x
  end.

Ltac emits_auto := repeat (emits_step; try solve [auto]).

Lemma emits_getUserRoles P (token : string) :
  (forall init, P (Fetch ListByUserId init) = true) ->
  emits P (getUserRoles_ token).
Proof. intros H. unfold getUserRoles. emits_auto. Qed.

Lemma emits_refresh P (token : string) (r : option Role) :
  (forall init, P (Fetch ListByUserId init) = true) ->
  (forall init, P (Fetch OAuthToken init) = true) ->
  emits P (refresh_ token r).
Proof.
  intros HL HT. unfold refresh. emits_auto.
  all: try (apply emits_getUserRoles; assumption).
Qed.

(** The part of [login] that follows the answer to the submission. *)
Ltac emits_exchange :=
  let response := fresh "response" in
  intro response;
  destruct (negb _);
  [ unfold submission_failure; emits_auto
  | apply emits_bind;
    [ unfold ticket_of; emits_auto
    | intro;
      apply emits_bind;
      [ apply emits_fetch; solve [auto | reflexivity]
      | intro;
        destruct (negb _);
        [ apply emits_throw
        | apply emits_bind;
          [ apply emits_await_json
          | intro;
            apply emits_bind;
            [ apply emits_getUserRoles; solve [auto | intro; reflexivity]
            | let roles := fresh "roles" in
              intro roles; destruct roles;
              [ apply emits_throw
              | apply emits_bind;
                [ apply emits_refresh; solve [auto | intro; reflexivity]
                | intro; apply emits_ret ] ] ] ] ] ] ] ].

Lemma emits_ocr_attempt P (url cookie : string) (o : OcrOptions) :
  (forall q init, P (Fetch (OcrService q) init) = true) ->
  emits P (ocr_attempt_ url cookie o).
Proof. intros H. unfold ocr_attempt. emits_auto. Qed.

Lemma emits_ocr_loop P (n : nat) :
  (forall q init, P (Fetch (OcrService q) init) = true) ->
  forall lastError cid url cookie ex o,
    emits P (ocr_loop_ n lastError cid url cookie ex o).
Proof.
  intros H. induction n as [|n IH]; intros; simpl.
  - apply emits_throw_last.
  - apply emits_try_catch; [|intro; apply IH].
    apply emits_bind; [now apply emits_ocr_attempt | intro; apply emits_ret].
Qed.

(** The events of [getCookieAndExecution]: the login page, then the
    callback or, only when no callback is configured, the OCR service. *)
Lemma emits_session P (options : option LoginOptions) :
  P (Fetch AuthLogin GET) = true ->
  (forall url cookie, P (CallOnCaptcha url cookie) = true) ->
  (forall o oc, options = Some o -> onCaptcha o = None -> ocr o = Some oc ->
                forall q init, P (Fetch (OcrService q) init) = true) ->
  emits P (session_ options).
Proof.
  intros HA HC HO. unfold getCookieAndExecution.
  apply emits_bind; [now apply emits_fetch | intro res].
  destruct (option_map _ _) as [cookie|]; [|apply emits_throw].
  destruct (negb _); [apply emits_throw|].
  destruct (Scrape.match_execution _) as [execution|]; [|apply emits_throw].
  destruct (Scrape.match_captcha _) as [cid|]; [|apply emits_ret].
  destruct (Str.truthy cid); [|apply emits_ret].
  apply emits_bind; [apply emits_random | intro r].
  destruct options as [[rl [cb|] [oc|]]|]; emits_auto.
  apply emits_ocr_loop. exact (HO _ _ eq_refl eq_refl eq_refl).
Qed.

Lemma emits_login P (username password : string) (options : option LoginOptions) :
  P (Fetch AuthLogin GET) = true ->
  (forall sd, P (Fetch AuthLogin (submit_init username password sd)) = true) ->
  (forall init, P (Fetch OAuthToken init) = true) ->
  (forall init, P (Fetch ListByUserId init) = true) ->
  (forall url cookie, P (CallOnCaptcha url cookie) = true) ->
  (forall o oc, options = Some o -> onCaptcha o = None -> ocr o = Some oc ->
                forall q init, P (Fetch (OcrService q) init) = true) ->
  emits P (login_ username password options).
Proof.
  intros HA HS HT HL HC HO. unfold login.
  apply emits_bind; [now apply emits_session | intro sessionData].
  apply emits_bind; [now apply emits_fetch | emits_exchange].
Qed.

(** *** [getCookieAndExecution], branch by branch *)

Local Abbreviation fetched_page w1 := {| world := w1; trace := [Fetch AuthLogin GET] |}.

Lemma session_no_cookie options w res w1 :
  net _ AuthLogin GET w = (Fulfilled res, w1) ->
  (headers_get (headers res) "set-cookie" = None
   \/ exists v, headers_get (headers res) "set-cookie" = Some v
                /\ Str.split_first ";" v = EmptyString) ->
  session_ options (start w)
  = (Rejected (Err LoginError "登录失败(-1): 无法获取到 cookie"), fetched_page w1).
Proof.
  intros Hnet Hcookie. unfold getCookieAndExecution, bind.
  rewrite (fetch_fulfilled AuthLogin GET (start w) res w1 Hnet). simpl.
  destruct Hcookie as [Hnone | [v [Hsome Hempty]]].
  - now rewrite Hnone.
  - rewrite Hsome. simpl. now rewrite Hempty.
Qed.

Lemma session_unchallenged options w res w1 cookie execution :
  bootstrapped_ w res w1 cookie execution ->
  (Scrape.match_captcha (text res) = None
   \/ Scrape.match_captcha (text res) = Some EmptyString) ->
  session_ options (start w)
  = (Resolved {| sd_id := EmptyString; sd_cookie := cookie;
                 sd_execution := execution; sd_captcha := None |},
     fetched_page w1).
Proof.
  intros (Hnet & Hcookie & Htruthy & Hexec) Hcap.
  unfold getCookieAndExecution, bind.
  rewrite (fetch_fulfilled AuthLogin GET (start w) res w1 Hnet). simpl.
  rewrite Hcookie, Htruthy. simpl. rewrite Hexec.
  destruct Hcap as [H | H]; now rewrite H.
Qed.

Lemma session_callback options o cb w res w1 cookie execution cid r w2 :
  bootstrapped_ w res w1 cookie execution ->
  challenged_ res w1 cid r w2 ->
  options = Some o -> onCaptcha o = Some cb ->
  session_ options (start w)
  = (match cb (captcha_url cid r) cookie with
     | Resolved captchaText =>
         Resolved {| sd_id := cid; sd_cookie := cookie;
                     sd_execution := execution;
                     sd_captcha := Some captchaText |}
     | Rejected e => Rejected e
     end,
     {| world := w2;
        trace := [Fetch AuthLogin GET; CallOnCaptcha (captcha_url cid r) cookie] |}).
Proof.
  intros (Hnet & Hcookie & Htruthy & Hexec) (Hcap & Hcid & Hrandom) -> Hcb.
  unfold getCookieAndExecution, bind.
  rewrite (fetch_fulfilled AuthLogin GET (start w) res w1 Hnet). simpl.
  rewrite Hcookie, Htruthy. simpl. rewrite Hexec, Hcap, Hcid.
  unfold Math_random_toString. simpl. rewrite Hrandom.
  destruct o as [rl c oc]. simpl in Hcb. subst c.
  unfold call, log, captcha_url. simpl.
  now destruct (cb _ cookie).
Qed.

Lemma session_ocr options o oc w res w1 cookie execution cid r w2 :
  bootstrapped_ w res w1 cookie execution ->
  challenged_ res w1 cid r w2 ->
  options = Some o -> onCaptcha o = None -> ocr o = Some oc ->
  session_ options (start w)
  = ocr_loop_ (Z.to_nat (effective_maxRetries oc)) None
      cid (captcha_url cid r) cookie execution oc
      {| world := w2; trace := [Fetch AuthLogin GET] |}.
Proof.
  intros (Hnet & Hcookie & Htruthy & Hexec) (Hcap & Hcid & Hrandom) -> Hcb Hocr.
  unfold getCookieAndExecution, bind.
  rewrite (fetch_fulfilled AuthLogin GET (start w) res w1 Hnet). simpl.
  rewrite Hcookie, Htruthy. simpl. rewrite Hexec, Hcap, Hcid.
  unfold Math_random_toString. simpl. rewrite Hrandom.
  destruct o as [rl c oc']. simpl in Hcb, Hocr. subst c oc'.
  reflexivity.
Qed.

Lemma session_unconfigured options w res w1 cookie execution cid r w2 :
  bootstrapped_ w res w1 cookie execution ->
  challenged_ res w1 cid r w2 ->
  (options = None
   \/ exists o, options = Some o /\ onCaptcha o = None /\ ocr o = None) ->
  session_ options (start w)
  = (Rejected (Err LoginError
                 "登录失败(-3): 需要验证码，但未配置验证码处理方式"),
     {| world := w2; trace := [Fetch AuthLogin GET] |}).
Proof.
  intros (Hnet & Hcookie & Htruthy & Hexec) (Hcap & Hcid & Hrandom) Hopt.
  unfold getCookieAndExecution, bind.
  rewrite (fetch_fulfilled AuthLogin GET (start w) res w1 Hnet). simpl.
  rewrite Hcookie, Htruthy. simpl. rewrite Hexec, Hcap, Hcid.
  unfold Math_random_toString. simpl. rewrite Hrandom.
  destruct Hopt as [-> | [o [-> [Hcb Hocr]]]]; [reflexivity|].
  destruct o as [rl c oc]. simpl in Hcb, Hocr. now subst c oc.
Qed.

(** [login] stops where [getCookieAndExecution] throws. *)
Lemma login_session_rejected username password options w e s :
  session_ options (start w) = (Rejected e, s) ->
  run (login_ username password options) w = (Rejected e, s).
Proof. intros H. unfold run, login, bind. now rewrite H. Qed.

(** C5. The login page answers without a [Set-Cookie] header, or with one
    whose first [;]-delimited segment is empty: [login] fails with the
    no-cookie error (a protocol error), having requested the login page
    and nothing else; the credentials are never posted. *)
Theorem login_without_cookie
    (username password : string) (options : option LoginOptions)
    (w w1 : World) (res : Response unit) :
  net _ AuthLogin GET w = (Fulfilled res, w1) ->
  (headers_get (headers res) "set-cookie" = None
   \/ exists v, headers_get (headers res) "set-cookie" = Some v
                /\ Str.split_first ";" v = EmptyString) ->
  let result := run (login_ username password options) w in
  fst result = Rejected (Err LoginError "登录失败(-1): 无法获取到 cookie")
  /\ Kind.of_outcome (fst result) = Some Kind.ProtocolError
  /\ trace (snd result) = [Fetch AuthLogin GET]
  /\ existsb is_submission (trace (snd result)) = false.
Proof.
  intros Hnet Hcookie result. unfold result.
  rewrite (login_session_rejected _ _ _ _ _ _
             (session_no_cookie options _ _ _ Hnet Hcookie)).
  simpl. repeat split.
Qed.

(** C4. The login page embeds a captcha challenge and the options
    configure neither [onCaptcha] nor [ocr]: [login] fails with the
    configuration error, and the only request made before the failure is
    the one for the login page; no credentials were posted. *)
Theorem login_captcha_unconfigured
    (username password : string) (options : option LoginOptions)
    (w w1 w2 : World) (res : Response unit) (cookie execution cid r : string) :
  bootstrapped_ w res w1 cookie execution ->
  challenged_ res w1 cid r w2 ->
  (options = None
   \/ exists o, options = Some o /\ onCaptcha o = None /\ ocr o = None) ->
  let result := run (login_ username password options) w in
  fst result
  = Rejected (Err LoginError "登录失败(-3): 需要验证码，但未配置验证码处理方式")
  /\ Kind.of_outcome (fst result) = Some Kind.ConfigError
  /\ trace (snd result) = [Fetch AuthLogin GET]
  /\ existsb is_submission (trace (snd result)) = false.
Proof.
  intros Hboot Hchal Hopt result. unfold result.
  rewrite (login_session_rejected _ _ _ _ _ _
             (session_unconfigured options _ _ _ _ _ _ _ _ Hboot Hchal Hopt)).
  simpl. repeat split.
Qed.

(** C9. Both [onCaptcha] and [ocr] are configured and the login page
    embeds a captcha challenge: the callback is called with the image URL
    and the cookie, its answer is the captcha text of the session, and no
    request of the whole login goes to the OCR service. *)
Theorem login_callback_before_ocr
    (username password : string) (o : LoginOptions)
    (cb : CaptchaCallback) (oc : OcrOptions)
    (w w1 w2 : World) (res : Response unit) (cookie execution cid r : string) :
  bootstrapped_ w res w1 cookie execution ->
  challenged_ res w1 cid r w2 ->
  onCaptcha o = Some cb ->
  ocr o = Some oc ->
  let session := run (session_ (Some o)) w in
  let result := run (login_ username password (Some o)) w in
  fst session
  = match cb (captcha_url cid r) cookie with
    | Resolved captchaText =>
        Resolved {| sd_id := cid; sd_cookie := cookie;
                    sd_execution := execution;
                    sd_captcha := Some captchaText |}
    | Rejected e => Rejected e
    end
  /\ trace (snd session)
     = [Fetch AuthLogin GET; CallOnCaptcha (captcha_url cid r) cookie]
  /\ existsb is_callback (trace (snd result)) = true
  /\ existsb is_ocr_request (trace (snd result)) = false.
Proof.
  intros Hboot Hchal Hcb Hocr session result.
  pose proof (session_callback _ _ _ _ _ _ _ _ _ _ _ Hboot Hchal eq_refl Hcb) as Hs.
  assert (Hsession : session = session_ (Some o) (start w)) by reflexivity.
  rewrite Hsession, Hs. simpl. split; [reflexivity|]. split; [reflexivity|].
  split.
  - (* the callback event stays in the trace of the whole login *)
    unfold result, run, login. unfold bind at 1. rewrite Hs.
    destruct (cb (captcha_url cid r) cookie) as [t|e]; [|reflexivity].
    match goal with
    | |- existsb _ (trace (snd (?m ?s))) = true =>
        assert (Hgrow : emits (fun _ => true) m)
    end.
    { apply emits_bind; [now apply emits_fetch | emits_exchange]. }
    match goal with
    | |- existsb _ (trace (snd (?m ?s))) = true =>
        destruct (Hgrow s) as [evs [Htrace _]]; rewrite Htrace
    end.
    reflexivity.
  - (* no event of the whole login is a request to the OCR service *)
    destruct (emits_login (fun e => negb (is_ocr_request e))
                username password (Some o)) with (s := start w)
      as [evs [Htrace Hall]]; try reflexivity.
    + intros o' oc' Ho' Hnone. injection Ho' as <-. congruence.
    + unfold result, run. rewrite Htrace. simpl.
      clear Htrace. induction evs as [|ev evs IH]; [reflexivity|].
      simpl in *. apply andb_prop in Hall. destruct Hall as [H1 H2].
      apply negb_true_iff in H1. rewrite H1. now apply IH.
Qed.

(** *** The OCR retry loop *)

Section Retry.

Variables (cid url cookie ex : string) (o : OcrOptions).

Local Abbreviation request := (Fetch (OcrService (ocr_query url cookie o)) GET).
Local Abbreviation session_with t :=
  {| sd_id := cid; sd_cookie := cookie; sd_execution := ex;
     sd_captcha := Some t |}.

(** One attempt is one request, however it ends. *)
Lemma ocr_attempt_trace (s : Sys World) :
  trace (snd (ocr_attempt_ url cookie o s)) = (trace s ++ [request])%list.
Proof.
  unfold ocr_attempt, bind, fetch, log, await_json.
  destruct (net _ _ GET (world s)) as [[res|name message] w1]; simpl;
    [|reflexivity].
  destruct (json res) as [d|name message]; simpl; [|reflexivity].
  destruct (od_text d) as [t|]; [|reflexivity].
  now destruct (Str.truthy t).
Qed.

(** An attempt only throws [Error] objects: the handler keeps them as
    they are. *)
Lemma ocr_attempt_throws_Error (s s' : Sys World) (e : Thrown) :
  ocr_attempt_ url cookie o s = (Rejected e, s') -> as_Error e = e.
Proof.
  unfold ocr_attempt, bind, fetch, log, await_json.
  destruct (net _ _ GET (world s)) as [[res|name message] w1]; simpl.
  - destruct (json res) as [d|name message]; simpl.
    + destruct (od_text d) as [t|]; [destruct (Str.truthy t)|];
        unfold ret, throw; intros H; inversion H; reflexivity.
    + unfold throw; intros H; inversion H; reflexivity.
  - intros H; inversion H; reflexivity.
Qed.

(** A text an attempt resolves with is never empty. *)
Lemma ocr_attempt_text_truthy (s s' : Sys World) (t : string) :
  ocr_attempt_ url cookie o s = (Resolved t, s') -> Str.truthy t = true.
Proof.
  unfold ocr_attempt, bind, fetch, log, await_json.
  destruct (net _ _ GET (world s)) as [[res|name message] w1]; simpl.
  - destruct (json res) as [d|name message]; simpl.
    + destruct (od_text d) as [t'|]; [destruct (Str.truthy t') eqn:Ht|];
        unfold ret, throw; intros H; inversion H; subst; assumption.
    + unfold throw; intros H; inversion H.
  - intros H; inversion H.
Qed.

Lemma attempts_length (k : nat) (s : Sys World) :
  List.length (fst (attempts_ k url cookie o s)) = k.
Proof.
  revert s. induction k as [|k IH]; intros s; simpl; [reflexivity|].
  destruct (ocr_attempt_ url cookie o s) as [r s1].
  specialize (IH s1). destruct (attempts_ k url cookie o s1) as [rs s2].
  simpl in *. now rewrite IH.
Qed.

Lemma attempts_trace (k : nat) (s : Sys World) :
  trace (snd (attempts_ k url cookie o s)) = (trace s ++ repeat request k)%list.
Proof.
  revert s. induction k as [|k IH]; intros s; simpl.
  - now rewrite app_nil_r.
  - pose proof (ocr_attempt_trace s) as Hone.
    destruct (ocr_attempt_ url cookie o s) as [r s1].
    specialize (IH s1). destruct (attempts_ k url cookie o s1) as [rs s2].
    simpl in *. rewrite IH, Hone, <- app_assoc. reflexivity.
Qed.

Lemma attempts_throw_Errors (k : nat) (s : Sys World) (e : Thrown) :
  In (Rejected e) (fst (attempts_ k url cookie o s)) -> as_Error e = e.
Proof using url cookie o.
  revert s. induction k as [|k IH]; intros s; simpl; [intros []|].
  destruct (ocr_attempt_ url cookie o s) as [r s1] eqn:Hone.
  specialize (IH s1). destruct (attempts_ k url cookie o s1) as [rs s2].
  simpl in IH |- *. intros [Heq | Hin]; [|now apply IH].
  rewrite Heq in Hone. exact (ocr_attempt_throws_Error s s1 e Hone).
Qed.

Lemma attempts_texts_truthy (k : nat) (s : Sys World) (t : string) :
  In (Resolved t) (fst (attempts_ k url cookie o s)) -> Str.truthy t = true.
Proof using url cookie o.
  revert s. induction k as [|k IH]; intros s; simpl; [intros []|].
  destruct (ocr_attempt_ url cookie o s) as [r s1] eqn:Hone.
  specialize (IH s1). destruct (attempts_ k url cookie o s1) as [rs s2].
  simpl in IH |- *. intros [Heq | Hin]; [|now apply IH].
  rewrite Heq in Hone. exact (ocr_attempt_text_truthy s s1 t Hone).
Qed.

(** The first attempt that resolves ends the loop, with its text. *)
Lemma ocr_loop_first_success (k : nat) :
  forall (n : nat) (lastError : option Thrown) (s s' : Sys World)
         (fails : list (Outcome string)) (t : string),
    (k <= n)%nat ->
    attempts_ k url cookie o s = ((fails ++ [Resolved t])%list, s') ->
    forallb is_rejected fails = true ->
    ocr_loop_ n lastError cid url cookie ex o s = (Resolved (session_with t), s').
Proof.
  induction k as [|k IH]; intros n lastError s s' fails t Hle Hatt Hfails.
  - simpl in Hatt. inversion Hatt. now destruct fails.
  - destruct n as [|n]; [lia|].
    pose proof (attempts_length k) as Hlen.
    simpl in Hatt. simpl. unfold try_catch, bind.
    destruct (ocr_attempt_ url cookie o s) as [r s1].
    specialize (Hlen s1).
    destruct (attempts_ k url cookie o s1) as [rs s2] eqn:Hrest.
    simpl in Hlen. inversion Hatt as [[Hlist Hstate]]. subst s2.
    destruct fails as [|f fails]; simpl in *.
    + inversion Hlist; subst r rs. simpl in Hlen. subst k.
      simpl in Hrest. inversion Hrest. reflexivity.
    + inversion Hlist; subst r rs.
      apply andb_prop in Hfails. destruct Hfails as [Hf Hfails].
      destruct f as [a|e]; [discriminate|].
      apply (IH n _ s1 s' fails t); [lia | assumption | assumption].
Qed.

(** When every attempt throws, the loop throws what it last caught. *)
Lemma ocr_loop_exhausted (n : nat) :
  forall (lastError : option Thrown) (s s' : Sys World)
         (outs : list (Outcome string)),
    attempts_ n url cookie o s = (outs, s') ->
    forallb is_rejected outs = true ->
    ocr_loop_ n lastError cid url cookie ex o s
    = throw_last (last_error outs lastError) s'.
Proof.
  induction n as [|n IH]; intros lastError s s' outs Hatt Hall.
  - simpl in *. inversion Hatt. reflexivity.
  - simpl in Hatt. simpl. unfold try_catch, bind.
    destruct (ocr_attempt_ url cookie o s) as [r s1].
    destruct (attempts_ n url cookie o s1) as [rs s2] eqn:Hrest.
    inversion Hatt; subst outs s2. simpl in Hall.
    apply andb_prop in Hall. destruct Hall as [Hr Hall].
    destruct r as [a|e]; [discriminate|].
    rewrite (IH _ s1 s' rs Hrest Hall). reflexivity.
Qed.

Lemma last_error_snoc (outs : list (Outcome string)) (e : Thrown)
    (init : option Thrown) :
  last_error (outs ++ [Rejected e]) init = Some (as_Error e).
Proof. unfold last_error. now rewrite fold_left_app. Qed.

(** The loop makes at least one request when it is entered, and no more
    than [n]. *)
Lemma ocr_loop_requests (n : nat) :
  forall (lastError : option Thrown) (s : Sys World),
  exists j, (j <= n)%nat /\ (1 <= n -> 1 <= j)%nat
    /\ trace (snd (ocr_loop_ n lastError cid url cookie ex o s))
       = (trace s ++ repeat request j)%list.
Proof.
  induction n as [|n IH]; intros lastError s.
  - exists 0%nat. simpl. repeat split; try lia.
    destruct lastError; simpl; now rewrite app_nil_r.
  - simpl. unfold try_catch, bind.
    pose proof (ocr_attempt_trace s) as Hone.
    destruct (ocr_attempt_ url cookie o s) as [[t|e] s1]; simpl in *.
    + exists 1%nat. repeat split; try lia. assumption.
    + destruct (IH (Some (as_Error e)) s1) as [j [Hj [_ Htrace]]].
      exists (S j). repeat split; try lia.
      rewrite Htrace, Hone, <- app_assoc. reflexivity.
Qed.

(** What the loop resolves with is the session of its arguments. *)
Lemma ocr_loop_resolved (n : nat) :
  forall (lastError : option Thrown) (s s' : Sys World) (sd : SessionData),
    ocr_loop_ n lastError cid url cookie ex o s = (Resolved sd, s') ->
    exists t, sd = session_with t.
Proof.
  induction n as [|n IH]; intros lastError s s' sd.
  - simpl. destruct lastError; unfold throw; simpl; intros H; inversion H.
  - simpl. unfold try_catch, bind.
    destruct (ocr_attempt_ url cookie o s) as [[t|e] s1].
    + unfold ret. intros H. inversion H. now exists t.
    + apply IH.
Qed.

End Retry.

(** *** From the session to the submission *)

Lemma bind_fetch_trace {J B} P (ep : Endpoint J) (init : RequestInit)
    (k : Response J -> M World B) :
  (forall res, emits P (k res)) ->
  forall s, exists evs,
    trace (snd (bind (fetch_ ep init) k s)) = (trace s ++ Fetch ep init :: evs)%list
    /\ forallb P evs = true.
Proof.
  intros Hk s. unfold bind, fetch, log.
  destruct (net J ep init (world s)) as [[res|name message] w1]; simpl.
  - destruct (Hk res {| world := w1; trace := trace s ++ [Fetch ep init] |})
      as [evs [Htrace Hall]].
    exists evs. rewrite Htrace. simpl. now rewrite <- app_assoc.
  - now exists [].
Qed.

(** Once [getCookieAndExecution] has resolved, the next event of [login]
    is the submission of that session, and what follows are requests to the
    token and role endpoints only. *)
Lemma login_submits username password options w sd s1 :
  session_ options (start w) = (Resolved sd, s1) ->
  exists evs,
    trace (snd (run (login_ username password options) w))
    = (trace s1 ++ Fetch AuthLogin (submit_init username password sd) :: evs)%list
    /\ forallb is_exchange evs = true.
Proof.
  intros Hsession. unfold run, login. unfold bind at 1. rewrite Hsession.
  apply bind_fetch_trace. emits_exchange.
Qed.

(** What a resolved [getCookieAndExecution] holds: the first segment of
    the [Set-Cookie] header, not empty, and the value the [execution]
    pattern matched in the page. *)
Lemma session_resolved options w sd s :
  session_ options (start w) = (Resolved sd, s) ->
  sd_cookie sd <> EmptyString
  /\ exists res w1,
      net _ AuthLogin GET w = (Fulfilled res, w1)
      /\ option_map (Str.split_first ";") (headers_get (headers res) "set-cookie")
         = Some (sd_cookie sd)
      /\ Scrape.match_execution (text res) = Some (sd_execution sd).
Proof.
  unfold getCookieAndExecution, bind, fetch, log. simpl.
  destruct (net _ AuthLogin GET w) as [[res|name message] w1];
    [|intros H; inversion H].
  destruct (option_map _ _) as [cookie|] eqn:Hcookie; [|intros H; inversion H].
  destruct (Str.truthy cookie) eqn:Htruthy; simpl; [|intros H; inversion H].
  destruct (Scrape.match_execution _) as [execution|] eqn:Hexec;
    [|intros H; inversion H].
  assert (Hgoal : forall sd', sd_cookie sd' = cookie -> sd_execution sd' = execution ->
            sd_cookie sd' <> EmptyString
            /\ exists res0 w0,
                (Fulfilled res, w1) = (Fulfilled res0, w0)
                /\ option_map (Str.split_first ";")
                     (headers_get (headers res0) "set-cookie") = Some (sd_cookie sd')
                /\ Scrape.match_execution (text res0) = Some (sd_execution sd')).
  { intros sd' -> ->. split; [now apply truthy_true_iff|].
    exists res, w1. now repeat split. }
  destruct (Scrape.match_captcha _) as [cid|];
    [destruct (Str.truthy cid)|].
  - unfold Math_random_toString. simpl. destruct (random w1) as [r w2].
    destruct options as [[rl [cb|] [oc|]]|]; unfold call, ret, throw; simpl;
      try (intros H; inversion H; fail).
    + destruct (cb _ cookie); intros H; inversion H; now apply Hgoal.
    + destruct (cb _ cookie); intros H; inversion H; now apply Hgoal.
    + intros H. apply ocr_loop_resolved in H. destruct H as [t ->].
      now apply Hgoal.
  - unfold ret. intros H; inversion H; now apply Hgoal.
  - unfold ret. intros H; inversion H; now apply Hgoal.
Qed.

Lemma existsb_false_of_forallb (P Q : Event -> bool) (l : list Event) :
  (forall e, P e = true -> Q e = false) ->
  forallb P l = true -> existsb Q l = false.
Proof.
  intros HPQ. induction l as [|e l IH]; simpl; [reflexivity|].
  intros H. apply andb_prop in H. destruct H as [He Hl].
  now rewrite (HPQ e He), (IH Hl).
Qed.

(** What the guards of [getCookieAndExecution] give to the submission:
    whenever [login] posts the credentials, the session it posts holds a
    cookie that is not empty, and as its form token the value that the
    [execution] pattern matched in the login page. *)
Theorem login_submission_invariant
    (username password : string) (options : option LoginOptions)
    (w : World) (e : Event) :
  In e (trace (snd (run (login_ username password options) w))) ->
  is_submission e = true ->
  exists sd res w1,
    e = Fetch AuthLogin (submit_init username password sd)
    /\ sd_cookie sd <> EmptyString
    /\ net _ AuthLogin GET w = (Fulfilled res, w1)
    /\ option_map (Str.split_first ";") (headers_get (headers res) "set-cookie")
       = Some (sd_cookie sd)
    /\ Scrape.match_execution (text res) = Some (sd_execution sd).
Proof.
  intros Hin Hsub.
  destruct (emits_session (fun ev => negb (is_submission ev)) options)
    with (s := start w) as [evs0 [Htrace0 Hall0]]; try reflexivity.
  simpl in Htrace0.
  assert (Hnot0 : ~ In e evs0).
  { intros Hin0. rewrite forallb_forall in Hall0. apply Hall0 in Hin0.
    now rewrite Hsub in Hin0. }
  destruct (session_ options (start w)) as [[sd|err] s1] eqn:Hsession.
  - destruct (session_resolved _ _ _ _ Hsession) as [Hcookie [res [w1 Hpage]]].
    destruct (login_submits username password _ _ _ _ Hsession) as [evs [Htrace Hall]].
    rewrite Htrace in Hin. simpl in Htrace0. rewrite Htrace0 in Hin.
    apply in_app_or in Hin. destruct Hin as [Hin | [Heq | Hin]].
    + contradiction.
    + exists sd, res, w1. now split.
    + rewrite forallb_forall in Hall. apply Hall in Hin.
      destruct e as [J ep init | u c]; [destruct ep|];
        unfold is_exchange in Hin; simpl in *; congruence.
  - rewrite (login_session_rejected _ _ _ _ _ _ Hsession) in Hin.
    simpl in *. rewrite Htrace0 in Hin. contradiction.
Qed.

(** *** The cache-busting suffix *)

Lemma substring_length_le (n m : nat) (s : string) :
  (String.length (substring n m s) <= m)%nat.
Proof.
  revert n m. induction s as [|c s IH]; intros n m.
  - destruct n, m; simpl; lia.
  - destruct n as [|n]; simpl.
    + destruct m as [|m]; simpl; [lia|]. specialize (IH 0%nat m). lia.
    + apply IH.
Qed.

Lemma slice_five_digits (d : string) :
  Str.all_digits d = true -> (5 <= String.length d)%nat ->
  String.length (Str.slice 2 7 ("0." ++ d)) = 5%nat
  /\ Str.all_digits (Str.slice 2 7 ("0." ++ d)) = true.
Proof.
  intros Hdigits Hlen.
  destruct d as [|a [|b [|c [|e [|f rest]]]]]; simpl in Hlen; try lia.
  unfold Str.slice. cbn [substring append Nat.sub].
  cbn [Str.all_digits] in Hdigits.
  apply andb_prop in Hdigits; destruct Hdigits as [Ha Hdigits].
  apply andb_prop in Hdigits; destruct Hdigits as [Hb Hdigits].
  apply andb_prop in Hdigits; destruct Hdigits as [Hc Hdigits].
  apply andb_prop in Hdigits; destruct Hdigits as [He Hdigits].
  apply andb_prop in Hdigits; destruct Hdigits as [Hf _].
  split; [now destruct rest|].
  destruct rest; cbn [Str.all_digits]; now rewrite Ha, Hb, Hc, He, Hf.
Qed.

(** C8 (as the code has it). When a captcha id is found, the image URL
    handed to the callback, or sent to the OCR service, is the captcha
    endpoint, the id, [&r=] and a suffix: characters 2 to 6 of the decimal
    rendering of the random number.  The suffix has at most five characters;
    it is five digits when the rendering is [0.] followed by five digits or
    more. *)
Theorem captcha_url_suffix
    (o : LoginOptions)
    (w w1 w2 : World) (res : Response unit) (cookie execution cid r : string) :
  bootstrapped_ w res w1 cookie execution ->
  challenged_ res w1 cid r w2 ->
  let suffix := Str.slice 2 7 r in
  let url := CAPTCHA_URL ++ cid ++ "&r=" ++ suffix in
  let session := run (session_ (Some o)) w in
  (forall cb, onCaptcha o = Some cb ->
     trace (snd session) = [Fetch AuthLogin GET; CallOnCaptcha url cookie])
  /\ (forall oc, onCaptcha o = None -> ocr o = Some oc ->
        (forall m, maxRetries oc = Some m -> 0 <= m) ->
        exists j, (1 <= j)%nat
          /\ trace (snd session)
             = Fetch AuthLogin GET
                 :: repeat (Fetch (OcrService (ocr_query url cookie oc)) GET) j)
  /\ suffix = substring 2 5 r
  /\ (String.length suffix <= 5)%nat
  /\ (forall d, r = "0." ++ d -> Str.all_digits d = true ->
                (5 <= String.length d)%nat ->
                String.length suffix = 5%nat /\ Str.all_digits suffix = true).
Proof.
  intros Hboot Hchal suffix url session.
  split; [|split; [|split; [|split]]].
  - intros cb Hcb. unfold session, run.
    now rewrite (session_callback _ _ _ _ _ _ _ _ _ _ _ Hboot Hchal eq_refl Hcb).
  - intros oc Hcb Hocr Hcount. unfold session, run.
    rewrite (session_ocr _ _ _ _ _ _ _ _ _ _ _ Hboot Hchal eq_refl Hcb Hocr).
    assert (Hpos : (1 <= Z.to_nat (effective_maxRetries oc))%nat).
    { unfold effective_maxRetries.
      destruct (maxRetries oc) as [m|] eqn:Hm; [|simpl; lia].
      specialize (Hcount m eq_refl).
      destruct (Z.eqb_spec m 0); [simpl|]; lia. }
    destruct (ocr_loop_requests cid (captcha_url cid r) cookie execution oc
                (Z.to_nat (effective_maxRetries oc)) None
                {| world := w2; trace := [Fetch AuthLogin GET] |})
      as [j [_ [Hj1 Htrace]]].
    exists j. split; [now apply Hj1 | exact Htrace].
  - reflexivity.
  - apply substring_length_le.
  - intros d -> Hdigits Hlen. now apply slice_five_digits.
Qed.

(** *** The OCR strategy inside [login] *)

(** C2. With [ocr] configured (and no callback) on a page that embeds a
    challenge, [n] being the effective [maxRetries] (3 when none is given):
    if attempt [k <= n] is the first to return a text, the session resolves
    with that text after exactly [k] requests to the OCR service, and the
    next event of [login] is the submission carrying it; if all [n]
    attempts fail, [login] throws exactly what the [n]-th attempt threw,
    after [n] requests, whatever the earlier attempts threw. *)
Theorem login_ocr_retry
    (username password : string) (o : LoginOptions) (oc : OcrOptions)
    (w w1 w2 : World) (res : Response unit) (cookie execution cid r : string) :
  bootstrapped_ w res w1 cookie execution ->
  challenged_ res w1 cid r w2 ->
  onCaptcha o = None ->
  ocr o = Some oc ->
  let n := Z.to_nat (effective_maxRetries oc) in
  let url := captcha_url cid r in
  let request := Fetch (OcrService (ocr_query url cookie oc)) GET in
  let s0 := {| world := w2; trace := [Fetch AuthLogin GET] |} in
  (maxRetries oc = None -> n = 3%nat)
  /\ (forall m, maxRetries oc = Some m -> 1 <= m -> n = Z.to_nat m)
  /\ (forall k fails t s',
        (1 <= k <= n)%nat ->
        attempts_ k url cookie oc s0 = ((fails ++ [Resolved t])%list, s') ->
        forallb is_rejected fails = true ->
        let sd := {| sd_id := cid; sd_cookie := cookie;
                     sd_execution := execution; sd_captcha := Some t |} in
        run (session_ (Some o)) w = (Resolved sd, s')
        /\ trace s' = Fetch AuthLogin GET :: repeat request k
        /\ (exists evs,
              trace (snd (run (login_ username password (Some o)) w))
              = (trace s' ++ Fetch AuthLogin (submit_init username password sd) :: evs)%list)
        /\ submit_body username password sd
           = ("username=" ++ Str.encodeURIComponent username
                ++ "&password=" ++ Str.encodeURIComponent password)
               ++ "&captcha=" ++ t
               ++ "&submit=%E7%99%BB%E5%BD%95&type=username_password&execution="
               ++ execution ++ "&_eventId=submit")
  /\ (forall outs e s',
        (1 <= n)%nat ->
        attempts_ n url cookie oc s0 = (outs, s') ->
        forallb is_rejected outs = true ->
        last outs (Resolved EmptyString) = Rejected e ->
        run (login_ username password (Some o)) w = (Rejected e, s')
        /\ trace s' = Fetch AuthLogin GET :: repeat request n).
Proof.
  intros Hboot Hchal Hcb Hocr n url request s0.
  pose proof (session_ocr _ _ _ _ _ _ _ _ _ _ _ Hboot Hchal eq_refl Hcb Hocr)
    as Hsession.
  fold n url s0 in Hsession.
  split; [|split; [|split]].
  - intros Hnone. unfold n, effective_maxRetries. now rewrite Hnone.
  - intros m Hsome Hm. unfold n, effective_maxRetries. rewrite Hsome.
    now destruct (Z.eqb_spec m 0); [lia|].
  - intros k fails t s' Hk Hatt Hfails sd.
    assert (Hrun : session_ (Some o) (start w) = (Resolved sd, s')).
    { rewrite Hsession.
      apply (ocr_loop_first_success cid url cookie execution oc k n None s0 s' fails t);
        [lia | assumption | assumption]. }
    split; [exact Hrun|]. split.
    { pose proof (attempts_trace url cookie oc k s0) as Htrace.
      now rewrite Hatt in Htrace. }
    split.
    { destruct (login_submits username password _ _ _ _ Hrun) as [evs [Htrace _]].
      now exists evs. }
    assert (Ht : Str.truthy t = true).
    { apply (attempts_texts_truthy url cookie oc k s0). rewrite Hatt. simpl.
      apply in_or_app. right. now left. }
    unfold submit_body, sd. simpl. now rewrite Ht.
  - intros outs e s' Hn Hatt Hall Hlast.
    assert (Hne : outs <> []).
    { intros ->. pose proof (attempts_length url cookie oc n s0) as Hlen.
      rewrite Hatt in Hlen. simpl in Hlen. lia. }
    pose proof (app_removelast_last (Resolved EmptyString) Hne) as Hsplit.
    rewrite Hlast in Hsplit.
    assert (He : as_Error e = e).
    { apply (attempts_throw_Errors url cookie oc n s0). rewrite Hatt. simpl.
      rewrite Hsplit. apply in_or_app. right. now left. }
    split.
    + apply login_session_rejected. rewrite Hsession.
      rewrite (ocr_loop_exhausted cid url cookie execution oc n None s0 s' outs Hatt Hall).
      rewrite Hsplit, last_error_snoc, He. reflexivity.
    + pose proof (attempts_trace url cookie oc n s0) as Htrace.
      now rewrite Hatt in Htrace.
Qed.

(** C10. [maxRetries: 0] (like no [maxRetries] at all) counts as 3: the
    loop runs as with [maxRetries: 3], and makes three requests when each
    attempt fails.  No [maxRetries] that counts attempts (zero, positive or
    absent) leaves the OCR strategy without a request: at least one is made,
    and at most the effective number. *)
Theorem login_ocr_zero_retries
    (username password : string) (o : LoginOptions) (oc : OcrOptions)
    (w w1 w2 : World) (res : Response unit) (cookie execution cid r : string) :
  bootstrapped_ w res w1 cookie execution ->
  challenged_ res w1 cid r w2 ->
  onCaptcha o = None ->
  ocr o = Some oc ->
  let url := captcha_url cid r in
  let request := Fetch (OcrService (ocr_query url cookie oc)) GET in
  let s0 := {| world := w2; trace := [Fetch AuthLogin GET] |} in
  let session := run (session_ (Some o)) w in
  let result := run (login_ username password (Some o)) w in
  (maxRetries oc = Some 0 \/ maxRetries oc = None ->
     effective_maxRetries oc = 3
     /\ session = ocr_loop_ 3 None cid url cookie execution oc s0
     /\ (forall outs s',
           attempts_ 3 url cookie oc s0 = (outs, s') ->
           forallb is_rejected outs = true ->
           trace (snd result) = [Fetch AuthLogin GET; request; request; request]))
  /\ ((forall m, maxRetries oc = Some m -> 0 <= m) ->
      (exists j, (1 <= j <= Z.to_nat (effective_maxRetries oc))%nat
                 /\ trace (snd session) = Fetch AuthLogin GET :: repeat request j)
      /\ existsb is_ocr_request (trace (snd result)) = true).
Proof.
  intros Hboot Hchal Hcb Hocr url request s0 session result.
  pose proof (session_ocr _ _ _ _ _ _ _ _ _ _ _ Hboot Hchal eq_refl Hcb Hocr)
    as Hsession.
  fold url s0 in Hsession.
  split.
  - intros Hfalsy.
    assert (Heff : effective_maxRetries oc = 3).
    { unfold effective_maxRetries. now destruct Hfalsy as [-> | ->]. }
    rewrite Heff in Hsession. change (Z.to_nat 3) with 3%nat in Hsession.
    split; [exact Heff|]. split; [exact Hsession|].
    intros outs s' Hatt Hall. unfold result.
    rewrite (login_session_rejected username password (Some o) w
               (match last_error outs None with
                | Some e => e | None => NonError "null" end) s').
    + pose proof (attempts_trace url cookie oc 3 s0) as Ht.
      rewrite Hatt in Ht. exact Ht.
    + rewrite Hsession.
      rewrite (ocr_loop_exhausted cid url cookie execution oc 3 None s0 s' outs Hatt Hall).
      unfold throw_last. now destruct (last_error outs None).
  - intros Hcount.
    assert (Hpos : (1 <= Z.to_nat (effective_maxRetries oc))%nat).
    { unfold effective_maxRetries.
      destruct (maxRetries oc) as [m|] eqn:Hm; [|simpl; lia].
      specialize (Hcount m eq_refl).
      destruct (Z.eqb_spec m 0); [simpl|]; lia. }
    destruct (ocr_loop_requests cid url cookie execution oc
                (Z.to_nat (effective_maxRetries oc)) None s0)
      as [j [Hjn [Hj1 Htrace]]].
    specialize (Hj1 Hpos).
    assert (Hsess_trace :
              trace (snd session) = Fetch AuthLogin GET :: repeat request j).
    { unfold session, run. now rewrite Hsession, Htrace. }
    split; [exists j; split; [lia | exact Hsess_trace]|].
    unfold session, run in Hsess_trace. unfold result.
    destruct (session_ (Some o) (start w)) as [[sd|e] s1] eqn:Hs;
      simpl in Hsess_trace.
    + destruct (login_submits username password _ _ _ _ Hs) as [evs [Hsub _]].
      rewrite Hsub, Hsess_trace.
      destruct j as [|j]; [lia|]. reflexivity.
    + rewrite (login_session_rejected username password _ _ _ _ Hs).
      simpl. rewrite Hsess_trace.
      destruct j as [|j]; [lia|]. reflexivity.
Qed.

(** A negative [maxRetries] is truthy and is kept as it is: the loop is not
    entered, no request is made, and [throw lastError!] throws [null]. *)
Remark login_ocr_negative_retries
    (o : LoginOptions) (oc : OcrOptions) (m : Z)
    (w w1 w2 : World) (res : Response unit) (cookie execution cid r : string) :
  bootstrapped_ w res w1 cookie execution ->
  challenged_ res w1 cid r w2 ->
  onCaptcha o = None ->
  ocr o = Some oc ->
  maxRetries oc = Some m ->
  m < 0 ->
  run (session_ (Some o)) w
  = (Rejected (NonError "null"), {| world := w2; trace := [Fetch AuthLogin GET] |}).
Proof.
  intros Hboot Hchal Hcb Hocr Hm Hneg. unfold run.
  rewrite (session_ocr _ _ _ _ _ _ _ _ _ _ _ Hboot Hchal eq_refl Hcb Hocr).
  unfold effective_maxRetries. rewrite Hm.
  destruct (Z.eqb_spec m 0); [lia|].
  now replace (Z.to_nat m) with 0%nat by lia.
Qed.

(** *** The answer to the submission *)

(** [login] once the submission is answered: outside of 302 it ends as the
    failure branch does, and on a 302 without a usable ticket it ends as
    the extraction of the ticket does. *)
Lemma login_answered username password options w w2 sd s1 response :
  session_ options (start w) = (Resolved sd, s1) ->
  net _ AuthLogin (submit_init username password sd) (world s1)
  = (Fulfilled response, w2) ->
  let s2 := {| world := w2;
               trace := trace s1 ++ [Fetch AuthLogin (submit_init username password sd)] |} in
  (status response <> 302 ->
     run (login_ username password options) w = submission_failure response s2)
  /\ (status response = 302 ->
      forall e, ticket_of World URL_search response s2 = (Rejected e, s2) ->
                run (login_ username password options) w = (Rejected e, s2)).
Proof.
  intros Hsession Hnet s2.
  assert (Hrun : forall (k : Response unit -> M World LoginResult),
             bind (session_ options)
               (fun sessionData =>
                  bind (fetch_ AuthLogin (submit_init username password sessionData)) k)
               (start w)
             = k response s2).
  { intros k. unfold bind at 1. rewrite Hsession. unfold bind at 1.
    now rewrite (fetch_fulfilled AuthLogin _ s1 response w2 Hnet). }
  split.
  - intros Hstatus. unfold run, login. rewrite Hrun.
    apply Z.eqb_neq in Hstatus. now rewrite Hstatus.
  - intros Hstatus e Hticket. unfold run, login. rewrite Hrun.
    rewrite Hstatus. simpl. unfold bind at 1. now rewrite Hticket.
Qed.

(** The answer to the credential submission, case by case, for a location
    that the URL constructor accepts:
    401 with the message [Invalid credentials.] is the invalid-credentials
    error; 401 with another message is the server error carrying that
    message (an empty [<p>] counts as no message); another status than 302
    and 401 is the server error carrying the status; 302 with a location
    that has no [ticket] parameter is the protocol error.  Errors of two
    different kinds are different errors. *)
Theorem login_submission_errors
    (username password : string) (options : option LoginOptions)
    (w w2 : World) (sd : SessionData) (s1 : Sys World) (response : Response unit) :
  session_ options (start w) = (Resolved sd, s1) ->
  net _ AuthLogin (submit_init username password sd) (world s1)
  = (Fulfilled response, w2) ->
  let raised := fst (run (login_ username password options) w) in
  let message := Scrape.match_errorDiv (text response) in
  (status response = 401 -> message = Some "Invalid credentials." ->
     raised = Rejected (Err LoginError "登录失败(3): 用户名或者密码错误")
     /\ Kind.of_outcome raised = Some Kind.InvalidCredentialsError)
  /\ (forall m, status response = 401 -> message = Some m ->
                m <> "Invalid credentials." ->
        raised = Rejected (Err LoginError
                             (if Str.truthy m then "登录失败(4): " ++ m
                              else "登录失败(2): 未知错误"))
        /\ Kind.of_outcome raised = Some Kind.AuthServerError)
  /\ (status response <> 302 -> status response <> 401 ->
        raised = Rejected (Err LoginError
                             ("登录失败(1): " ++ Str.of_Z (status response) ++ " "
                                ++ statusText response
                                ++ match message with
                                   | Some m => if Str.truthy m then "(" ++ m ++ ")"
                                               else EmptyString
                                   | None => EmptyString
                                   end))
        /\ Kind.of_outcome raised = Some Kind.AuthServerError)
  /\ (forall location search,
        status response = 302 ->
        headers_get (headers response) "Location" = Some location ->
        location <> EmptyString ->
        URL_search location = Some search ->
        Query.get search "ticket" = None ->
        raised = Rejected (Err LoginError "登录失败(6): 无法获取到ticket")
        /\ Kind.of_outcome raised = Some Kind.ProtocolError)
  /\ (forall e1 e2 k1 k2,
        Kind.of_thrown e1 = Some k1 -> Kind.of_thrown e2 = Some k2 ->
        k1 <> k2 -> e1 <> e2).
Proof.
  intros Hsession Hnet raised message.
  destruct (login_answered username password _ _ _ _ _ _ Hsession Hnet)
    as [Hfailure Hredirect].
  split; [|split; [|split; [|split]]].
  - intros Hstatus Hmessage.
    assert (Hraised : raised
              = Rejected (Err LoginError "登录失败(3): 用户名或者密码错误")).
    { unfold raised. rewrite Hfailure by lia.
      unfold submission_failure. fold message. now rewrite Hstatus, Hmessage. }
    now rewrite Hraised.
  - intros m Hstatus Hmessage Hother.
    assert (Hraised : raised
              = Rejected (Err LoginError
                            (if Str.truthy m then "登录失败(4): " ++ m
                             else "登录失败(2): 未知错误"))).
    { unfold raised. rewrite Hfailure by lia.
      unfold submission_failure. fold message. rewrite Hstatus, Hmessage.
      apply String.eqb_neq in Hother.
      destruct (Str.truthy m); simpl; [now rewrite Hother | reflexivity]. }
    rewrite Hraised. split; [reflexivity|]. now destruct (Str.truthy m).
  - intros H302 H401.
    assert (Hraised : raised
              = Rejected (Err LoginError
                            ("登录失败(1): " ++ Str.of_Z (status response) ++ " "
                               ++ statusText response
                               ++ match message with
                                  | Some m => if Str.truthy m then "(" ++ m ++ ")"
                                              else EmptyString
                                  | None => EmptyString
                                  end))).
    { unfold raised. rewrite Hfailure by assumption.
      unfold submission_failure. fold message.
      apply Z.eqb_neq in H401. rewrite H401. unfold status_line.
      rewrite !append_assoc.
      destruct message as [m|]; [destruct (Str.truthy m)|]; reflexivity. }
    now rewrite Hraised.
  - intros location search Hstatus Hlocation Hne Hsearch Hticket.
    assert (Hraised : raised
              = Rejected (Err LoginError "登录失败(6): 无法获取到ticket")).
    { unfold raised. erewrite Hredirect; [reflexivity | assumption |].
      unfold ticket_of. rewrite Hlocation.
      apply truthy_true_iff in Hne. rewrite Hne. simpl.
      rewrite Hsearch. unfold Query.get_text. now rewrite Hticket. }
    now rewrite Hraised.
  - intros e1 e2 k1 k2 H1 H2 Hdiff Heq. subst e2. congruence.
Qed.

(** C1. The submission is answered 302 with a [Location] that [new URL]
    refuses (a relative reference such as [/authserver/index.do?from=sso],
    which holds no ticket): the
    constructor throws before the ticket is looked for, nothing catches it,
    and [login] fails with the [TypeError] of the platform.  That error is
    of none of the kinds of the protocol: it is not the protocol error that
    a redirection without ticket is to raise (and does raise, through the
    guards on the location and on the ticket, when the location is absent
    or is an absolute URL). *)
Theorem login_location_refused
    (username password : string) (options : option LoginOptions)
    (w w2 : World) (sd : SessionData) (s1 : Sys World) (response : Response unit)
    (location : string) :
  session_ options (start w) = (Resolved sd, s1) ->
  net _ AuthLogin (submit_init username password sd) (world s1)
  = (Fulfilled response, w2) ->
  status response = 302 ->
  headers_get (headers response) "Location" = Some location ->
  location <> EmptyString ->
  URL_search location = None ->
  let result := run (login_ username password options) w in
  result
  = (Rejected (Err (PlatformError "TypeError") "Invalid URL"),
     {| world := w2;
        trace := trace s1 ++ [Fetch AuthLogin (submit_init username password sd)] |})
  /\ Kind.of_outcome (fst result) = None
  /\ Kind.of_outcome (fst result) <> Some Kind.ProtocolError.
Proof.
  intros Hsession Hnet Hstatus Hlocation Hne Hsearch result.
  destruct (login_answered username password _ _ _ _ _ _ Hsession Hnet)
    as [_ Hredirect].
  assert (Hrun : result
            = (Rejected (Err (PlatformError "TypeError") "Invalid URL"),
               {| world := w2;
                  trace := trace s1
                           ++ [Fetch AuthLogin (submit_init username password sd)] |})).
  { unfold result. apply (Hredirect Hstatus).
    unfold ticket_of. rewrite Hlocation.
    apply truthy_true_iff in Hne. rewrite Hne. simpl.
    now rewrite Hsearch. }
  rewrite Hrun. repeat split. discriminate.
Qed.

(** *** [getUserRoles] and [refresh] on their own *)

(** X1. A role listing that answers outside of 2xx: [getUserRoles] throws the
    [LoginError] that names the status, after its single request, and does
    not read the body. *)
Theorem getUserRoles_rejected
    (token : string) (w w1 : World) (res : Response RoleEnvelope) :
  net _ ListByUserId (roles_init token) w = (Fulfilled res, w1) ->
  ok res = false ->
  run (getUserRoles_ token) w
  = (Rejected (Err LoginError
                 ("获取用户角色失败: " ++ Str.of_Z (status res) ++ " " ++ statusText res)),
     {| world := w1; trace := [Fetch ListByUserId (roles_init token)] |})
  /\ Kind.of_outcome (fst (run (getUserRoles_ token) w)) = Some Kind.AuthServerError.
Proof.
  intros Hnet Hok. unfold run. rewrite getUserRoles_run. simpl.
  rewrite Hnet. simpl. rewrite Hok. split; reflexivity.
Qed.

(** X2. Whatever the backend does, a request of [refresh(token, role)] to
    the token endpoint carries the identity of a listed role of that name:
    the first one in the list. *)
Theorem refresh_identity
    (token : string) (r : Role) (w : World) (e : Event) :
  In e (trace (snd (run (refresh_ token (Some r)) w))) ->
  is_token_request e = true ->
  exists listed ri,
    fst (run (getUserRoles_ token) w) = Resolved listed
    /\ find (fun ri => Role_eqb (roleName ri) r) listed = Some ri
    /\ roleName ri = r
    /\ e = Fetch OAuthToken
             (refresh_init [("grant_type", "refresh_token");
                            ("refresh_token", token);
                            ("identity", id ri)]).
Proof.
  unfold run, refresh, bind. rewrite !getUserRoles_run. simpl.
  destruct (roles_of_answer _) as [listed|err]; simpl.
  - destruct (find _ listed) as [ri|] eqn:Hfind; simpl.
    + unfold fetch, log. simpl.
      destruct (net _ OAuthToken _ _) as [[res|name message] w2]; simpl.
      * destruct (negb (ok res)); [|unfold await_json; destruct (json res)];
          simpl; intros [<- | [<- | []]] He; try discriminate;
          exists listed, ri; repeat split; try assumption;
          apply find_some in Hfind; now apply Role_eqb_eq.
      * intros [<- | [<- | []]] He; try discriminate.
        exists listed, ri; repeat split; try assumption.
        apply find_some in Hfind. now apply Role_eqb_eq.
    + intros [<- | []] He. discriminate.
  - intros [<- | []] He. discriminate.
Qed.

(** X3. [refresh(token)] without a role never lists the roles: its only
    request is the token exchange with the two fields [grant_type] and
    [refresh_token], no [identity]; a 2xx answer is returned as it is, another
    status is the [LoginError] that names it. *)
Theorem refresh_without_role (token : string) (w : World) :
  let result := run (refresh_ token None) w in
  let init := refresh_init [("grant_type", "refresh_token"); ("refresh_token", token)] in
  trace (snd result) = [Fetch OAuthToken init]
  /\ (forall res info,
        fst (net _ OAuthToken init w) = Fulfilled res ->
        ok res = true -> json res = Fulfilled info ->
        fst result = Resolved info)
  /\ (forall res,
        fst (net _ OAuthToken init w) = Fulfilled res ->
        ok res = false ->
        fst result
        = Rejected (Err LoginError
                      ("刷新 token 失败: " ++ Str.of_Z (status res) ++ " " ++ statusText res))).
Proof.
  intros result init. unfold result, run, refresh, bind, ret, fetch, log. simpl.
  fold init.
  destruct (net _ OAuthToken init w) as [[res|name message] w1]; simpl.
  - split; [|split].
    + destruct (negb (ok res)); [reflexivity|].
      unfold await_json. now destruct (json res).
    + intros res' info Heq Hok Hjson. injection Heq as <-.
      rewrite Hok. simpl. unfold await_json. now rewrite Hjson.
    + intros res' Heq Hok. injection Heq as <-. now rewrite Hok.
  - split; [reflexivity|]. split; intros; discriminate.
Qed.

(** X4. [refresh(token, role)] when the role is listed: two requests, the
    listing and then the exchange with the [identity] of the first entry of
    that name; the outcome is that of the exchange. *)
Theorem refresh_with_role
    (token : string) (r : Role) (w w1 w2 : World)
    (res : Response RoleEnvelope) (envelope : RoleEnvelope) (ri : RoleInfo)
    (res2 : Response UserInfo) :
  let init := refresh_init [("grant_type", "refresh_token");
                            ("refresh_token", token);
                            ("identity", id ri)] in
  net _ ListByUserId (roles_init token) w = (Fulfilled res, w1) ->
  ok res = true ->
  json res = Fulfilled envelope ->
  find (fun ri => Role_eqb (roleName ri) r) (data envelope) = Some ri ->
  net _ OAuthToken init w1 = (Fulfilled res2, w2) ->
  let result := run (refresh_ token (Some r)) w in
  snd result
  = {| world := w2;
       trace := [Fetch ListByUserId (roles_init token); Fetch OAuthToken init] |}
  /\ (forall info, ok res2 = true -> json res2 = Fulfilled info ->
                   fst result = Resolved info)
  /\ (ok res2 = false ->
      fst result
      = Rejected (Err LoginError
                    ("刷新 token 失败: " ++ Str.of_Z (status res2) ++ " " ++ statusText res2))).
Proof.
  intros init Hnet Hok Hjson Hfind Hnet2 result.
  unfold result, run, refresh, bind. rewrite getUserRoles_run. simpl.
  rewrite Hnet. simpl. rewrite Hok, Hjson, Hfind. simpl.
  unfold fetch, log. simpl. fold init. rewrite Hnet2. simpl.
  split; [|split].
  - destruct (negb (ok res2)); [reflexivity|].
    unfold await_json. now destruct (json res2).
  - intros info Hok2 Hjson2. rewrite Hok2. simpl.
    unfold await_json. now rewrite Hjson2.
  - intros Hok2. now rewrite Hok2.
Qed.

(** *** The stages of [login] *)

Local Abbreviation submitted_ := (submitted World net random).
Local Abbreviation redirected_ := (redirected URL_search).
Local Abbreviation exchanged_ := (exchanged World net).
Local Abbreviation finish_login_ := (finish_login World net).

Lemma ticket_of_redirected (response : Response unit) (ticket : string) (s : Sys World) :
  redirected_ response ticket ->
  ticket_of World URL_search response s = (Resolved ticket, s).
Proof.
  intros (_ & location & search & Hloc & Htl & Hsearch & Hticket & Htt).
  unfold ticket_of. now rewrite Hloc, Htl, Hsearch, Hticket, Htt.
Qed.

(** [login] from a redirect with a ticket: the exchange of the ticket, then
    [finish_login]. *)
Lemma login_redirected username password options w sd s1 response w2 ticket :
  submitted_ username password options w sd s1 response w2 ->
  redirected_ response ticket ->
  let s2 := {| world := w2;
               trace := trace s1 ++ [Fetch AuthLogin (submit_init username password sd)] |} in
  run (login_ username password options) w
  = bind (fetch_ OAuthToken (ticket_init ticket))
      (fun response2 =>
         if negb (ok response2) then
           throw (Err LoginError ("登录失败(7): " ++ status_line response2))
         else bind (await_json response2) (finish_login_ options))
      s2.
Proof.
  intros [Hsession Hnet] Hred s2.
  pose proof (ticket_of_redirected response ticket s2 Hred) as Hticket.
  destruct Hred as [Hstatus _].
  unfold run, login. unfold bind at 1. rewrite Hsession. unfold bind at 1.
  rewrite (fetch_fulfilled AuthLogin _ s1 response w2 Hnet).
  rewrite Hstatus. simpl. unfold bind at 1. fold s2. rewrite Hticket.
  reflexivity.
Qed.

Lemma login_exchanged username password options w sd s1 response w2 ticket
    response2 w3 userInfo :
  submitted_ username password options w sd s1 response w2 ->
  redirected_ response ticket ->
  exchanged_ ticket w2 response2 w3 userInfo ->
  run (login_ username password options) w
  = finish_login_ options userInfo
      {| world := w3;
         trace := trace s1 ++ [Fetch AuthLogin (submit_init username password sd);
                               Fetch OAuthToken (ticket_init ticket)] |}.
Proof.
  intros Hsub Hred (Hnet & Hok & Hjson).
  rewrite (login_redirected _ _ _ _ _ _ _ _ _ Hsub Hred).
  unfold bind at 1. unfold fetch, log. simpl. rewrite Hnet. simpl.
  rewrite Hok. simpl. unfold bind at 1, await_json. rewrite Hjson. simpl.
  now rewrite <- app_assoc.
Qed.

(** X5. The login page has a cookie but no [execution] field: [login] fails
    with the no-execution error, having requested the login page and nothing
    else. *)
Theorem login_without_execution
    (username password : string) (options : option LoginOptions)
    (w w1 : World) (res : Response unit) (cookie : string) :
  net _ AuthLogin GET w = (Fulfilled res, w1) ->
  option_map (Str.split_first ";") (headers_get (headers res) "set-cookie")
  = Some cookie ->
  Str.truthy cookie = true ->
  Scrape.match_execution (text res) = None ->
  let result := run (login_ username password options) w in
  result = (Rejected (Err LoginError "登录失败(-2): 无法获取到 execution"),
            {| world := w1; trace := [Fetch AuthLogin GET] |})
  /\ Kind.of_outcome (fst result) = Some Kind.ProtocolError
  /\ existsb is_submission (trace (snd result)) = false.
Proof.
  intros Hnet Hcookie Htruthy Hexec result.
  assert (Hrun : result
                 = (Rejected (Err LoginError "登录失败(-2): 无法获取到 execution"),
                    {| world := w1; trace := [Fetch AuthLogin GET] |})).
  { apply login_session_rejected. unfold getCookieAndExecution, bind.
    rewrite (fetch_fulfilled AuthLogin GET (start w) res w1 Hnet). simpl.
    now rewrite Hcookie, Htruthy, Hexec. }
  rewrite Hrun. repeat split.
Qed.

(** X6. The login page embeds no captcha id (or an empty one): whatever the
    options, [login] calls no callback and no OCR service, and goes straight
    from the login page to a submission without [captcha] field. *)
Theorem login_unchallenged
    (username password : string) (options : option LoginOptions)
    (w w1 : World) (res : Response unit) (cookie execution : string) :
  bootstrapped_ w res w1 cookie execution ->
  (Scrape.match_captcha (text res) = None
   \/ Scrape.match_captcha (text res) = Some EmptyString) ->
  let sd := {| sd_id := EmptyString; sd_cookie := cookie;
               sd_execution := execution; sd_captcha := None |} in
  let result := run (login_ username password options) w in
  (exists evs,
      trace (snd result)
      = Fetch AuthLogin GET :: Fetch AuthLogin (submit_init username password sd) :: evs
      /\ forallb is_exchange evs = true)
  /\ submit_body username password sd
     = ("username=" ++ Str.encodeURIComponent username
          ++ "&password=" ++ Str.encodeURIComponent password)
         ++ "&submit=%E7%99%BB%E5%BD%95&type=username_password&execution="
         ++ execution ++ "&_eventId=submit"
  /\ existsb is_callback (trace (snd result)) = false
  /\ existsb is_ocr_request (trace (snd result)) = false.
Proof.
  intros Hboot Hcap sd result.
  pose proof (session_unchallenged options _ _ _ _ _ Hboot Hcap) as Hsession.
  destruct (login_submits username password _ _ _ _ Hsession) as [evs [Htrace Hall]].
  simpl in Htrace. fold sd result in Htrace.
  split; [now exists evs|]. split; [reflexivity|].
  rewrite Htrace. simpl.
  split; apply (existsb_false_of_forallb is_exchange); try assumption;
    intros [J ep init | u c]; try destruct ep; unfold is_exchange; simpl; congruence.
Qed.

(** X7. The callback rejects: [login] rejects with what the callback threw,
    unchanged; the callback was called once and nothing was submitted. *)
Theorem login_callback_rejects
    (username password : string) (o : LoginOptions) (cb : CaptchaCallback)
    (w w1 w2 : World) (res : Response unit) (cookie execution cid r : string)
    (e : Thrown) :
  bootstrapped_ w res w1 cookie execution ->
  challenged_ res w1 cid r w2 ->
  onCaptcha o = Some cb ->
  cb (captcha_url cid r) cookie = Rejected e ->
  run (login_ username password (Some o)) w
  = (Rejected e,
     {| world := w2;
        trace := [Fetch AuthLogin GET; CallOnCaptcha (captcha_url cid r) cookie] |}).
Proof.
  intros Hboot Hchal Hcb Hrej.
  apply login_session_rejected.
  rewrite (session_callback _ _ _ _ _ _ _ _ _ _ _ Hboot Hchal eq_refl Hcb).
  now rewrite Hrej.
Qed.

(** X8. The callback answers with the empty string: the credentials are
    submitted all the same, and the body has no [captcha] field. *)
Theorem login_callback_empty_text
    (username password : string) (o : LoginOptions) (cb : CaptchaCallback)
    (w w1 w2 : World) (res : Response unit) (cookie execution cid r : string) :
  bootstrapped_ w res w1 cookie execution ->
  challenged_ res w1 cid r w2 ->
  onCaptcha o = Some cb ->
  cb (captcha_url cid r) cookie = Resolved EmptyString ->
  let sd := {| sd_id := cid; sd_cookie := cookie;
               sd_execution := execution; sd_captcha := Some EmptyString |} in
  (exists evs,
      trace (snd (run (login_ username password (Some o)) w))
      = Fetch AuthLogin GET :: CallOnCaptcha (captcha_url cid r) cookie
          :: Fetch AuthLogin (submit_init username password sd) :: evs)
  /\ body (submit_init username password sd)
     = TextBody
         (("username=" ++ Str.encodeURIComponent username
             ++ "&password=" ++ Str.encodeURIComponent password)
            ++ "&submit=%E7%99%BB%E5%BD%95&type=username_password&execution="
            ++ execution ++ "&_eventId=submit").
Proof.
  intros Hboot Hchal Hcb Hempty sd.
  pose proof (session_callback _ _ _ _ _ _ _ _ _ _ _ Hboot Hchal eq_refl Hcb)
    as Hsession.
  rewrite Hempty in Hsession.
  destruct (login_submits username password _ _ _ _ Hsession) as [evs [Htrace _]].
  split; [now exists evs | reflexivity].
Qed.

(** X9. A 302 that cannot be followed to a ticket: without [Location] header
    (or with an empty one) [login] fails with the no-redirect error; with a
    [ticket] parameter that is empty, with the no-ticket error.  Either way
    the submission is the last request. *)
Theorem login_redirect_unusable
    (username password : string) (options : option LoginOptions)
    (w w2 : World) (sd : SessionData) (s1 : Sys World) (response : Response unit) :
  submitted_ username password options w sd s1 response w2 ->
  status response = 302 ->
  let s2 := {| world := w2;
               trace := trace s1 ++ [Fetch AuthLogin (submit_init username password sd)] |} in
  let result := run (login_ username password options) w in
  ((headers_get (headers response) "Location" = None
    \/ headers_get (headers response) "Location" = Some EmptyString) ->
   result = (Rejected (Err LoginError "登录失败(5): 无法获取到重定向目标"), s2)
   /\ Kind.of_outcome (fst result) = Some Kind.ProtocolError)
  /\ (forall location search,
        headers_get (headers response) "Location" = Some location ->
        location <> EmptyString ->
        URL_search location = Some search ->
        Query.get search "ticket" = Some EmptyString ->
        result = (Rejected (Err LoginError "登录失败(6): 无法获取到ticket"), s2)
        /\ Kind.of_outcome (fst result) = Some Kind.ProtocolError).
Proof.
  intros [Hsession Hnet] Hstatus s2 result.
  destruct (login_answered username password _ _ _ _ _ _ Hsession Hnet)
    as [_ Hredirect].
  specialize (Hredirect Hstatus). fold s2 in Hredirect.
  split.
  - intros Hloc.
    assert (Hrun : result
              = (Rejected (Err LoginError "登录失败(5): 无法获取到重定向目标"), s2)).
    { apply Hredirect. unfold ticket_of. now destruct Hloc as [-> | ->]. }
    now rewrite Hrun.
  - intros location search Hloc Hne Hsearch Hticket.
    assert (Hrun : result
              = (Rejected (Err LoginError "登录失败(6): 无法获取到ticket"), s2)).
    { apply Hredirect. unfold ticket_of. rewrite Hloc.
      apply truthy_true_iff in Hne. rewrite Hne. simpl.
      rewrite Hsearch. unfold Query.get_text. now rewrite Hticket. }
    now rewrite Hrun.
Qed.

(** X10. The ticket is exchanged by one POST whose body is
    [ticket=<ticket>&grant_type=third]; when the answer is not 2xx [login]
    fails with the error that names the status, and asks for no role. *)
Theorem login_exchange_rejected
    (username password : string) (options : option LoginOptions)
    (w w2 w3 : World) (sd : SessionData) (s1 : Sys World)
    (response : Response unit) (ticket : string) (response2 : Response UserInfo) :
  submitted_ username password options w sd s1 response w2 ->
  redirected_ response ticket ->
  net _ OAuthToken (ticket_init ticket) w2 = (Fulfilled response2, w3) ->
  ok response2 = false ->
  let result := run (login_ username password options) w in
  result
  = (Rejected (Err LoginError
                 ("登录失败(7): " ++ Str.of_Z (status response2) ++ " "
                    ++ statusText response2)),
     {| world := w3;
        trace := trace s1 ++ [Fetch AuthLogin (submit_init username password sd);
                              Fetch OAuthToken (ticket_init ticket)] |})
  /\ body (ticket_init ticket) = TextBody ("ticket=" ++ ticket ++ "&grant_type=third")
  /\ Kind.of_outcome (fst result) = Some Kind.AuthServerError.
Proof.
  intros Hsub Hred Hnet Hok result.
  assert (Hrun : result
            = (Rejected (Err LoginError
                           ("登录失败(7): " ++ Str.of_Z (status response2) ++ " "
                              ++ statusText response2)),
               {| world := w3;
                  trace := trace s1 ++ [Fetch AuthLogin (submit_init username password sd);
                                        Fetch OAuthToken (ticket_init ticket)] |})).
  { unfold result. rewrite (login_redirected _ _ _ _ _ _ _ _ _ Hsub Hred).
    unfold bind at 1. unfold fetch, log. simpl. rewrite Hnet. simpl.
    rewrite Hok. simpl. unfold throw. now rewrite <- app_assoc. }
  rewrite Hrun. repeat split.
Qed.

(** X11. The user has no role: [login] fails with the no-role error after
    the listing, and makes no refresh exchange. *)
Theorem login_without_roles
    (username password : string) (options : option LoginOptions)
    (w w2 w3 w4 : World) (sd : SessionData) (s1 : Sys World)
    (response : Response unit) (ticket : string)
    (response2 : Response UserInfo) (userInfo : UserInfo)
    (res : Response RoleEnvelope) (envelope : RoleEnvelope) :
  submitted_ username password options w sd s1 response w2 ->
  redirected_ response ticket ->
  exchanged_ ticket w2 response2 w3 userInfo ->
  net _ ListByUserId (roles_init (refresh_token userInfo)) w3 = (Fulfilled res, w4) ->
  ok res = true ->
  json res = Fulfilled envelope ->
  data envelope = [] ->
  let result := run (login_ username password options) w in
  result
  = (Rejected (Err LoginError "登录失败(8): 用户无任何角色"),
     {| world := w4;
        trace := trace s1 ++ [Fetch AuthLogin (submit_init username password sd);
                              Fetch OAuthToken (ticket_init ticket);
                              Fetch ListByUserId (roles_init (refresh_token userInfo))] |})
  /\ Kind.of_outcome (fst result) = Some Kind.NoRoleError.
Proof.
  intros Hsub Hred Hexch Hnet Hok Hjson Hempty result.
  assert (Hrun : result
            = (Rejected (Err LoginError "登录失败(8): 用户无任何角色"),
               {| world := w4;
                  trace := trace s1 ++ [Fetch AuthLogin (submit_init username password sd);
                                        Fetch OAuthToken (ticket_init ticket);
                                        Fetch ListByUserId
                                          (roles_init (refresh_token userInfo))] |})).
  { unfold result. rewrite (login_exchanged _ _ _ _ _ _ _ _ _ _ _ _ Hsub Hred Hexch).
    unfold finish_login, bind. rewrite getUserRoles_run. simpl.
    rewrite Hnet. simpl. rewrite Hok, Hjson, Hempty. unfold throw.
    now rewrite <- app_assoc. }
  rewrite Hrun. repeat split.
Qed.

(** *** A whole [login] *)

Lemma submission_failure_rejects {A} (response : Response unit) (s : Sys World) :
  exists e, submission_failure (A := A) response s = (Rejected e, s).
Proof.
  unfold submission_failure.
  destruct (status response =? 401);
    [destruct (match Scrape.match_errorDiv (text response) with
               | Some e => Str.truthy e | None => false end)|];
    eexists; reflexivity.
Qed.

Lemma ticket_of_resolved (response : Response unit) (s s' : Sys World) (ticket : string) :
  ticket_of World URL_search response s = (Resolved ticket, s') ->
  s' = s
  /\ exists location search,
      headers_get (headers response) "Location" = Some location
      /\ Str.truthy location = true
      /\ URL_search location = Some search
      /\ Query.get_text search "ticket" = Some ticket
      /\ Str.truthy ticket = true.
Proof.
  unfold ticket_of.
  destruct (headers_get _ _) as [location|]; [|intros H; inversion H].
  destruct (Str.truthy location) eqn:Hl; simpl; [|intros H; inversion H].
  destruct (URL_search location) as [search|] eqn:Hs; [|intros H; inversion H].
  destruct (Query.get_text search "ticket") as [t|] eqn:Ht; [|intros H; inversion H].
  destruct (Str.truthy t) eqn:Htt; simpl; intros H; inversion H; subst.
  split; [reflexivity|]. exists location, search. now repeat split.
Qed.

Lemma ticket_of_rejected (response : Response unit) (s s' : Sys World) (e : Thrown) :
  ticket_of World URL_search response s = (Rejected e, s') -> s' = s.
Proof.
  unfold ticket_of.
  destruct (headers_get _ _) as [location|]; [|intros H; now inversion H].
  destruct (Str.truthy location); simpl; [|intros H; now inversion H].
  destruct (URL_search location) as [search|]; [|intros H; now inversion H].
  destruct (Query.get_text search "ticket") as [t|]; [|intros H; now inversion H].
  destruct (Str.truthy t); simpl; intros H; now inversion H.
Qed.

Lemma refresh_resolved (token : string) (r : Role) (s s' : Sys World) (info : UserInfo) :
  refresh_ token (Some r) s = (Resolved info, s') ->
  exists listed ri,
    fst (getUserRoles_ token s) = Resolved listed
    /\ find (fun ri => Role_eqb (roleName ri) r) listed = Some ri
    /\ trace s'
       = (trace s ++ [Fetch ListByUserId (roles_init token);
                      Fetch OAuthToken
                        (refresh_init [("grant_type", "refresh_token");
                                       ("refresh_token", token);
                                       ("identity", id ri)])])%list.
Proof.
  unfold refresh, bind. rewrite getUserRoles_run.
  destruct (roles_of_answer _) as [listed|err]; [|intros H; inversion H].
  destruct (find _ listed) as [ri|] eqn:Hfind; [|intros H; inversion H].
  unfold ret, fetch, log. simpl.
  destruct (net _ OAuthToken _ _) as [[res|name message] w2]; simpl;
    [|intros H; inversion H].
  destruct (negb (ok res)); [intros H; inversion H|].
  unfold await_json. destruct (json res); intros H; inversion H; subst.
  exists listed, ri. repeat split.
  - exact Hfind.
  - simpl. now rewrite <- app_assoc.
Qed.

Lemma finish_login_resolved options userInfo (s s' : Sys World) (result : LoginResult) :
  finish_login_ options userInfo s = (Resolved result, s') ->
  exists first rest listed ri,
    fst (getUserRoles_ (refresh_token userInfo) s) = Resolved (first :: rest)
    /\ fst (getUserRoles_ (refresh_token userInfo)
              (snd (getUserRoles_ (refresh_token userInfo) s)))
       = Resolved listed
    /\ roles result = first :: rest
    /\ find (fun ri => Role_eqb (roleName ri) (chosen_role options first)) listed
       = Some ri
    /\ trace s'
       = (trace s ++ [Fetch ListByUserId (roles_init (refresh_token userInfo));
                      Fetch ListByUserId (roles_init (refresh_token userInfo));
                      Fetch OAuthToken
                        (refresh_init [("grant_type", "refresh_token");
                                       ("refresh_token", refresh_token userInfo);
                                       ("identity", id ri)])])%list.
Proof.
  unfold finish_login. unfold bind at 1.
  destruct (getUserRoles_ (refresh_token userInfo) s) as [[[|first rest]|err] s4]
    eqn:Hlisting; try (intros H; inversion H; fail).
  unfold bind.
  destruct (refresh_ _ _ _) as [[info|e] s5] eqn:Hrefresh; [|intros H; inversion H].
  apply refresh_resolved in Hrefresh.
  destruct Hrefresh as (listed & ri & Hlisted & Hfind & Htrace).
  unfold ret. intros H. inversion H; subst. simpl.
  exists first, rest, listed, ri. repeat split; try assumption.
  rewrite Htrace.
  replace (trace s4)
    with (trace s ++ [Fetch ListByUserId (roles_init (refresh_token userInfo))])%list
    by (rewrite getUserRoles_run in Hlisting; now inversion Hlisting).
  now rewrite <- app_assoc.
Qed.

(** X12. After the exchange of the ticket, [login] lists the roles with the
    refresh token it received; with a first role, it ends as the refresh for
    the chosen role ends: its failure is the failure of [login], its token
    bundle is returned together with the roles of that listing. *)
Theorem login_finishes_with_refresh
    (username password : string) (options : option LoginOptions)
    (w w2 w3 w4 : World) (sd : SessionData) (s1 : Sys World)
    (response : Response unit) (ticket : string)
    (response2 : Response UserInfo) (userInfo : UserInfo)
    (res : Response RoleEnvelope) (envelope : RoleEnvelope)
    (first : RoleInfo) (rest : list RoleInfo) :
  submitted_ username password options w sd s1 response w2 ->
  redirected_ response ticket ->
  exchanged_ ticket w2 response2 w3 userInfo ->
  net _ ListByUserId (roles_init (refresh_token userInfo)) w3 = (Fulfilled res, w4) ->
  ok res = true ->
  json res = Fulfilled envelope ->
  data envelope = first :: rest ->
  let s4 := {| world := w4;
               trace := trace s1 ++ [Fetch AuthLogin (submit_init username password sd);
                                     Fetch OAuthToken (ticket_init ticket);
                                     Fetch ListByUserId
                                       (roles_init (refresh_token userInfo))] |} in
  let refreshed :=
    refresh_ (refresh_token userInfo) (Some (chosen_role options first)) s4 in
  run (login_ username password options) w
  = (match fst refreshed with
     | Resolved bundle => Resolved {| info := bundle; roles := first :: rest |}
     | Rejected e => Rejected e
     end,
     snd refreshed).
Proof.
  intros Hsub Hred Hexch Hnet Hok Hjson Hdata s4 refreshed.
  rewrite (login_exchanged _ _ _ _ _ _ _ _ _ _ _ _ Hsub Hred Hexch).
  unfold finish_login. unfold bind at 1. rewrite getUserRoles_run. simpl.
  rewrite Hnet. simpl. rewrite Hok, Hjson, Hdata. unfold bind.
  rewrite <- app_assoc. simpl. fold s4. fold refreshed.
  now destruct refreshed as [[bundle|e] s5].
Qed.

(** X13. On a backend whose roles are named in the [Role] enumeration, a
    [login] that resolves went through a submission answered 302 with a
    ticket and an exchange answered in 2xx.  It returns the list of its own
    listing of the roles, which is not empty, and its trace ends with exactly
    five requests: the one submission, the exchange of the ticket, the
    listing of the roles (twice, the second time by [refresh]) and the
    refresh.  The [identity] of the refresh is the id of the first entry,
    in the list that [refresh] fetched itself, whose name is the role the
    options ask for, or else the name of the first role of the first
    listing. *)
Theorem login_resolved
    (username password : string) (options : option LoginOptions)
    (w : World) (result : LoginResult) (s : Sys World) :
  run (login_ username password options) w = (Resolved result, s) ->
  exists sd s1 response w2 ticket response2 w3 userInfo first rest listed ri,
    submitted_ username password options w sd s1 response w2
    /\ redirected_ response ticket
    /\ exchanged_ ticket w2 response2 w3 userInfo
    /\ (let s3 := {| world := w3;
                     trace := trace s1
                              ++ [Fetch AuthLogin (submit_init username password sd);
                                  Fetch OAuthToken (ticket_init ticket)] |} in
        fst (getUserRoles_ (refresh_token userInfo) s3) = Resolved (first :: rest)
        /\ fst (getUserRoles_ (refresh_token userInfo)
                  (snd (getUserRoles_ (refresh_token userInfo) s3)))
           = Resolved listed)
    /\ roles result = first :: rest
    /\ find (fun ri => Role_eqb (roleName ri) (chosen_role options first)) listed
       = Some ri
    /\ trace s
       = (trace s1 ++ [Fetch AuthLogin (submit_init username password sd);
                       Fetch OAuthToken (ticket_init ticket);
                       Fetch ListByUserId (roles_init (refresh_token userInfo));
                       Fetch ListByUserId (roles_init (refresh_token userInfo));
                       Fetch OAuthToken
                         (refresh_init [("grant_type", "refresh_token");
                                        ("refresh_token", refresh_token userInfo);
                                        ("identity", id ri)])])%list
    /\ forallb (fun e => negb (is_submission e) && negb (is_exchange e)) (trace s1)
       = true.
Proof.
  intros Hrun.
  destruct (emits_session (fun e => negb (is_submission e) && negb (is_exchange e))
              options) with (s := start w) as [pre [Hpre Hall]]; try reflexivity.
  simpl in Hpre.
  destruct (session_ options (start w)) as [[sd|e] s1] eqn:Hsession.
  2:{ rewrite (login_session_rejected _ _ _ _ _ _ Hsession) in Hrun. discriminate. }
  simpl in Hpre.
  destruct (net _ AuthLogin (submit_init username password sd) (world s1))
    as [[response|name message] w2] eqn:Hnet.
  2:{ unfold run, login in Hrun. unfold bind at 1 in Hrun. rewrite Hsession in Hrun.
      unfold bind at 1 in Hrun.
      rewrite (fetch_failed AuthLogin _ s1 name message w2 Hnet) in Hrun.
      discriminate. }
  destruct (login_answered username password _ _ _ _ _ _ Hsession Hnet)
    as [Hfailure Hredirect].
  destruct (Z.eq_dec (status response) 302) as [Hstatus|Hstatus].
  2:{ rewrite (Hfailure Hstatus) in Hrun.
      destruct (submission_failure_rejects (A := LoginResult) response
                  {| world := w2;
                     trace := trace s1 ++ [Fetch AuthLogin (submit_init username password sd)] |})
        as [e He].
      rewrite He in Hrun. discriminate. }
  destruct (ticket_of World URL_search response
              {| world := w2;
                 trace := trace s1 ++ [Fetch AuthLogin (submit_init username password sd)] |})
    as [[ticket|e] s2] eqn:Hticket.
  2:{ pose proof (ticket_of_rejected _ _ _ _ Hticket) as ->.
      rewrite (Hredirect Hstatus e eq_refl) in Hrun. discriminate. }
  destruct (ticket_of_resolved _ _ _ _ Hticket) as [-> Hlocation].
  assert (Hsub : submitted_ username password options w sd s1 response w2)
    by (split; assumption).
  assert (Hred : redirected_ response ticket) by (split; assumption).
  pose proof Hrun as Hsteps.
  rewrite (login_redirected _ _ _ _ _ _ _ _ _ Hsub Hred) in Hsteps.
  unfold bind at 1 in Hsteps. unfold fetch, log in Hsteps. simpl in Hsteps.
  destruct (net _ OAuthToken (ticket_init ticket) w2)
    as [[response2|name message] w3] eqn:Hnet2; [|discriminate].
  simpl in Hsteps.
  destruct (ok response2) eqn:Hok; simpl in Hsteps; [|discriminate].
  unfold bind at 1, await_json in Hsteps.
  destruct (json response2) as [userInfo|name message] eqn:Hjson; [|discriminate].
  clear Hsteps.
  assert (Hexch : exchanged_ ticket w2 response2 w3 userInfo)
    by (repeat split; assumption).
  rewrite (login_exchanged _ _ _ _ _ _ _ _ _ _ _ _ Hsub Hred Hexch) in Hrun.
  apply finish_login_resolved in Hrun.
  destruct Hrun as (first & rest & listed & ri & Hfirst & Hlisted & Hroles & Hfind & Htrace).
  exists sd, s1, response, w2, ticket, response2, w3, userInfo, first, rest, listed, ri.
  repeat split; try assumption.
  - rewrite Htrace. simpl. now rewrite <- app_assoc.
  - now rewrite Hpre.
Qed.

(** X14. No run of [login] posts the credentials twice. *)
Theorem login_submits_at_most_once
    (username password : string) (options : option LoginOptions) (w : World) :
  (List.length (filter is_submission
                  (trace (snd (run (login_ username password options) w)))) <= 1)%nat.
Proof.
  destruct (emits_session (fun e => negb (is_submission e)) options)
    with (s := start w) as [pre [Hpre Hall]]; try reflexivity.
  simpl in Hpre.
  assert (Hnone : forall P l, forallb (fun e => negb (P e)) l = true ->
                              filter P l = @nil Event).
  { intros P l. induction l as [|x l IH]; simpl; [reflexivity|].
    intros H. apply andb_prop in H. destruct H as [Hx Hl].
    apply negb_true_iff in Hx. rewrite Hx. now apply IH. }
  destruct (session_ options (start w)) as [[sd|e] s1] eqn:Hsession.
  - destruct (login_submits username password _ _ _ _ Hsession) as [evs [Htrace Hex]].
    rewrite Htrace. simpl in Hpre. rewrite Hpre, filter_app, (Hnone _ _ Hall).
    simpl. rewrite (Hnone is_submission evs); [simpl; lia|].
    clear -Hex. induction evs as [|x evs IH]; simpl in *; [reflexivity|].
    apply andb_prop in Hex. destruct Hex as [Hx Hl]. rewrite (IH Hl).
    destruct x as [J ep init | u c]; [destruct ep|]; unfold is_exchange in Hx;
      simpl in *; try discriminate; reflexivity.
  - rewrite (login_session_rejected _ _ _ _ _ _ Hsession).
    simpl in *. rewrite Hpre, (Hnone _ _ Hall). simpl. lia.
Qed.

(** X15. [login] contacts the token endpoint or the role listing only after
    a submission that was answered by a 302 carrying a non-empty ticket. *)
Theorem login_exchange_needs_ticket
    (username password : string) (options : option LoginOptions) (w : World) :
  existsb is_exchange (trace (snd (run (login_ username password options) w))) = true ->
  exists sd s1 response w2 ticket,
    submitted_ username password options w sd s1 response w2
    /\ redirected_ response ticket.
Proof.
  intros Hex.
  destruct (emits_session (fun e => negb (is_exchange e)) options)
    with (s := start w) as [pre [Hpre Hall]]; try reflexivity.
  simpl in Hpre.
  assert (Hquiet : existsb is_exchange pre = false).
  { apply (existsb_false_of_forallb (fun e => negb (is_exchange e))); [|assumption].
    intros e He. now apply negb_true_iff in He. }
  destruct (session_ options (start w)) as [[sd|e] s1] eqn:Hsession.
  2:{ rewrite (login_session_rejected _ _ _ _ _ _ Hsession) in Hex.
      simpl in *. rewrite Hpre in Hex. congruence. }
  simpl in Hpre.
  destruct (net _ AuthLogin (submit_init username password sd) (world s1))
    as [[response|name message] w2] eqn:Hnet.
  2:{ unfold run, login in Hex. unfold bind at 1 in Hex. rewrite Hsession in Hex.
      unfold bind at 1 in Hex.
      rewrite (fetch_failed AuthLogin _ s1 name message w2 Hnet) in Hex.
      simpl in Hex. rewrite Hpre, existsb_app, Hquiet in Hex. discriminate. }
  destruct (login_answered username password _ _ _ _ _ _ Hsession Hnet)
    as [Hfailure Hredirect].
  destruct (Z.eq_dec (status response) 302) as [Hstatus|Hstatus].
  2:{ rewrite (Hfailure Hstatus) in Hex.
      destruct (submission_failure_rejects (A := LoginResult) response
                  {| world := w2;
                     trace := trace s1 ++ [Fetch AuthLogin (submit_init username password sd)] |})
        as [e He].
      rewrite He in Hex. simpl in Hex.
      rewrite Hpre, existsb_app, Hquiet in Hex. discriminate. }
  destruct (ticket_of World URL_search response
              {| world := w2;
                 trace := trace s1 ++ [Fetch AuthLogin (submit_init username password sd)] |})
    as [[ticket|e] s2] eqn:Hticket.
  2:{ pose proof (ticket_of_rejected _ _ _ _ Hticket) as ->.
      rewrite (Hredirect Hstatus e eq_refl) in Hex. simpl in Hex.
      rewrite Hpre, existsb_app, Hquiet in Hex. discriminate. }
  destruct (ticket_of_resolved _ _ _ _ Hticket) as [_ Hlocation].
  exists sd, s1, response, w2, ticket. repeat split; assumption.
Qed.

(** *** More on the OCR strategy *)

Lemma filter_ocr_repeat (q : string) (j : nat) :
  filter is_ocr_request (repeat (Fetch (OcrService q) GET) j)
  = repeat (Fetch (OcrService q) GET) j.
Proof. induction j as [|j IH]; simpl; [reflexivity | now rewrite IH]. Qed.

Lemma filter_ocr_exchange (evs : list Event) :
  forallb is_exchange evs = true -> filter is_ocr_request evs = [].
Proof.
  induction evs as [|x evs IH]; simpl; [reflexivity|].
  intros H. apply andb_prop in H. destruct H as [Hx Hl]. rewrite (IH Hl).
  destruct x as [J ep init | u c]; [destruct ep|]; unfold is_exchange in Hx;
    simpl in *; try discriminate; reflexivity.
Qed.

Lemma session_ocr_requests (options : option LoginOptions) (w : World) :
  (List.length (filter is_ocr_request (trace (snd (session_ options (start w)))))
   <= ocr_budget options)%nat.
Proof.
  unfold getCookieAndExecution, bind, fetch, log. simpl.
  destruct (net _ AuthLogin GET w) as [[res|name message] w1]; simpl; [|lia].
  destruct (option_map _ _) as [cookie|]; simpl; [|lia].
  destruct (Str.truthy cookie); simpl; [|lia].
  destruct (Scrape.match_execution _) as [execution|]; simpl; [|lia].
  destruct (Scrape.match_captcha _) as [cid|]; [destruct (Str.truthy cid)|];
    simpl; try lia.
  unfold Math_random_toString. simpl. destruct (random w1) as [r w2].
  destruct options as [[rl [cb|] [oc|]]|]; unfold call, ret, throw; simpl;
    try lia; try (destruct (cb _ cookie); simpl; lia).
  match goal with
  | |- context [ocr_loop_ ?n None ?a ?b ?c ?d ?e ?s] =>
      destruct (ocr_loop_requests a b c d e n None s) as [j [Hj [_ Htrace]]]
  end.
  rewrite Htrace. simpl. rewrite filter_ocr_repeat, repeat_length. exact Hj.
Qed.

(** X16. The retries are bounded: for a [maxRetries] that is an integer, no
    run of [login] sends more requests to the OCR service than the effective
    [maxRetries], and none at all when a callback is configured or [ocr] is
    not. *)
Theorem login_ocr_bounded
    (username password : string) (options : option LoginOptions) (w : World) :
  (List.length (filter is_ocr_request
                  (trace (snd (run (login_ username password options) w))))
   <= ocr_budget options)%nat.
Proof.
  pose proof (session_ocr_requests options w) as Hsession.
  destruct (session_ options (start w)) as [[sd|e] s1] eqn:Hs; simpl in Hsession.
  - destruct (login_submits username password _ _ _ _ Hs) as [evs [Htrace Hex]].
    rewrite Htrace, filter_app. simpl.
    rewrite (filter_ocr_exchange _ Hex), app_nil_r. exact Hsession.
  - now rewrite (login_session_rejected _ _ _ _ _ _ Hs).
Qed.

(** X17. With [maxRetries: 1], an answer of the OCR service that has no
    text, or an empty one, ends [login] with the [OCRError] that quotes the
    [detail] of the answer, or [Unknown error]; the status of the answer is
    not looked at. *)
Theorem login_ocr_without_text
    (username password : string) (o : LoginOptions) (oc : OcrOptions)
    (w w1 w2 w3 : World) (res : Response unit) (cookie execution cid r : string)
    (answer : Response OcrData) (d : OcrData) :
  bootstrapped_ w res w1 cookie execution ->
  challenged_ res w1 cid r w2 ->
  onCaptcha o = None ->
  ocr o = Some oc ->
  maxRetries oc = Some 1 ->
  let request := Fetch (OcrService (ocr_query (captcha_url cid r) cookie oc)) GET in
  net _ (OcrService (ocr_query (captcha_url cid r) cookie oc)) GET w2
  = (Fulfilled answer, w3) ->
  json answer = Fulfilled d ->
  (od_text d = None \/ od_text d = Some EmptyString) ->
  let result := run (login_ username password (Some o)) w in
  result
  = (Rejected (Err OCRError ("OCR 识别失败: " ++ detail_or_unknown d)),
     {| world := w3; trace := [Fetch AuthLogin GET; request] |})
  /\ Kind.of_outcome (fst result) = Some Kind.OcrError.
Proof.
  intros Hboot Hchal Hcb Hocr Hone request Hnet Hjson Htext result.
  assert (Hrun : result
            = (Rejected (Err OCRError ("OCR 识别失败: " ++ detail_or_unknown d)),
               {| world := w3; trace := [Fetch AuthLogin GET; request] |})).
  { apply login_session_rejected.
    rewrite (session_ocr _ _ _ _ _ _ _ _ _ _ _ Hboot Hchal eq_refl Hcb Hocr).
    unfold effective_maxRetries. rewrite Hone. simpl.
    unfold try_catch, bind, ocr_attempt, bind, fetch, log. simpl.
    rewrite Hnet. simpl. unfold await_json. rewrite Hjson. simpl.
    unfold detail_or_unknown. now destruct Htext as [-> | ->]. }
  now rewrite Hrun.
Qed.

(** X18. A negative [maxRetries] is kept as it is: the loop is not entered,
    and [login] throws [null], having sent nothing to the OCR service and
    submitted nothing. *)
Theorem login_ocr_negative_throws_null
    (username password : string) (o : LoginOptions) (oc : OcrOptions) (m : Z)
    (w w1 w2 : World) (res : Response unit) (cookie execution cid r : string) :
  bootstrapped_ w res w1 cookie execution ->
  challenged_ res w1 cid r w2 ->
  onCaptcha o = None ->
  ocr o = Some oc ->
  maxRetries oc = Some m ->
  m < 0 ->
  run (login_ username password (Some o)) w
  = (Rejected (NonError "null"), {| world := w2; trace := [Fetch AuthLogin GET] |}).
Proof.
  intros Hboot Hchal Hcb Hocr Hm Hneg.
  apply login_session_rejected.
  exact (login_ocr_negative_retries o oc m w w1 w2 res cookie execution cid r
           Hboot Hchal Hcb Hocr Hm Hneg).
Qed.

(** *** What the scraped values can hold *)

Lemma find_after_char_before (c : ascii) (s b r : string) :
  Str.find_after (String c EmptyString) s = Some (b, r) ->
  Str.contains (String c EmptyString) b = false.
Proof.
  revert b. induction s as [|x s IH]; intros b; simpl; [discriminate|].
  destruct (Ascii.eqb c x) eqn:Hcx.
  - intros H. inversion H. reflexivity.
  - destruct (Str.find_after (String c EmptyString) s) as [[b' r']|] eqn:Hrec;
      [|discriminate].
    intros H. inversion H; subst. unfold Str.contains. simpl. rewrite Hcx.
    specialize (IH b' eq_refl). unfold Str.contains in IH.
    destruct (Str.find_after (String c EmptyString) b') as [[? ?]|];
      [discriminate | reflexivity].
Qed.

Lemma split_first_clean (c : ascii) (v : string) :
  Str.contains (String c EmptyString) (Str.split_first (String c EmptyString) v) = false.
Proof.
  unfold Str.split_first.
  destruct (Str.find_after (String c EmptyString) v) as [[b r]|] eqn:H.
  - exact (find_after_char_before c v b r H).
  - unfold Str.contains. now rewrite H.
Qed.

Lemma lazy_until_clean (c : ascii) (s v : string) :
  Scrape.lazy_until (String c EmptyString) s = Some v ->
  Str.contains (String c EmptyString) v = false
  /\ Str.has_line_terminator v = false.
Proof.
  unfold Scrape.lazy_until.
  destruct (Str.find_after (String c EmptyString) s) as [[b r]|] eqn:H; [|discriminate].
  destruct (Str.has_line_terminator b) eqn:Hlt; [discriminate|].
  intros Hv. inversion Hv; subst. split; [|assumption].
  exact (find_after_char_before c s v r H).
Qed.

Lemma match_execution_step (x : ascii) (html : string) :
  Scrape.match_execution (String x html)
  = match Str.strip_prefix Scrape.execution_open (String x html) with
    | Some rest =>
        match Scrape.lazy_until Str.dquote rest with
        | Some v => Some v
        | None => Scrape.match_execution html
        end
    | None => Scrape.match_execution html
    end.
Proof. reflexivity. Qed.

Lemma match_execution_clean (html v : string) :
  Scrape.match_execution html = Some v ->
  Str.contains Str.dquote v = false /\ Str.has_line_terminator v = false.
Proof.
  induction html as [|x html IH].
  - discriminate.
  - rewrite match_execution_step.
    destruct (Str.strip_prefix Scrape.execution_open (String x html)) as [rest|];
      [|exact IH].
    destruct (Scrape.lazy_until Str.dquote rest) as [v'|] eqn:Hlazy; [|exact IH].
    intros H. inversion H; subst. exact (lazy_until_clean _ _ _ Hlazy).
Qed.

Lemma last_id_match_step (x : ascii) (s : string) :
  Scrape.last_id_match (String x s)
  = let here :=
      match Str.strip_prefix "id: '" (String x s) with
      | Some rest => Scrape.lazy_until "'" rest
      | None => None
      end in
    if Ascii.eqb x "}" then here
    else match Scrape.last_id_match s with
         | Some v => Some v
         | None => here
         end.
Proof. reflexivity. Qed.

Lemma last_id_match_clean (s v : string) :
  Scrape.last_id_match s = Some v ->
  Str.contains "'" v = false /\ Str.has_line_terminator v = false.
Proof.
  induction s as [|x s IH].
  - discriminate.
  - rewrite last_id_match_step. cbv zeta.
    assert (Hhere : match Str.strip_prefix "id: '" (String x s) with
                    | Some rest => Scrape.lazy_until "'" rest
                    | None => None
                    end = Some v ->
                    Str.contains "'" v = false /\ Str.has_line_terminator v = false).
    { destruct (Str.strip_prefix "id: '" (String x s)) as [rest|]; [|discriminate].
      apply lazy_until_clean. }
    destruct (Ascii.eqb x "}"); [exact Hhere|].
    destruct (Scrape.last_id_match s) as [v'|]; [|exact Hhere].
    intros H. inversion H; subst. now apply IH.
Qed.

Lemma match_captcha_step (x : ascii) (html : string) :
  Scrape.match_captcha (String x html)
  = match
      match Str.strip_prefix "config" (String x html) with
      | Some r1 =>
          match Scrape.skip_dot r1 with
          | Some r2 =>
              match Str.strip_prefix "captcha" r2 with
              | Some r3 =>
                  match Str.find_after "{" r3 with
                  | Some (_, r4) => Scrape.last_id_match r4
                  | None => None
                  end
              | None => None
              end
          | None => None
          end
      | None => None
      end
    with
    | Some v => Some v
    | None => Scrape.match_captcha html
    end.
Proof. reflexivity. Qed.

Lemma match_captcha_clean (html v : string) :
  Scrape.match_captcha html = Some v ->
  Str.contains "'" v = false /\ Str.has_line_terminator v = false.
Proof.
  induction html as [|x html IH].
  - discriminate.
  - rewrite match_captcha_step.
    destruct (Str.strip_prefix "config" (String x html)) as [r1|]; [|exact IH].
    destruct (Scrape.skip_dot r1) as [r2|]; [|exact IH].
    destruct (Str.strip_prefix "captcha" r2) as [r3|]; [|exact IH].
    destruct (Str.find_after "{" r3) as [[b r4]|]; [|exact IH].
    destruct (Scrape.last_id_match r4) as [v'|] eqn:Hlast; [|exact IH].
    intros H. inversion H; subst. exact (last_id_match_clean _ _ Hlast).
Qed.

(** The challenge id of a resolved session: none, or the one of the page. *)
Lemma session_resolved_id options w sd s :
  session_ options (start w) = (Resolved sd, s) ->
  sd_id sd = EmptyString
  \/ exists res w1,
      net _ AuthLogin GET w = (Fulfilled res, w1)
      /\ Scrape.match_captcha (text res) = Some (sd_id sd).
Proof.
  unfold getCookieAndExecution, bind, fetch, log. simpl.
  destruct (net _ AuthLogin GET w) as [[res|name message] w1];
    [|intros H; inversion H].
  destruct (option_map _ _) as [cookie|]; [|intros H; inversion H].
  destruct (Str.truthy cookie); simpl; [|intros H; inversion H].
  destruct (Scrape.match_execution _) as [execution|]; [|intros H; inversion H].
  destruct (Scrape.match_captcha _) as [cid|] eqn:Hcap;
    [destruct (Str.truthy cid)|].
  - unfold Math_random_toString. simpl. destruct (random w1) as [r w2].
    assert (Hgoal : forall sd', sd_id sd' = cid ->
              sd_id sd' = EmptyString
              \/ exists res0 w0, (Fulfilled res, w1) = (Fulfilled res0, w0)
                   /\ Scrape.match_captcha (text res0) = Some (sd_id sd')).
    { intros sd' ->. right. now exists res, w1. }
    destruct options as [[rl [cb|] [oc|]]|]; unfold call, ret, throw; simpl;
      try (intros H; inversion H; fail).
    + destruct (cb _ cookie); intros H; inversion H; now apply Hgoal.
    + destruct (cb _ cookie); intros H; inversion H; now apply Hgoal.
    + intros H. apply ocr_loop_resolved in H. destruct H as [t ->].
      now apply Hgoal.
  - unfold ret. intros H; inversion H. now left.
  - unfold ret. intros H; inversion H. now left.
Qed.

(** X19. What a resolved [getCookieAndExecution] holds was cut out of the
    page by its delimiters: the cookie has no [;], the form token no double
    quote and no line break, the challenge id no single quote and no line
    break. *)
Theorem session_values_delimited
    (options : option LoginOptions) (w : World) (sd : SessionData) (s : Sys World) :
  run (session_ options) w = (Resolved sd, s) ->
  Str.contains ";" (sd_cookie sd) = false
  /\ Str.contains Str.dquote (sd_execution sd) = false
  /\ Str.has_line_terminator (sd_execution sd) = false
  /\ Str.contains "'" (sd_id sd) = false
  /\ Str.has_line_terminator (sd_id sd) = false.
Proof.
  unfold run. intros Hrun.
  destruct (session_resolved _ _ _ _ Hrun) as [_ (res & w1 & Hnet & Hcookie & Hexec)].
  destruct (match_execution_clean _ _ Hexec) as [Hq Hlt].
  assert (Hc : Str.contains ";" (sd_cookie sd) = false).
  { destruct (headers_get (headers res) "set-cookie") as [v|]; [|discriminate].
    simpl in Hcookie. inversion Hcookie. apply (split_first_clean ";"). }
  assert (Hid : Str.contains "'" (sd_id sd) = false
                /\ Str.has_line_terminator (sd_id sd) = false).
  { destruct (session_resolved_id _ _ _ _ Hrun) as [-> | (res' & w1' & _ & Hcap)].
    - split; reflexivity.
    - exact (match_captcha_clean _ _ Hcap). }
  destruct Hid. repeat split; assumption.
Qed.

(** *** Encoding and decoding of form fields *)

Lemma contains_char_app (c : ascii) (a b : string) :
  Str.contains (String c EmptyString) (a ++ b)
  = (Str.contains (String c EmptyString) a || Str.contains (String c EmptyString) b)%bool.
Proof.
  unfold Str.contains. induction a as [|x a IH]; simpl.
  - reflexivity.
  - destruct (Ascii.eqb c x); [reflexivity|].
    destruct (Str.find_after (String c EmptyString) (a ++ b)) as [[? ?]|];
      destruct (Str.find_after (String c EmptyString) a) as [[? ?]|];
      destruct (Str.find_after (String c EmptyString) b) as [[? ?]|];
      simpl in *; congruence.
Qed.

Lemma find_after_char_split (c : ascii) (a r : string) :
  Str.contains (String c EmptyString) a = false ->
  Str.find_after (String c EmptyString) (a ++ String c r) = Some (a, r).
Proof.
  unfold Str.contains. induction a as [|x a IH]; simpl.
  - now rewrite Ascii.eqb_refl.
  - destruct (Ascii.eqb c x); [discriminate|].
    destruct (Str.find_after (String c EmptyString) a) as [[? ?]|] eqn:Ha;
      [discriminate|].
    intros _. now rewrite IH.
Qed.

Lemma find_after_char_eq (c : ascii) (s b r : string) :
  Str.find_after (String c EmptyString) s = Some (b, r) -> s = b ++ String c r.
Proof.
  revert b. induction s as [|x s IH]; intros b; simpl; [discriminate|].
  destruct (Ascii.eqb_spec c x) as [->|Hcx].
  - intros H. now inversion H.
  - destruct (Str.find_after (String c EmptyString) s) as [[b' r']|]; [|discriminate].
    intros H. inversion H; subst. simpl. now rewrite (IH b' eq_refl).
Qed.

Lemma string_length_app (a b : string) :
  String.length (a ++ b) = (String.length a + String.length b)%nat.
Proof. induction a as [|x a IH]; simpl; [reflexivity | now rewrite IH]. Qed.

(** Fuel beyond the length does not change the pieces. *)
Lemma pieces_fuel (f : nat) :
  forall (g : nat) (s : string),
    (String.length s <= f)%nat -> (String.length s <= g)%nat ->
    Query.pieces f s = Query.pieces g s.
Proof.
  induction f as [|f IH]; intros g s Hf Hg.
  - destruct s; [|simpl in Hf; lia]. now destruct g.
  - destruct g as [|g].
    + destruct s; [|simpl in Hg; lia]. reflexivity.
    + simpl. destruct (Str.find_after "&" s) as [[p rest]|] eqn:Hfind; [|reflexivity].
      apply find_after_char_eq in Hfind. subst s.
      rewrite string_length_app in Hf, Hg. simpl in Hf, Hg.
      f_equal. apply IH; lia.
Qed.

Lemma form_entries_cons (p rest : string) :
  Str.contains "&" p = false -> Str.truthy p = true ->
  form_entries (p ++ String "&" rest) = Query.pair_of p :: form_entries rest.
Proof.
  intros Hclean Htruthy. unfold form_entries.
  rewrite string_length_app. simpl String.length.
  replace (String.length p + S (String.length rest))%nat
    with (S (String.length p + String.length rest)) by lia.
  cbn [Query.pieces]. rewrite (find_after_char_split _ _ _ Hclean).
  cbn [filter]. rewrite Htruthy. cbn [map]. f_equal.
  rewrite (pieces_fuel _ (String.length rest)); [reflexivity | lia | lia].
Qed.


Lemma pair_of_field (name value : string) :
  Str.contains "=" name = false ->
  Query.pair_of (name ++ String "=" value) = (Query.decode name, Query.decode value).
Proof.
  intros Hclean. unfold Query.pair_of.
  now rewrite (find_after_char_split _ _ _ Hclean).
Qed.

Lemma parse_form_entries (q : string) :
  Str.strip_prefix "?" q = None -> Query.parse q = form_entries q.
Proof. intros H. unfold Query.parse. now rewrite H. Qed.

(** One character of [encodeURIComponent], then of the form serializer:
    decoding gives the character back, and no [&] or [=] is produced. *)
Lemma decode_uri_char (c : ascii) (t : string) :
  Query.decode
    ((if (Str.is_alnum c || Str.mem_ascii c "-_.!~*'()")%bool
      then String c EmptyString else Str.percent c) ++ t)
  = String c (Query.decode t).
Proof.
  destruct c as [[] [] [] [] [] [] [] []]; reflexivity.
Qed.

Lemma uri_char_clean (c : ascii) :
  let unit := if (Str.is_alnum c || Str.mem_ascii c "-_.!~*'()")%bool
              then String c EmptyString else Str.percent c in
  Str.contains "&" unit = false /\ Str.contains "=" unit = false.
Proof.
  destruct c as [[] [] [] [] [] [] [] []]; split; reflexivity.
Qed.



Lemma decode_encodeURIComponent (s : string) :
  Query.decode (Str.encodeURIComponent s) = s.
Proof.
  induction s as [|c s IH]; [reflexivity|].
  cbn [Str.encodeURIComponent]. now rewrite decode_uri_char, IH.
Qed.

Lemma encodeURIComponent_clean (s : string) :
  Str.contains "&" (Str.encodeURIComponent s) = false
  /\ Str.contains "=" (Str.encodeURIComponent s) = false.
Proof.
  induction s as [|c s [IH1 IH2]]; [split; reflexivity|].
  cbn [Str.encodeURIComponent]. rewrite !contains_char_app, IH1, IH2.
  destruct (uri_char_clean c) as [-> ->]. split; reflexivity.
Qed.



Lemma field_clean (name encoded : string) :
  Str.contains "&" name = false -> Str.contains "&" encoded = false ->
  Str.contains "&" (name ++ String "=" encoded) = false.
Proof.
  intros Hn He. rewrite contains_char_app, Hn. simpl orb.
  change (String "=" encoded) with ("=" ++ encoded).
  now rewrite contains_char_app, He.
Qed.

Lemma field_truthy (name rest : string) :
  Str.truthy name = true -> Str.truthy (name ++ rest) = true.
Proof. now destruct name. Qed.

Lemma submit_body_shape (username password : string) (sd : SessionData) :
  exists tail,
    submit_body username password sd
    = ("username" ++ String "=" (Str.encodeURIComponent username))
        ++ String "&"
             (("password" ++ String "=" (Str.encodeURIComponent password))
                ++ String "&" tail).
Proof.
  unfold submit_body.
  destruct (sd_captcha sd) as [c|]; [destruct (Str.truthy c)|];
    eexists; rewrite ?append_assoc; simpl; rewrite ?append_assoc; simpl;
    reflexivity.
Qed.

(** X20. A user name and a password that are well-formed strings (valid
    UTF-8 here: no lone surrogate, on which [encodeURIComponent] throws) are
    percent-encoded into the body of the submission so that parsing the body
    as a form gives them back unchanged, whatever characters they hold. *)
Theorem submit_body_credentials (username password : string) (sd : SessionData) :
  Str.utf8_lossy username = username ->
  Str.utf8_lossy password = password ->
  Query.get_text (submit_body username password sd) "username" = Some username
  /\ Query.get_text (submit_body username password sd) "password" = Some password.
Proof.
  intros Hwfu Hwfp. unfold Query.get_text.
  destruct (submit_body_shape username password sd) as [tail ->].
  destruct (encodeURIComponent_clean username) as [Hu _].
  destruct (encodeURIComponent_clean password) as [Hp _].
  unfold Query.get.
  rewrite parse_form_entries by reflexivity.
  rewrite form_entries_cons;
    [|apply field_clean; [reflexivity | assumption] | reflexivity].
  rewrite form_entries_cons;
    [|apply field_clean; [reflexivity | assumption] | reflexivity].
  rewrite !pair_of_field by reflexivity.
  rewrite !decode_encodeURIComponent.
  simpl. rewrite Hwfu, Hwfp.
  split; reflexivity.
Qed.


(** *** Failures that [login] passes on *)

(** X22. A network failure of the request for the login page, or of the
    submission, ends [login] with that very error, not wrapped into a
    [LoginError], and nothing is requested after it. *)
Theorem login_network_failure
    (username password : string) (options : option LoginOptions) (w : World) :
  let result := run (login_ username password options) w in
  (forall name message w1,
     net _ AuthLogin GET w = (Failed name message, w1) ->
     result = (Rejected (platform_error name message),
               {| world := w1; trace := [Fetch AuthLogin GET] |}))
  /\ (forall sd s1 name message w2,
        session_ options (start w) = (Resolved sd, s1) ->
        net _ AuthLogin (submit_init username password sd) (world s1)
        = (Failed name message, w2) ->
        result = (Rejected (platform_error name message),
                  {| world := w2;
                     trace := trace s1
                                ++ [Fetch AuthLogin (submit_init username password sd)] |})).
Proof.
  intros result. split.
  - intros name message w1 Hnet. apply login_session_rejected.
    unfold getCookieAndExecution, bind.
    now rewrite (fetch_failed AuthLogin GET (start w) name message w1 Hnet).
  - intros sd s1 name message w2 Hsession Hnet.
    unfold result, run, login. unfold bind at 1. rewrite Hsession.
    unfold bind at 1.
    now rewrite (fetch_failed AuthLogin _ s1 name message w2 Hnet).
Qed.

(** X23. A 401 whose page has no error block: [login] fails with the
    unknown-error message, after the submission. *)
Theorem login_unauthorized_without_message
    (username password : string) (options : option LoginOptions)
    (w w2 : World) (sd : SessionData) (s1 : Sys World) (response : Response unit) :
  submitted_ username password options w sd s1 response w2 ->
  status response = 401 ->
  Scrape.match_errorDiv (text response) = None ->
  let result := run (login_ username password options) w in
  result
  = (Rejected (Err LoginError "登录失败(2): 未知错误"),
     {| world := w2;
        trace := trace s1 ++ [Fetch AuthLogin (submit_init username password sd)] |})
  /\ Kind.of_outcome (fst result) = Some Kind.AuthServerError.
Proof.
  intros [Hsession Hnet] Hstatus Hnone result.
  destruct (login_answered username password _ _ _ _ _ _ Hsession Hnet)
    as [Hfailure _].
  assert (Hrun : result
            = (Rejected (Err LoginError "登录失败(2): 未知错误"),
               {| world := w2;
                  trace := trace s1
                             ++ [Fetch AuthLogin (submit_init username password sd)] |})).
  { unfold result. rewrite Hfailure by lia.
    unfold submission_failure. now rewrite Hstatus, Hnone. }
  now rewrite Hrun.
Qed.

(** X24. The role that [login] asks for (the one of the options, or the one
    of the first listed role) is not in the list that [refresh] gets: [login]
    fails with the role-not-found error, after two listings and with the
    exchange of the ticket as its only request to the token endpoint. *)
Theorem login_role_not_found
    (username password : string) (options : option LoginOptions)
    (w w2 w3 w4 w5 : World) (sd : SessionData) (s1 : Sys World)
    (response : Response unit) (ticket : string)
    (response2 : Response UserInfo) (userInfo : UserInfo)
    (res res' : Response RoleEnvelope) (envelope envelope' : RoleEnvelope)
    (first : RoleInfo) (rest : list RoleInfo) :
  submitted_ username password options w sd s1 response w2 ->
  redirected_ response ticket ->
  exchanged_ ticket w2 response2 w3 userInfo ->
  net _ ListByUserId (roles_init (refresh_token userInfo)) w3 = (Fulfilled res, w4) ->
  ok res = true ->
  json res = Fulfilled envelope ->
  data envelope = first :: rest ->
  net _ ListByUserId (roles_init (refresh_token userInfo)) w4 = (Fulfilled res', w5) ->
  ok res' = true ->
  json res' = Fulfilled envelope' ->
  (forall ri, In ri (data envelope') -> roleName ri <> chosen_role options first) ->
  let result := run (login_ username password options) w in
  result
  = (Rejected (Err LoginError
                 ("用户不存在角色 " ++ Role_value (chosen_role options first))),
     {| world := w5;
        trace := trace s1 ++ [Fetch AuthLogin (submit_init username password sd);
                              Fetch OAuthToken (ticket_init ticket);
                              Fetch ListByUserId (roles_init (refresh_token userInfo));
                              Fetch ListByUserId (roles_init (refresh_token userInfo))] |})
  /\ Kind.of_outcome (fst result) = Some Kind.RoleNotFoundError.
Proof.
  intros Hsub Hred Hexch Hnet Hok Hjson Hdata Hnet' Hok' Hjson' Habsent result.
  assert (Hrun : result
            = (Rejected (Err LoginError
                           ("用户不存在角色 " ++ Role_value (chosen_role options first))),
               {| world := w5;
                  trace := trace s1
                             ++ [Fetch AuthLogin (submit_init username password sd);
                                 Fetch OAuthToken (ticket_init ticket);
                                 Fetch ListByUserId (roles_init (refresh_token userInfo));
                                 Fetch ListByUserId
                                   (roles_init (refresh_token userInfo))] |})).
  { unfold result. rewrite (login_exchanged _ _ _ _ _ _ _ _ _ _ _ _ Hsub Hred Hexch).
    unfold finish_login. unfold bind at 1. rewrite getUserRoles_run. simpl.
    rewrite Hnet. simpl. rewrite Hok, Hjson, Hdata.
    unfold bind at 1. unfold refresh. unfold bind at 1. unfold bind at 1.
    rewrite getUserRoles_run. simpl. rewrite Hnet'. simpl.
    rewrite Hok', Hjson', (find_absent _ _ Habsent). unfold throw.
    rewrite <- !app_assoc. reflexivity. }
  rewrite Hrun. split; [reflexivity|]. simpl.
  now destruct (chosen_role options first).
Qed.

End Properties.

(* ===================================================================== *)
(** ** The properties on the scripted environment *)
(* ===================================================================== *)

Import Scripted.

Ltac scripted := repeat split; reflexivity.

(** C3 on a user who is a student and an assistant, asked for the teacher role. *)
Lemma refresh_role_not_found_witness :
  fst (run (Scripted.refresh "rt-1" (Some Teacher)) happy)
  = Rejected (Err LoginError "用户不存在角色 教师")
  /\ trace (snd (run (Scripted.refresh "rt-1" (Some Teacher)) happy))
     = [Fetch ListByUserId (roles_init "rt-1")].
Proof.
  edestruct (refresh_role_not_found Script Scripted.net "rt-1" Teacher happy)
    as (Hthrown & _ & Htrace & _).
  - reflexivity.
  - reflexivity.
  - reflexivity.
  - intros ri [<- | [<- | []]]; discriminate.
  - split; [exact Hthrown | exact Htrace].
Defined.

(** C7 on the scripted backend, whose role listing always answers the same. *)
Lemma getUserRoles_twice_witness :
  fst (run (Scripted.getUserRoles "rt-1") happy) = Resolved [student_role; assistant_role]
  /\ fst (Scripted.getUserRoles "rt-1" (snd (run (Scripted.getUserRoles "rt-1") happy)))
     = Resolved [student_role; assistant_role].
Proof.
  eapply (getUserRoles_twice Script Scripted.net "rt-1" happy _
            {| data := [student_role; assistant_role] |}); reflexivity.
Defined.

(** C5 on a page without [Set-Cookie], and on one whose cookie segment is empty. *)
Lemma login_without_cookie_witness :
  fst (run (Scripted.login "u" "p" None) no_cookie)
  = Rejected (Err LoginError "登录失败(-1): 无法获取到 cookie")
  /\ fst (run (Scripted.login "u" "p" None) empty_cookie)
     = Rejected (Err LoginError "登录失败(-1): 无法获取到 cookie")
  /\ trace (snd (run (Scripted.login "u" "p" None) empty_cookie)) = [Fetch AuthLogin GET].
Proof.
  split; [|split].
  - eapply (login_without_cookie Script Scripted.net Scripted.random Scripted.URL_search
              "u" "p" None no_cookie).
    + reflexivity.
    + left. reflexivity.
  - eapply (login_without_cookie Script Scripted.net Scripted.random Scripted.URL_search
              "u" "p" None empty_cookie).
    + reflexivity.
    + right. eexists. split; reflexivity.
  - eapply (login_without_cookie Script Scripted.net Scripted.random Scripted.URL_search
              "u" "p" None empty_cookie).
    + reflexivity.
    + right. eexists. split; reflexivity.
Defined.

(** C4 on a page with a captcha and no options at all. *)
Lemma login_captcha_unconfigured_witness :
  fst (run (Scripted.login "u" "p" None) with_captcha)
  = Rejected (Err LoginError "登录失败(-3): 需要验证码，但未配置验证码处理方式")
  /\ existsb is_submission (trace (snd (run (Scripted.login "u" "p" None) with_captcha)))
     = false.
Proof.
  edestruct (login_captcha_unconfigured Script Scripted.net Scripted.random
               Scripted.URL_search "u" "p" None with_captcha)
    as (Hthrown & _ & _ & Hnone).
  - scripted.
  - scripted.
  - left. reflexivity.
  - split; [exact Hthrown | exact Hnone].
Defined.

(** Four answers to the submission, one for each case. *)
Lemma login_submission_errors_witness :
  fst (run (Scripted.login "u" "p" None) wrong_password)
  = Rejected (Err LoginError "登录失败(3): 用户名或者密码错误")
  /\ fst (run (Scripted.login "u" "p" None) locked_account)
     = Rejected (Err LoginError "登录失败(4): Account locked.")
  /\ fst (run (Scripted.login "u" "p" None) server_down)
     = Rejected (Err LoginError "登录失败(1): 500 Internal Server Error(Oops)")
  /\ fst (run (Scripted.login "u" "p" None) no_ticket)
     = Rejected (Err LoginError "登录失败(6): 无法获取到ticket").
Proof.
  split; [|split; [|split]].
  - edestruct (login_submission_errors Script Scripted.net Scripted.random
                 Scripted.URL_search "u" "p" None wrong_password)
      as (H & _); [reflexivity | reflexivity |].
    apply H; reflexivity.
  - edestruct (login_submission_errors Script Scripted.net Scripted.random
                 Scripted.URL_search "u" "p" None locked_account)
      as (_ & H & _); [reflexivity | reflexivity |].
    apply (H "Account locked."); [reflexivity | reflexivity | discriminate].
  - edestruct (login_submission_errors Script Scripted.net Scripted.random
                 Scripted.URL_search "u" "p" None server_down)
      as (_ & _ & H & _); [reflexivity | reflexivity |].
    apply H; discriminate.
  - edestruct (login_submission_errors Script Scripted.net Scripted.random
                 Scripted.URL_search "u" "p" None no_ticket)
      as (_ & _ & _ & H & _); [reflexivity | reflexivity |].
    apply (H "https://ucloud.bupt.edu.cn/?from=sso" "?from=sso");
      [reflexivity | reflexivity | discriminate | reflexivity | reflexivity].
Defined.

(** C1 on a redirection to [/authserver/index.do?from=sso]. *)
Lemma login_location_refused_witness :
  run (Scripted.login "u" "p" None) relative_location
  = (Rejected (Err (PlatformError "TypeError") "Invalid URL"),
     {| world := relative_location;
        trace := [Fetch AuthLogin GET;
                  Fetch AuthLogin (submit_init "u" "p" plain_session)] |})
  /\ Query.get "?from=sso" "ticket" = None.
Proof.
  split; [|reflexivity].
  edestruct (login_location_refused Script Scripted.net Scripted.random
               Scripted.URL_search "u" "p" None relative_location)
    as (Hrun & _);
    [reflexivity | reflexivity | reflexivity | reflexivity | discriminate
    | reflexivity |].
  exact Hrun.
Defined.

(** C2 with [maxRetries: 3]: two failures then a text, and the login succeeds
    with it; three failures, and the login throws the third. *)
Lemma login_ocr_retry_witness :
  run (Scripted.getCookieAndExecution (ocr_options (Some 3))) flaky_ocr
  = (Resolved (solved_session "k7xq"),
     {| world := with_captcha;
        trace := [Fetch AuthLogin GET; ocr_request; ocr_request; ocr_request] |})
  /\ fst (run (Scripted.login "u" "p" (ocr_options (Some 3))) flaky_ocr)
     = Resolved {| info := alice; roles := [student_role; assistant_role] |}
  /\ fst (run (Scripted.login "u" "p" (ocr_options (Some 3))) dead_ocr)
     = Rejected (Err (PlatformError "TypeError") "fetch failed").
Proof.
  split; [|split].
  - edestruct (login_ocr_retry Script Scripted.net Scripted.random Scripted.URL_search
                 "u" "p" {| role := None; onCaptcha := None;
                            ocr := Some {| token := "tok"; maxRetries := Some 3 |} |}
                 {| token := "tok"; maxRetries := Some 3 |} flaky_ocr)
      as (_ & _ & H & _); [scripted | scripted | reflexivity | reflexivity |].
    edestruct (H 3%nat [Rejected (Err OCRError "OCR 识别失败: busy");
                        Rejected (Err (PlatformError "TypeError") "fetch failed")]
                 "k7xq") as (Hrun & _); [cbv; lia | reflexivity | reflexivity |].
    exact Hrun.
  - reflexivity.
  - edestruct (login_ocr_retry Script Scripted.net Scripted.random Scripted.URL_search
                 "u" "p" {| role := None; onCaptcha := None;
                            ocr := Some {| token := "tok"; maxRetries := Some 3 |} |}
                 {| token := "tok"; maxRetries := Some 3 |} dead_ocr)
      as (_ & _ & _ & H); [scripted | scripted | reflexivity | reflexivity |].
    edestruct (H [Rejected (Err OCRError "OCR 识别失败: busy");
                  Rejected (Err OCRError "OCR 识别失败: overloaded");
                  Rejected (Err (PlatformError "TypeError") "fetch failed")])
      as (Hrun & _); [cbv; lia | reflexivity | reflexivity | reflexivity |].
    unfold Scripted.login, ocr_options. rewrite Hrun. reflexivity.
Defined.

(** The submission of a login without captcha. *)
Lemma login_submission_invariant_witness :
  exists sd res w1,
    Fetch AuthLogin (submit_init "u" "p" plain_session)
    = Fetch AuthLogin (submit_init "u" "p" sd)
    /\ sd_cookie sd <> EmptyString
    /\ Scripted.net _ AuthLogin GET happy = (Fulfilled res, w1)
    /\ option_map (Str.split_first ";") (headers_get (headers res) "set-cookie")
       = Some (sd_cookie sd)
    /\ Scrape.match_execution (text res) = Some (sd_execution sd).
Proof.
  apply (login_submission_invariant Script Scripted.net Scripted.random
           Scripted.URL_search "u" "p" None happy).
  - right. left. reflexivity.
  - reflexivity.
Defined.

(** C6. The invariant of the submission (a cookie and a form token, both
    non-empty) is broken by the code on a login page that has a session
    cookie and an [execution] field whose value is empty: the guard on
    the execution tests that the pattern matched, not that the value it
    captured is non-empty (as the guard on the cookie does), so the session
    resolves with an empty form token and [login] posts the credentials
    with [execution=]. *)
Theorem login_submits_empty_execution :
  Scripted.net unit AuthLogin GET empty_execution
  = (html_response 200 "OK" SET_COOKIE (execution_input EmptyString), empty_execution)
  /\ run (Scripted.getCookieAndExecution None) empty_execution
     = (Resolved tokenless_session,
        {| world := empty_execution; trace := [Fetch AuthLogin GET] |})
  /\ sd_cookie tokenless_session = "JSESSIONID=abc123"
  /\ sd_execution tokenless_session = EmptyString
  /\ nth_error (trace (snd (run (Scripted.login "u" "p" None) empty_execution))) 1
     = Some (Fetch AuthLogin (submit_init "u" "p" tokenless_session))
  /\ body (submit_init "u" "p" tokenless_session)
     = TextBody "username=u&password=p&submit=%E7%99%BB%E5%BD%95&type=username_password&execution=&_eventId=submit".
Proof.
  repeat split.
Qed.

(** C8 on a rendering with sixteen decimals: the suffix is five digits. *)
Lemma captcha_url_suffix_witness :
  trace (snd (run (Scripted.getCookieAndExecution (callback_options (typed "k7xq") None))
                with_captcha))
  = [Fetch AuthLogin GET; CallOnCaptcha CAPTCHA_IMAGE "JSESSIONID=abc123"]
  /\ (exists j, (1 <= j)%nat
       /\ trace (snd (run (Scripted.getCookieAndExecution (ocr_options (Some 2))) dead_ocr))
          = Fetch AuthLogin GET :: repeat ocr_request j)
  /\ String.length (Str.slice 2 7 "0.7316340442902695") = 5%nat
  /\ Str.all_digits (Str.slice 2 7 "0.7316340442902695") = true.
Proof.
  split; [|split].
  - edestruct (captcha_url_suffix Script Scripted.net Scripted.random
                 {| role := None; onCaptcha := Some (typed "k7xq"); ocr := None |}
                 with_captcha)
      as (Htrace & _); [scripted | scripted |].
    apply (Htrace (typed "k7xq")). reflexivity.
  - edestruct (captcha_url_suffix Script Scripted.net Scripted.random
                 {| role := None; onCaptcha := None;
                    ocr := Some {| token := "tok"; maxRetries := Some 2 |} |}
                 dead_ocr)
      as (_ & Htrace & _); [scripted | scripted |].
    apply (Htrace {| token := "tok"; maxRetries := Some 2 |});
      [reflexivity | reflexivity |].
    intros m Hm. injection Hm as <-. lia.
  - edestruct (captcha_url_suffix Script Scripted.net Scripted.random
                 {| role := None; onCaptcha := Some (typed "k7xq"); ocr := None |}
                 with_captcha)
      as (_ & _ & _ & _ & Hdigits); [scripted | scripted |].
    apply (Hdigits "7316340442902695"); [reflexivity | reflexivity | cbv; lia].
Defined.

(** C8 as the specification states it fails when the number drawn is 0.5: it
    renders as [0.5], and the suffix is the single digit [5]. *)
Lemma captcha_suffix_one_digit :
  trace (snd (run (Scripted.getCookieAndExecution (callback_options (typed "k7xq") None))
                drew_half))
  = [Fetch AuthLogin GET;
     CallOnCaptcha "https://auth.bupt.edu.cn/authserver/captcha?captchaId=4482662716&r=5"
       "JSESSIONID=abc123"]
  /\ ~ (exists suffix,
          "https://auth.bupt.edu.cn/authserver/captcha?captchaId=4482662716&r=5"
          = CAPTCHA_URL ++ "4482662716" ++ "&r=" ++ suffix
          /\ String.length suffix = 5%nat
          /\ Str.all_digits suffix = true).
Proof.
  split; [reflexivity|].
  intros [suffix [Heq [Hlen _]]].
  cbn in Heq. inversion Heq. subst suffix. discriminate Hlen.
Qed.

(** C9 with a callback and an OCR configuration on a page with a captcha. *)
Lemma login_callback_before_ocr_witness :
  fst (run (Scripted.getCookieAndExecution
              (callback_options (typed "k7xq") (Some {| token := "tok"; maxRetries := None |})))
         flaky_ocr)
  = Resolved (solved_session "k7xq")
  /\ existsb is_ocr_request
       (trace (snd (run (Scripted.login "u" "p"
                           (callback_options (typed "k7xq")
                              (Some {| token := "tok"; maxRetries := None |})))
                      flaky_ocr))) = false.
Proof.
  edestruct (login_callback_before_ocr Script Scripted.net Scripted.random
               Scripted.URL_search "u" "p"
               {| role := None; onCaptcha := Some (typed "k7xq");
                  ocr := Some {| token := "tok"; maxRetries := None |} |}
               (typed "k7xq") {| token := "tok"; maxRetries := None |} flaky_ocr)
    as (Hsession & _ & _ & Hnone); [scripted | scripted | reflexivity | reflexivity |].
  split; [exact Hsession | exact Hnone].
Defined.

(** C10 with [maxRetries: 0] on an OCR service that always fails: three requests. *)
Lemma login_ocr_zero_retries_witness :
  effective_maxRetries {| token := "tok"; maxRetries := Some 0 |} = 3
  /\ trace (snd (run (Scripted.login "u" "p" (ocr_options (Some 0))) dead_ocr))
     = [Fetch AuthLogin GET; ocr_request; ocr_request; ocr_request]
  /\ existsb is_ocr_request
       (trace (snd (run (Scripted.login "u" "p" (ocr_options (Some 0))) flaky_ocr)))
     = true.
Proof.
  split; [|split].
  - edestruct (login_ocr_zero_retries Script Scripted.net Scripted.random
                 Scripted.URL_search "u" "p"
                 {| role := None; onCaptcha := None;
                    ocr := Some {| token := "tok"; maxRetries := Some 0 |} |}
                 {| token := "tok"; maxRetries := Some 0 |} dead_ocr)
      as (Hzero & _); [scripted | scripted | reflexivity | reflexivity |].
    destruct Hzero as (Heff & _); [left; reflexivity | exact Heff].
  - edestruct (login_ocr_zero_retries Script Scripted.net Scripted.random
                 Scripted.URL_search "u" "p"
                 {| role := None; onCaptcha := None;
                    ocr := Some {| token := "tok"; maxRetries := Some 0 |} |}
                 {| token := "tok"; maxRetries := Some 0 |} dead_ocr)
      as (Hzero & _); [scripted | scripted | reflexivity | reflexivity |].
    destruct Hzero as (_ & _ & Hthree); [left; reflexivity |].
    eapply Hthree; reflexivity.
  - edestruct (login_ocr_zero_retries Script Scripted.net Scripted.random
                 Scripted.URL_search "u" "p"
                 {| role := None; onCaptcha := None;
                    ocr := Some {| token := "tok"; maxRetries := Some 0 |} |}
                 {| token := "tok"; maxRetries := Some 0 |} flaky_ocr)
      as (_ & Hcount); [scripted | scripted | reflexivity | reflexivity |].
    destruct Hcount as (_ & Hone); [|exact Hone].
    intros m Hm. injection Hm as <-. lia.
Defined.

(* ===================================================================== *)
(** ** The further properties on the scripted environment *)
(* ===================================================================== *)

Ltac staged := repeat econstructor.

(** X1 on a listing that answers 403. *)
Lemma getUserRoles_rejected_witness :
  fst (run (Scripted.getUserRoles "rt-1") listing_forbidden)
  = Rejected (Err LoginError "获取用户角色失败: 403 Forbidden").
Proof.
  edestruct (getUserRoles_rejected Script Scripted.net "rt-1" listing_forbidden)
    as [Hrun _]; [reflexivity | reflexivity |].
  unfold Scripted.getUserRoles. now rewrite Hrun.
Defined.

(** X2 on a user with two assistant entries: the identity sent is the first. *)
Lemma refresh_identity_witness :
  exists listed ri,
    fst (run (Scripted.getUserRoles "rt-1") two_assistants) = Resolved listed
    /\ find (fun ri => Role_eqb (roleName ri) Assistant) listed = Some ri
    /\ roleName ri = Assistant
    /\ Fetch OAuthToken
         (refresh_init [("grant_type", "refresh_token"); ("refresh_token", "rt-1");
                        ("identity", "r-ast")])
       = Fetch OAuthToken
           (refresh_init [("grant_type", "refresh_token"); ("refresh_token", "rt-1");
                          ("identity", id ri)]).
Proof.
  apply (refresh_identity Script Scripted.net "rt-1" Assistant two_assistants).
  - right. left. reflexivity.
  - reflexivity.
Defined.

(** X3 on the scripted backend: one request, the token bundle returned. *)
Lemma refresh_without_role_witness :
  fst (run (Scripted.refresh "rt-1" None) happy) = Resolved alice
  /\ trace (snd (run (Scripted.refresh "rt-1" None) happy))
     = [Fetch OAuthToken
          (refresh_init [("grant_type", "refresh_token"); ("refresh_token", "rt-1")])]
  /\ fst (run (Scripted.refresh "rt-1" None) oauth_down)
     = Rejected (Err LoginError "刷新 token 失败: 502 Bad Gateway").
Proof.
  split; [|split].
  - destruct (refresh_without_role Script Scripted.net "rt-1" happy)
      as (_ & Hok & _).
    exact (Hok _ alice eq_refl eq_refl eq_refl).
  - destruct (refresh_without_role Script Scripted.net "rt-1" happy)
      as (Htrace & _).
    exact Htrace.
  - destruct (refresh_without_role Script Scripted.net "rt-1" oauth_down)
      as (_ & _ & Hfail).
    exact (Hfail _ eq_refl eq_refl).
Defined.

(** X4 on the same user, a 2xx exchange. *)
Lemma refresh_with_role_witness :
  fst (run (Scripted.refresh "rt-1" (Some Assistant)) two_assistants) = Resolved alice
  /\ snd (run (Scripted.refresh "rt-1" (Some Assistant)) two_assistants)
     = {| world := two_assistants;
          trace := [Fetch ListByUserId (roles_init "rt-1");
                    Fetch OAuthToken
                      (refresh_init [("grant_type", "refresh_token");
                                     ("refresh_token", "rt-1");
                                     ("identity", "r-ast")])] |}.
Proof.
  edestruct (refresh_with_role Script Scripted.net "rt-1" Assistant two_assistants
               two_assistants two_assistants
               {| status := 200; statusText := "OK"; headers := [];
                  text := EmptyString;
                  json := Fulfilled
                            {| data := [student_role; assistant_role; second_assistant] |} |}
               {| data := [student_role; assistant_role; second_assistant] |}
               assistant_role)
    as (Hstate & Hok & _);
    [reflexivity | reflexivity | reflexivity | reflexivity | reflexivity |].
  split; [exact (Hok alice eq_refl eq_refl) | exact Hstate].
Defined.

(** X5 on a page with a cookie and an empty form. *)
Lemma login_without_execution_witness :
  run (Scripted.login "u" "p" None) no_execution
  = (Rejected (Err LoginError "登录失败(-2): 无法获取到 execution"),
     {| world := no_execution; trace := [Fetch AuthLogin GET] |}).
Proof.
  edestruct (login_without_execution Script Scripted.net Scripted.random
               Scripted.URL_search "u" "p" None no_execution)
    as (Hrun & _); [reflexivity | reflexivity | reflexivity | reflexivity |].
  exact Hrun.
Defined.

(** X6 on a page without captcha, with an OCR configuration. *)
Lemma login_unchallenged_witness :
  existsb is_ocr_request
    (trace (snd (run (Scripted.login "u" "p" (ocr_options None)) flaky_ocr_plain)))
  = false
  /\ existsb is_callback
       (trace (snd (run (Scripted.login "u" "p" (ocr_options None)) flaky_ocr_plain)))
     = false.
Proof.
  edestruct (login_unchallenged Script Scripted.net Scripted.random
               Scripted.URL_search "u" "p" (ocr_options None) flaky_ocr_plain)
    as (_ & _ & Hcb & Hocr); [scripted | left; reflexivity |].
  split; [exact Hocr | exact Hcb].
Defined.

(** X7 on a callback that gives up. *)
Lemma login_callback_rejects_witness :
  run (Scripted.login "u" "p" (callback_options refusing None)) with_captcha
  = (Rejected cancelled,
     {| world := with_captcha;
        trace := [Fetch AuthLogin GET; CallOnCaptcha CAPTCHA_IMAGE "JSESSIONID=abc123"] |}).
Proof.
  unfold Scripted.login, callback_options.
  erewrite (login_callback_rejects Script Scripted.net Scripted.random
              Scripted.URL_search "u" "p"
              {| role := None; onCaptcha := Some refusing; ocr := None |} refusing
              with_captcha); cycle 1.
  - scripted.
  - scripted.
  - reflexivity.
  - reflexivity.
  - reflexivity.
Defined.

(** X8 on a callback that answers with the empty string. *)
Lemma login_callback_empty_text_witness :
  nth_error
    (trace (snd (run (Scripted.login "u" "p" (callback_options (typed EmptyString) None))
                   with_captcha))) 2
  = Some (Fetch AuthLogin
            (submit_init "u" "p"
               {| sd_id := "4482662716"; sd_cookie := "JSESSIONID=abc123";
                  sd_execution := "e1s1"; sd_captcha := Some EmptyString |}))
  /\ body (submit_init "u" "p"
             {| sd_id := "4482662716"; sd_cookie := "JSESSIONID=abc123";
                sd_execution := "e1s1"; sd_captcha := Some EmptyString |})
     = TextBody "username=u&password=p&submit=%E7%99%BB%E5%BD%95&type=username_password&execution=e1s1&_eventId=submit".
Proof.
  edestruct (login_callback_empty_text Script Scripted.net Scripted.random
               Scripted.URL_search "u" "p"
               {| role := None; onCaptcha := Some (typed EmptyString); ocr := None |}
               (typed EmptyString) with_captcha)
    as ([evs Htrace] & Hbody); [scripted | scripted | reflexivity | reflexivity |].
  split; [|exact Hbody].
  unfold Scripted.login, callback_options. rewrite Htrace. reflexivity.
Defined.

(** X9 on a 302 without [Location], and on one with an empty ticket. *)
Lemma login_redirect_unusable_witness :
  fst (run (Scripted.login "u" "p" None) no_location)
  = Rejected (Err LoginError "登录失败(5): 无法获取到重定向目标")
  /\ fst (run (Scripted.login "u" "p" None) empty_ticket)
     = Rejected (Err LoginError "登录失败(6): 无法获取到ticket").
Proof.
  split.
  - edestruct (login_redirect_unusable Script Scripted.net Scripted.random
                 Scripted.URL_search "u" "p" None no_location)
      as (H & _); [scripted | reflexivity |].
    destruct H as [Hrun _]; [left; reflexivity |].
    unfold Scripted.login. now rewrite Hrun.
  - edestruct (login_redirect_unusable Script Scripted.net Scripted.random
                 Scripted.URL_search "u" "p" None empty_ticket)
      as (_ & H); [scripted | reflexivity |].
    edestruct (H "https://ucloud.bupt.edu.cn/?ticket=" "?ticket=") as [Hrun _];
      [reflexivity | discriminate | reflexivity | reflexivity |].
    unfold Scripted.login. now rewrite Hrun.
Defined.

(** X10 on a token endpoint that answers 502. *)
Lemma login_exchange_rejected_witness :
  run (Scripted.login "u" "p" None) oauth_down
  = (Rejected (Err LoginError "登录失败(7): 502 Bad Gateway"),
     {| world := oauth_down;
        trace := [Fetch AuthLogin GET;
                  Fetch AuthLogin (submit_init "u" "p" plain_session);
                  Fetch OAuthToken HAPPY_TICKET] |}).
Proof.
  edestruct (login_exchange_rejected Script Scripted.net Scripted.random
               Scripted.URL_search "u" "p" None oauth_down)
    as (Hrun & _); [scripted | staged | reflexivity | reflexivity |].
  exact Hrun.
Defined.

(** X11 on a user without role. *)
Lemma login_without_roles_witness :
  run (Scripted.login "u" "p" None) no_roles
  = (Rejected (Err LoginError "登录失败(8): 用户无任何角色"),
     {| world := no_roles;
        trace := [Fetch AuthLogin GET;
                  Fetch AuthLogin (submit_init "u" "p" plain_session);
                  Fetch OAuthToken HAPPY_TICKET;
                  Fetch ListByUserId (roles_init "rt-1")] |}).
Proof.
  edestruct (login_without_roles Script Scripted.net Scripted.random
               Scripted.URL_search "u" "p" None no_roles)
    as (Hrun & _);
    [scripted | staged | scripted | reflexivity | reflexivity | reflexivity
     | reflexivity |].
  exact Hrun.
Defined.

(** X12 on the scripted backend: the bundle of the refresh, the roles of the
    listing. *)
Lemma login_finishes_with_refresh_witness :
  fst (run (Scripted.login "u" "p" None) happy)
  = Resolved {| info := alice; roles := [student_role; assistant_role] |}.
Proof.
  unfold Scripted.login.
  erewrite (login_finishes_with_refresh Script Scripted.net Scripted.random
              Scripted.URL_search "u" "p" None happy); cycle 1.
  - scripted.
  - staged.
  - scripted.
  - reflexivity.
  - reflexivity.
  - reflexivity.
  - reflexivity.
  - reflexivity.
Defined.

(** X13 on the same login: the identity is the one of the student role. *)
Lemma login_resolved_witness :
  exists sd s1 response w2 ticket response2 w3 userInfo first rest listed ri,
    submitted Script Scripted.net Scripted.random "u" "p" None happy sd s1 response w2
    /\ redirected Scripted.URL_search response ticket
    /\ exchanged Script Scripted.net ticket w2 response2 w3 userInfo
    /\ (let s3 := {| world := w3;
                     trace := trace s1
                              ++ [Fetch AuthLogin (submit_init "u" "p" sd);
                                  Fetch OAuthToken (ticket_init ticket)] |} in
        fst (Scripted.getUserRoles (refresh_token userInfo) s3)
        = Resolved (first :: rest)
        /\ fst (Scripted.getUserRoles (refresh_token userInfo)
                  (snd (Scripted.getUserRoles (refresh_token userInfo) s3)))
           = Resolved listed)
    /\ [student_role; assistant_role] = first :: rest
    /\ find (fun ri => Role_eqb (roleName ri) (chosen_role None first)) listed
       = Some ri
    /\ trace (snd (run (Scripted.login "u" "p" None) happy))
       = (trace s1 ++ [Fetch AuthLogin (submit_init "u" "p" sd);
                       Fetch OAuthToken (ticket_init ticket);
                       Fetch ListByUserId (roles_init (refresh_token userInfo));
                       Fetch ListByUserId (roles_init (refresh_token userInfo));
                       Fetch OAuthToken
                         (refresh_init [("grant_type", "refresh_token");
                                        ("refresh_token", refresh_token userInfo);
                                        ("identity", id ri)])])%list
    /\ forallb (fun e => negb (is_submission e) && negb (is_exchange e)) (trace s1)
       = true.
Proof.
  apply (login_resolved Script Scripted.net Scripted.random Scripted.URL_search
           "u" "p" None happy
           {| info := alice; roles := [student_role; assistant_role] |}).
  reflexivity.
Defined.

(** X20 on a password that holds a space, [&], [=], [+], [%] and a
    non-ASCII letter. *)
Lemma submit_body_credentials_witness :
  Query.get_text (submit_body "u" ("p w&d=1+%41" ++ Str.chr 195 ++ Str.chr 169) plain_session)
    "username" = Some "u"
  /\ Query.get_text (submit_body "u" ("p w&d=1+%41" ++ Str.chr 195 ++ Str.chr 169) plain_session)
       "password" = Some ("p w&d=1+%41" ++ Str.chr 195 ++ Str.chr 169).
Proof.
  apply (submit_body_credentials "u" ("p w&d=1+%41" ++ Str.chr 195 ++ Str.chr 169)
           plain_session); reflexivity.
Defined.

(** X15 on the same login. *)
Lemma login_exchange_needs_ticket_witness :
  exists sd s1 response w2 ticket,
    submitted Script Scripted.net Scripted.random "u" "p" None happy sd s1 response w2
    /\ redirected Scripted.URL_search response ticket.
Proof.
  apply (login_exchange_needs_ticket Script Scripted.net Scripted.random
           Scripted.URL_search "u" "p" None happy).
  reflexivity.
Defined.

(** X17 on an OCR service that answers without text, [maxRetries: 1]. *)
Lemma login_ocr_without_text_witness :
  run (Scripted.login "u" "p" (ocr_options (Some 1))) blind_ocr
  = (Rejected (Err OCRError "OCR 识别失败: unreadable image"),
     {| world := with_captcha; trace := [Fetch AuthLogin GET; ocr_request] |}).
Proof.
  edestruct (login_ocr_without_text Script Scripted.net Scripted.random
               Scripted.URL_search "u" "p"
               {| role := None; onCaptcha := None;
                  ocr := Some {| token := "tok"; maxRetries := Some 1 |} |}
               {| token := "tok"; maxRetries := Some 1 |} blind_ocr)
    as (Hrun & _);
    [scripted | scripted | reflexivity | reflexivity | reflexivity | reflexivity
     | reflexivity | left; reflexivity |].
  exact Hrun.
Defined.

(** X18 with [maxRetries: -1]. *)
Lemma login_ocr_negative_throws_null_witness :
  run (Scripted.login "u" "p" (ocr_options (Some (-1)))) flaky_ocr
  = (Rejected (NonError "null"),
     {| world := flaky_ocr; trace := [Fetch AuthLogin GET] |}).
Proof.
  eapply (login_ocr_negative_throws_null Script Scripted.net Scripted.random
            Scripted.URL_search "u" "p"
            {| role := None; onCaptcha := None;
               ocr := Some {| token := "tok"; maxRetries := Some (-1) |} |}
            {| token := "tok"; maxRetries := Some (-1) |} (-1) flaky_ocr);
    [scripted | scripted | reflexivity | reflexivity | reflexivity | lia].
Defined.

(** X19 on the session of a solved captcha. *)
Lemma session_values_delimited_witness :
  Str.contains ";" (sd_cookie (solved_session "k7xq")) = false
  /\ Str.contains Str.dquote (sd_execution (solved_session "k7xq")) = false
  /\ Str.has_line_terminator (sd_execution (solved_session "k7xq")) = false
  /\ Str.contains "'" (sd_id (solved_session "k7xq")) = false
  /\ Str.has_line_terminator (sd_id (solved_session "k7xq")) = false.
Proof.
  apply (session_values_delimited Script Scripted.net Scripted.random
           (callback_options (typed "k7xq") None) with_captcha
           (solved_session "k7xq")
           {| world := with_captcha;
              trace := [Fetch AuthLogin GET;
                        CallOnCaptcha CAPTCHA_IMAGE "JSESSIONID=abc123"] |}).
  reflexivity.
Defined.

(** X22 with the network down for the login page, then for the submission. *)
Lemma login_network_failure_witness :
  run (Scripted.login "u" "p" None) offline
  = (Rejected (Err (PlatformError "TypeError") "fetch failed"),
     {| world := offline; trace := [Fetch AuthLogin GET] |})
  /\ run (Scripted.login "u" "p" None) cut_off
     = (Rejected (Err (PlatformError "TypeError") "fetch failed"),
        {| world := cut_off;
           trace := [Fetch AuthLogin GET;
                     Fetch AuthLogin (submit_init "u" "p" plain_session)] |}).
Proof.
  split.
  - destruct (login_network_failure Script Scripted.net Scripted.random
                Scripted.URL_search "u" "p" None offline) as [Hpage _].
    exact (Hpage "TypeError" "fetch failed" offline eq_refl).
  - destruct (login_network_failure Script Scripted.net Scripted.random
                Scripted.URL_search "u" "p" None cut_off) as [_ Hsubmit].
    exact (Hsubmit plain_session {| world := cut_off; trace := [Fetch AuthLogin GET] |}
             "TypeError" "fetch failed" cut_off eq_refl eq_refl).
Defined.

(** X23 on a 401 with an empty page. *)
Lemma login_unauthorized_without_message_witness :
  fst (run (Scripted.login "u" "p" None) bare_401)
  = Rejected (Err LoginError "登录失败(2): 未知错误").
Proof.
  edestruct (login_unauthorized_without_message Script Scripted.net Scripted.random
               Scripted.URL_search "u" "p" None bare_401)
    as [Hrun _]; [scripted | reflexivity | reflexivity |].
  unfold Scripted.login. now rewrite Hrun.
Defined.

(** X24 on a student who asks for the teacher role. *)
Lemma login_role_not_found_witness :
  fst (run (Scripted.login "u" "p" teacher_options) only_student)
  = Rejected (Err LoginError "用户不存在角色 教师")
  /\ List.length (filter is_token_request
                    (trace (snd (run (Scripted.login "u" "p" teacher_options)
                                   only_student)))) = 1%nat.
Proof.
  edestruct (login_role_not_found Script Scripted.net Scripted.random
               Scripted.URL_search "u" "p" teacher_options only_student)
    as [Hrun _].
  - scripted.
  - staged.
  - scripted.
  - reflexivity.
  - reflexivity.
  - reflexivity.
  - reflexivity.
  - reflexivity.
  - reflexivity.
  - reflexivity.
  - intros ri [<- | []]. discriminate.
  - unfold Scripted.login. rewrite Hrun. split; reflexivity.
Defined.
